(** * Daily analytics ledger and peptide suggestions

    A shallow embedding of

    - [backend/src/services/analyticsService.js] (class [AnalyticsService]):
      the event recorder, the read-modify-write of the JSON ledger file with
      its 90 day prune, and the day / range / summary queries;
    - [backend/src/services/suggestionsService.js] (class
      [SuggestionsService]): [getSuggestions] and its catalog, the notes
      of [getPersonalizedNote] and the goals of [getAvailableGoals];
    - the handlers of [POST /suggestions] ([routes/suggestions.js]) and
      [GET /analytics] (the Express application), as they run once the
      request has passed the middleware before them.

    Conventions of the embedding.

    - A JavaScript object used as a map is an association list in insertion
      order ([obj]); its keys are no canonical array indices, which
      JavaScript would reorder.  Where the source looks up a goal, a name
      that is not the object's own is found in [Object.prototype]
      ([obj_read]); a date key is a date text, none of which is a name of
      [Object.prototype], and is looked up among the own keys ([obj_get]).
    - Counters are natural numbers; JavaScript holds them as doubles, which
      are exact below 2^53.  A tally of goal selections can also be [NaN].
      Where the source divides, the numbers are IEEE 754 doubles
      ([SpecFloat], precision 53).
    - A [Date] is its time value, the milliseconds since 1970-01-01 UTC.
      The clock of the process is given by its UTC day number and the
      milliseconds of that day; one call reads the clock at one instant.
    - [setDate] and [getDate] work in the local time of the process: a zone
      has a standard offset from UTC and one hour of summer time, and the
      host tells when that is in force.  Offsets that a zone had at other
      times are left out.
    - [new Date(text)] is worked out for the form YYYY-MM-DD; what it makes
      of any other text is left to the host.
    - The ledger file either is missing, holds text that [JSON.parse]
      rejects, or holds a ledger as this service writes it.  A write to it
      goes through, or is refused when the file is opened, or fails after
      the file was truncated.
    - [async] methods run to completion one at a time; a rejected promise is
      an outcome [Throw].
    - Left out: the loggers of [utils/logger], which only write log lines,
      the constructor's [ensureDataDirectory], and the midnight timer of
      [resetCountersDaily]. *)

From Stdlib Require Import ZArith List String Ascii Bool Lia FinFun.
From Stdlib Require Import SpecFloat DecimalString.
Import ListNotations.

(* ------------------------------------------------------------------ *)
(** ** JavaScript objects with string keys *)

Section JsObject.
Variable V : Type.

Definition obj := list (string * V).

(** [o[k]] *)
Fixpoint obj_get (k : string) (o : obj) : option V :=
  match o with
  | [] => None
  | (k', v) :: rest => if String.eqb k k' then Some v else obj_get k rest
  end.

(** [o[k] = v]: an existing key keeps its place, a new key goes last. *)
Fixpoint obj_set (k : string) (v : V) (o : obj) : obj :=
  match o with
  | [] => [(k, v)]
  | (k', v') :: rest =>
      if String.eqb k k' then (k', v) :: rest else (k', v') :: obj_set k v rest
  end.

(** [delete o[k]] *)
Fixpoint obj_delete (k : string) (o : obj) : obj :=
  match o with
  | [] => []
  | (k', v') :: rest =>
      if String.eqb k k' then rest else (k', v') :: obj_delete k rest
  end.

Definition obj_keys (o : obj) : list string := map fst o.
Definition obj_values (o : obj) : list V := map snd o.
End JsObject.

Arguments obj_get {V} k o.
Arguments obj_set {V} k v o.
Arguments obj_delete {V} k o.
Arguments obj_keys {V} o.
Arguments obj_values {V} o.

Open Scope string_scope.

(** The objects of the service are object literals or come out of
    [JSON.parse]: a name that is not an object's own is looked up in
    [Object.prototype], whose members are methods, and [__proto__], which
    reads as [Object.prototype] itself. *)
Inductive ProtoMember :=
| ProtoFunction (length : nat)     (* a method, with its [length] *)
| ProtoObject.                     (* [Object.prototype] *)

Definition objectPrototype : obj ProtoMember :=
  [("constructor", ProtoFunction 1);
   ("__defineGetter__", ProtoFunction 2);
   ("__defineSetter__", ProtoFunction 2);
   ("hasOwnProperty", ProtoFunction 1);
   ("__lookupGetter__", ProtoFunction 1);
   ("__lookupSetter__", ProtoFunction 1);
   ("isPrototypeOf", ProtoFunction 1);
   ("propertyIsEnumerable", ProtoFunction 1);
   ("toString", ProtoFunction 0);
   ("valueOf", ProtoFunction 0);
   ("__proto__", ProtoObject);
   ("toLocaleString", ProtoFunction 0)].

(** The names every object inherits. *)
Definition inheritedName (k : string) : bool :=
  existsb (String.eqb k) (obj_keys objectPrototype).

Inductive Lookup (V : Type) :=
| Own (v : V)
| Inherited (member : ProtoMember)
| Undefined.

Arguments Own {V} v.
Arguments Inherited {V} member.
Arguments Undefined {V}.

(** [o[k]], through the prototype. *)
Definition obj_read {V} (k : string) (o : obj V) : Lookup V :=
  match obj_get k o with
  | Some v => Own v
  | None =>
      match obj_get k objectPrototype with
      | Some member => Inherited member
      | None => Undefined
      end
  end.

(** A tally of goal selections: a number, or [NaN], which [JSON.stringify]
    writes as [null] and [JSON.parse] reads back as [null]; the two are
    falsy alike, and one constructor stands for both. *)
Inductive Tally :=
| Count (n : nat)
| NotANumber.

(** [if (!o[k]) o[k] = 0; o[k]++].  An inherited member is truthy, so the
    guard is passed over, and [++] makes [NaN] of it: a method is shadowed
    by an own [NaN], and the setter of [__proto__] drops the number. *)
Definition obj_incr (k : string) (o : obj Tally) : obj Tally :=
  match obj_read k o with
  | Own (Count n) => obj_set k (Count (S n)) o
  | Own NotANumber => obj_set k (Count 1) o
  | Undefined => obj_set k (Count 1) o
  | Inherited (ProtoFunction _) => obj_set k NotANumber o
  | Inherited ProtoObject => o
  end.

Close Scope string_scope.

(* ------------------------------------------------------------------ *)
(** ** The calendar behind [Date]

    [toISOString().split('T')[0]] of a date is [toISODate] of the day
    number of its time value; [new Date("YYYY-MM-DD")] is midnight UTC of
    the day number [parseISODate]. *)

Open Scope Z_scope.

Record civil := mkCivil { year : Z; month : Z; dayOfMonth : Z }.

Definition isLeapYear (y : Z) : bool :=
  (y mod 4 =? 0) && (negb (y mod 100 =? 0) || (y mod 400 =? 0)).

Definition daysInMonth (y m : Z) : Z :=
  if m =? 2 then (if isLeapYear y then 29 else 28)
  else if (m =? 4) || (m =? 6) || (m =? 9) || (m =? 11) then 30
  else 31.

Definition nextDay (c : civil) : civil :=
  if dayOfMonth c <? daysInMonth (year c) (month c)
  then mkCivil (year c) (month c) (dayOfMonth c + 1)
  else if month c <? 12 then mkCivil (year c) (month c + 1) 1
  else mkCivil (year c + 1) 1 1.

Definition prevDay (c : civil) : civil :=
  if 1 <? dayOfMonth c
  then mkCivil (year c) (month c) (dayOfMonth c - 1)
  else if 1 <? month c
  then mkCivil (year c) (month c - 1) (daysInMonth (year c) (month c - 1))
  else mkCivil (year c - 1) 12 31.

Definition epochCivil : civil := mkCivil 1970 1 1.

(** Year, month and day of a day number (ECMAScript YearFromTime,
    MonthFromTime, DateFromTime), by walking from the epoch. *)
Definition civilOfDay (d : Z) : civil :=
  match d with
  | Z0 => epochCivil
  | Zpos p => Pos.iter nextDay epochCivil p
  | Zneg p => Pos.iter prevDay epochCivil p
  end.

(** ECMAScript DayFromYear. *)
Definition dayFromYear (y : Z) : Z :=
  365 * (y - 1970) + (y - 1969) / 4 - (y - 1901) / 100 + (y - 1601) / 400.

Definition daysBeforeMonth (y m : Z) : Z :=
  (if m <=? 1 then 0 else if m =? 2 then 31 else if m =? 3 then 59
   else if m =? 4 then 90 else if m =? 5 then 120 else if m =? 6 then 151
   else if m =? 7 then 181 else if m =? 8 then 212 else if m =? 9 then 243
   else if m =? 10 then 273 else if m =? 11 then 304 else 334)
  + (if (2 <? m) && isLeapYear y then 1 else 0).

(** ECMAScript MakeDay for a month in 1..12: a day of the month past the
    month's end runs into the next month. *)
Definition dayOfCivil (c : civil) : Z :=
  dayFromYear (year c) + daysBeforeMonth (year c) (month c) + (dayOfMonth c - 1).

Definition digitChar (n : Z) : ascii := ascii_of_nat (48 + Z.to_nat n).

(** The last [k] decimal digits of [n], most significant first, before [rest]. *)
Fixpoint padDigits (k : nat) (n : Z) (rest : string) : string :=
  match k with
  | O => rest
  | S k' => padDigits k' (n / 10) (String (digitChar (n mod 10)) rest)
  end.

(** Four digits for the years 0..9999, a sign and six digits otherwise. *)
Definition isoYear (y : Z) (rest : string) : string :=
  if (0 <=? y) && (y <=? 9999) then padDigits 4 y rest
  else String (if y <? 0 then "-"%char else "+"%char)
         (padDigits 6 (Z.abs y) rest).

Definition isoCivil (c : civil) : string :=
  isoYear (year c)
    (String "-" (padDigits 2 (month c)
       (String "-" (padDigits 2 (dayOfMonth c) EmptyString)))).

Definition toISODate (d : Z) : string := isoCivil (civilOfDay d).

Definition digitVal (c : ascii) : option Z :=
  let n := Z.of_nat (nat_of_ascii c) in
  if (48 <=? n) && (n <=? 57) then Some (n - 48) else None.

Definition isDash (c : ascii) : bool := Ascii.eqb c "-".

(** The day number of [new Date(s)] for the date-only form [YYYY-MM-DD]
    (UTC midnight): V8 takes a month in 1..12 and a day in 1..31.  [None]
    for any other text, which [dateParse] hands to the host. *)
Definition parseISODate (s : string) : option Z :=
  match s with
  | String y3 (String y2 (String y1 (String y0 (String s1
      (String m1 (String m0 (String s2 (String d1 (String d0 EmptyString))))))))) =>
      match digitVal y3, digitVal y2, digitVal y1, digitVal y0,
            digitVal m1, digitVal m0, digitVal d1, digitVal d0 with
      | Some a, Some b, Some c, Some e, Some f, Some g, Some h, Some i =>
          let y := 1000 * a + 100 * b + 10 * c + e in
          let m := 10 * f + g in
          let d := 10 * h + i in
          if isDash s1 && isDash s2
             && (1 <=? m) && (m <=? 12) && (1 <=? d) && (d <=? 31)
          then Some (dayOfCivil (mkCivil y m d))
          else None
      | _, _, _, _, _, _, _, _ => None
      end
  | _ => None
  end.

(** Dates that exist in the calendar. *)
Definition validCivil (c : civil) : Prop :=
  1 <= month c <= 12 /\ 1 <= dayOfMonth c <= daysInMonth (year c) (month c).

(** Chronological order on year, month, day. *)
Definition civil_lt (c c' : civil) : Prop :=
  year c < year c' \/
  (year c = year c' /\
   (month c < month c' \/ (month c = month c' /\ dayOfMonth c < dayOfMonth c'))).

Definition civil_compare (c c' : civil) : comparison :=
  match year c ?= year c' with
  | Eq => match month c ?= month c' with
          | Eq => dayOfMonth c ?= dayOfMonth c'
          | r => r
          end
  | r => r
  end.

(** Fields that fit the four and two digit columns. *)
Definition printable (c : civil) : Prop :=
  0 <= year c <= 9999 /\ 0 <= month c <= 99 /\ 0 <= dayOfMonth c <= 99.

(** Day numbers whose year has four digits: 0000-01-01 .. 9999-12-31. *)
Definition fourDigitYear (d : Z) : Prop := -719528 <= d <= 2932896.

(** *** Time values

    A [Date] holds a time value: milliseconds since the epoch, UTC. *)

Definition msPerDay : Z := 86400000.
Definition msPerHour : Z := 3600000.
Definition msPerMinute : Z := 60000.

(** ECMAScript Day. *)
Definition dayOfTime (t : Z) : Z := t / msPerDay.

(** ECMAScript TimeClip: a [Date] beyond 100,000,000 days from the epoch
    is invalid. *)
Definition validTime (t : Z) : bool := Z.abs t <=? 8640000000000000.

(** What follows the 'T' in [toISOString()], for the milliseconds of a day. *)
Definition isoTime (r : Z) : string :=
  padDigits 2 (r / msPerHour)
    (String ":" (padDigits 2 (r / msPerMinute mod 60)
       (String ":" (padDigits 2 (r / 1000 mod 60)
          (String "." (padDigits 3 (r mod 1000) (String "Z" EmptyString))))))).

(** The time zone of the process: a standard offset from UTC, in minutes,
    and one hour of summer time, which the host tells to be in force or not
    at a time value and at a local time value (ECMAScript LocalTZA with
    [isUTC] true and false). *)
Record Zone := mkZone {
  standardOffset : Z;
  summerTimeAt : Z -> bool;
  summerTimeAtLocal : Z -> bool
}.

Definition LocalTZA (z : Zone) (t : Z) (isUTC : bool) : Z :=
  standardOffset z * msPerMinute
  + (if (if isUTC then summerTimeAt z t else summerTimeAtLocal z t)
     then msPerHour else 0).

Definition LocalTime (z : Zone) (t : Z) : Z := t + LocalTZA z t true.

Definition UTC (z : Zone) (t : Z) : Z := t - LocalTZA z t false.

(** [d.setDate(d.getDate() + k)]: [k] days on in local time, at the same
    local time of day. *)
Definition setDateBy (z : Zone) (k : Z) (t : Z) : Z :=
  UTC z (LocalTime z t + k * msPerDay).

(* ------------------------------------------------------------------ *)
(** ** Outcomes and the world of the service *)

Inductive exn :=
| FsError (what : string)      (* fs.readFile / fs.writeFile rejected *)
| SyntaxError                  (* JSON.parse *)
| TypeError (what : string)
| RangeError (what : string)   (* toISOString of an invalid Date *)
| Error (message : string).

Inductive outcome (A : Type) :=
| Return (a : A)
| Throw (e : exn).

Arguments Return {A} a.
Arguments Throw {A} e.

Close Scope Z_scope.
Open Scope string_scope.

(** [dayData.uniqueIPs] is a [Set] in a record made by
    [updateDailyAnalytics], and an array in a record that came out of
    [JSON.parse]. *)
Inductive IPs :=
| IPSet (members : list string)
| IPArray (items : list string).

Record ErrorEntry := mkErrorEntry {
  entry_error : option string;
  entry_timestamp : string;
  entry_requestId : option string
}.

(** A day record; [C] is what [uniqueIPs] holds. *)
Record DayRecord (C : Type) := mkDay {
  date : string;
  totalRequests : nat;
  successfulRequests : nat;
  failedRequests : nat;
  goalSelections : obj Tally;
  errors : list ErrorEntry;
  averageResponseTime : nat;
  uniqueIPs : C;
  firstRequest : option string;
  lastRequest : option string
}.

Arguments mkDay {C}.
Arguments date {C}.
Arguments totalRequests {C}.
Arguments successfulRequests {C}.
Arguments failedRequests {C}.
Arguments goalSelections {C}.
Arguments errors {C}.
Arguments averageResponseTime {C}.
Arguments uniqueIPs {C}.
Arguments firstRequest {C}.
Arguments lastRequest {C}.

(** A record as the file holds it, and as the update works on it. *)
Definition StoredDay := DayRecord (list string).
Definition DayData := DayRecord IPs.
Definition Ledger := obj StoredDay.

(** The fields of [requestData] that the service reads. *)
Record RequestData := mkRequest {
  requestId : option string;
  ip : option string;
  error : option string
}.

(** [eventType] with its [data]. *)
Inductive Event :=
| goalSelection (goal : string)
| successfulRequest (requestData : RequestData)
| failedRequest (requestData : RequestData).

Record DailyCounters := mkCounters {
  counter_requests : nat;
  counter_goalSelections : obj Tally;
  counter_errors : nat;
  counter_successfulRequests : nat
}.

Inductive FileText :=
| InvalidText                    (* not JSON *)
| LedgerText (analytics : Ledger).

Inductive FileState :=
| FileMissing
| FileHolds (text : FileText).

(** What [fs.writeFile] meets: it opens the file with [O_TRUNC] and then
    writes.  A refused open leaves the file alone; a write that fails for
    lack of space comes after the truncation. *)
Inductive Disk :=
| TakesWrites
| RefusesOpen
| OutOfSpace.

Record World := mkWorld {
  analyticsFile : FileState;
  disk : Disk;
  clockDay : Z;                  (* UTC day number of [new Date()] *)
  clockMs : Z;                   (* its milliseconds since UTC midnight *)
  zone : Zone;
  legacyDateParse : string -> option Z;
                                 (* [Date.parse] of a text that is not
                                    YYYY-MM-DD: left to the host *)
  dailyCounters : DailyCounters;
  consoleErrors : list (string * exn)
}.

(** Whether [fs.writeFile] goes through. *)
Definition diskWritable (w : World) : bool :=
  match disk w with
  | TakesWrites => true
  | RefusesOpen | OutOfSpace => false
  end.

Definition msOfDay (w : World) : Z := (clockMs w mod msPerDay)%Z.

(** What follows the 'T' in [new Date().toISOString()]. *)
Definition clockTime (w : World) : string := isoTime (msOfDay w).

(** The time value of [new Date()]. *)
Definition now (w : World) : Z := (clockDay w * msPerDay + msOfDay w)%Z.

Definition withFile (f : FileState) (w : World) : World :=
  mkWorld f (disk w) (clockDay w) (clockMs w) (zone w) (legacyDateParse w)
          (dailyCounters w) (consoleErrors w).

Definition withCounters (c : DailyCounters) (w : World) : World :=
  mkWorld (analyticsFile w) (disk w) (clockDay w) (clockMs w) (zone w)
          (legacyDateParse w) c (consoleErrors w).

Definition withConsoleError (what : string) (e : exn) (w : World) : World :=
  mkWorld (analyticsFile w) (disk w) (clockDay w) (clockMs w) (zone w)
          (legacyDateParse w) (dailyCounters w) (consoleErrors w ++ [(what, e)]).

Definition IO (A : Type) : Type := World -> outcome A * World.

Definition ret {A} (a : A) : IO A := fun w => (Return a, w).

Definition throw {A} (e : exn) : IO A := fun w => (Throw e, w).

Definition bind {A B} (m : IO A) (k : A -> IO B) : IO B :=
  fun w =>
    match m w with
    | (Return a, w') => k a w'
    | (Throw e, w') => (Throw e, w')
    end.

(** [try { body } catch (error) { handler }] *)
Definition tryCatch {A} (body : IO A) (handler : exn -> IO A) : IO A :=
  fun w =>
    match body w with
    | (Return a, w') => (Return a, w')
    | (Throw e, w') => handler e w'
    end.

Definition liftOutcome {A} (o : outcome A) : IO A := fun w => (o, w).

Notation "x <- m ;; k" := (bind m (fun x => k))
  (at level 61, m at next level, right associativity).
Notation "m ;;; k" := (bind m (fun _ => k))
  (at level 61, right associativity).

(** [fs.readFile(this.analyticsFile, 'utf8')] *)
Definition readFile : IO FileText :=
  fun w =>
    match analyticsFile w with
    | FileMissing => (Throw (FsError "ENOENT"), w)
    | FileHolds text => (Return text, w)
    end.

Definition JSON_parse (text : FileText) : IO Ledger :=
  match text with
  | InvalidText => throw SyntaxError
  | LedgerText analytics => ret analytics
  end.

Definition JSON_stringify (analytics : Ledger) : FileText := LedgerText analytics.

(** [fs.writeFile(this.analyticsFile, text)]: replaces the file; or the
    open is refused and the file stays as it was; or the space runs out
    after the truncation, and what is left is a cut-off text, which is not
    JSON (the text of a ledger starts with a brace that only its last
    character closes). *)
Definition writeFile (text : FileText) : IO unit :=
  fun w =>
    match disk w with
    | TakesWrites => (Return tt, withFile (FileHolds text) w)
    | RefusesOpen => (Throw (FsError "EACCES"), w)
    | OutOfSpace => (Throw (FsError "ENOSPC"), withFile (FileHolds InvalidText) w)
    end.

Definition console_error (what : string) (e : exn) : IO unit :=
  fun w => (Return tt, withConsoleError what e w).

(** [new Date().toISOString()] and its part before the 'T'. *)
Definition timestampOf (w : World) : string :=
  toISODate (clockDay w) ++ "T" ++ clockTime w.

Definition nowISOString : IO string := fun w => (Return (timestampOf w), w).

Definition todayISODate : IO string :=
  fun w => (Return (toISODate (clockDay w)), w).

(** [d.toISOString().split('T')[0]]; [toISOString] throws on an invalid
    [Date]. *)
Definition toISOStringDate (t : Z) : IO string :=
  fun w =>
    if validTime t
    then (Return (toISODate (dayOfTime t)), w)
    else (Throw (RangeError "Invalid time value"), w).

(** The time value of [d = new Date(); d.setDate(d.getDate() - k)]. *)
Definition daysAgo (k : Z) (w : World) : Z := setDateBy (zone w) (- k) (now w).

(** [d = new Date(); d.setDate(d.getDate() - k); d.toISOString().split('T')[0]] *)
Definition daysAgoISODate (k : Z) : IO string :=
  fun w => toISOStringDate (daysAgo k w) w.

Definition updateCounters (f : DailyCounters -> DailyCounters) : IO unit :=
  fun w => (Return tt, withCounters (f (dailyCounters w)) w).

(* ------------------------------------------------------------------ *)
(** ** [AnalyticsService]: recording *)

(** The record [updateDailyAnalytics] makes for a date it has not seen. *)
Definition newDayData (date : string) : DayData :=
  mkDay date 0 0 0 [] [] 0 (IPSet []) None None.

(** A record of the parsed file, as an in-memory object. *)
Definition loadedDayData (r : StoredDay) : DayData :=
  mkDay (date r) (totalRequests r) (successfulRequests r) (failedRequests r)
        (goalSelections r) (errors r) (averageResponseTime r)
        (IPArray (uniqueIPs r)) (firstRequest r) (lastRequest r).

(** [data.ip || 'unknown'] *)
Definition ipOrUnknown (data : RequestData) : string :=
  match ip data with
  | Some a => if String.eqb a "" then "unknown" else a
  | None => "unknown"
  end.

(** [set.add(x)] on the members of a [Set], in insertion order. *)
Definition set_add (members : list string) (x : string) : list string :=
  if existsb (String.eqb x) members then members else members ++ [x].

(** [dayData.uniqueIPs.add(x)]: an array has no [add]. *)
Definition uniqueIPs_add (x : string) (c : IPs) : outcome IPs :=
  match c with
  | IPSet members => Return (IPSet (set_add members x))
  | IPArray _ => Throw (TypeError "dayData.uniqueIPs.add is not a function")
  end.

(** [if (!dayData.firstRequest) dayData.firstRequest = dayData.lastRequest] *)
Definition firstRequestOr (now : string) (first : option string) : option string :=
  match first with
  | Some t => if String.eqb t "" then Some now else Some t
  | None => Some now
  end.

(** The [switch (eventType)] of [updateDailyAnalytics]. *)
Definition applyEvent (now : string) (ev : Event) (dayData : DayData)
  : outcome DayData :=
  match ev with
  | goalSelection data =>
      Return (mkDay (date dayData) (totalRequests dayData)
                (successfulRequests dayData) (failedRequests dayData)
                (obj_incr data (goalSelections dayData))
                (errors dayData) (averageResponseTime dayData)
                (uniqueIPs dayData) (firstRequest dayData) (lastRequest dayData))
  | successfulRequest data =>
      match uniqueIPs_add (ipOrUnknown data) (uniqueIPs dayData) with
      | Throw e => Throw e
      | Return ips =>
          Return (mkDay (date dayData) (S (totalRequests dayData))
                    (S (successfulRequests dayData)) (failedRequests dayData)
                    (goalSelections dayData) (errors dayData)
                    (averageResponseTime dayData) ips
                    (firstRequestOr now (firstRequest dayData)) (Some now))
      end
  | failedRequest data =>
      match uniqueIPs_add (ipOrUnknown data) (uniqueIPs dayData) with
      | Throw e => Throw e
      | Return ips =>
          Return (mkDay (date dayData) (S (totalRequests dayData))
                    (successfulRequests dayData) (S (failedRequests dayData))
                    (goalSelections dayData)
                    (errors dayData
                       ++ [mkErrorEntry (error data) now (requestId data)])
                    (averageResponseTime dayData) ips
                    (firstRequestOr now (firstRequest dayData)) (Some now))
      end
  end.

(** [dayData.uniqueIPs = Array.from(dayData.uniqueIPs)] *)
Definition arrayFromIPs (dayData : DayData) : StoredDay :=
  mkDay (date dayData) (totalRequests dayData) (successfulRequests dayData)
        (failedRequests dayData) (goalSelections dayData) (errors dayData)
        (averageResponseTime dayData)
        (match uniqueIPs dayData with IPSet l => l | IPArray l => l end)
        (firstRequest dayData) (lastRequest dayData).

(** [Object.keys(analytics).forEach(analyticsDate => {
      if (analyticsDate < cutoffDate) delete analytics[analyticsDate] })] *)
Definition pruneStep (cutoffDate : string) (analytics : Ledger)
  (analyticsDate : string) : Ledger :=
  if String.ltb analyticsDate cutoffDate
  then obj_delete analyticsDate analytics
  else analytics.

Definition pruneBefore (cutoffDate : string) (analytics : Ledger) : Ledger :=
  fold_left (pruneStep cutoffDate) (obj_keys analytics) analytics.

(** The inner [try]: a file that cannot be read or parsed is an empty ledger. *)
Definition loadAnalytics : IO Ledger :=
  tryCatch (existingData <- readFile ;; JSON_parse existingData)
           (fun _ => ret []).

(** [dayData] is [analytics[date]], made on the spot when missing; the
    object is changed in place in the source, and is put back here under
    its key once [Array.from] has run.  [date] is a date text: the three
    recording methods pass the date of [toISOString]. *)
Definition updateDailyAnalytics (date : string) (ev : Event) : IO unit :=
  tryCatch
    (analytics <- loadAnalytics ;;
     let dayData :=
       match obj_get date analytics with
       | Some r => loadedDayData r
       | None => newDayData date
       end in
     now <- nowISOString ;;
     dayData' <- liftOutcome (applyEvent now ev dayData) ;;
     let analytics' := obj_set date (arrayFromIPs dayData') analytics in
     cutoffDate <- daysAgoISODate 90 ;;
     writeFile (JSON_stringify (pruneBefore cutoffDate analytics')))
    (fun e => console_error "Error updating daily analytics:" e).

Definition logGoalSelection (goal : string) : IO unit :=
  date <- todayISODate ;;
  updateCounters (fun c =>
    mkCounters (counter_requests c)
               (obj_incr goal (counter_goalSelections c))
               (counter_errors c) (counter_successfulRequests c)) ;;;
  updateDailyAnalytics date (goalSelection goal).

Definition logSuccessfulRequest (requestData : RequestData) : IO unit :=
  date <- todayISODate ;;
  updateCounters (fun c =>
    mkCounters (S (counter_requests c)) (counter_goalSelections c)
               (counter_errors c) (S (counter_successfulRequests c))) ;;;
  updateDailyAnalytics date (successfulRequest requestData).

Definition logFailedRequest (requestData : RequestData) : IO unit :=
  date <- todayISODate ;;
  updateCounters (fun c =>
    mkCounters (S (counter_requests c)) (counter_goalSelections c)
               (S (counter_errors c)) (counter_successfulRequests c)) ;;;
  updateDailyAnalytics date (failedRequest requestData).

(** What [loadAnalytics] yields in a world. *)
Definition loadedLedger (w : World) : Ledger :=
  match analyticsFile w with
  | FileHolds (LedgerText analytics) => analytics
  | _ => []
  end.

(** The ledger that [updateDailyAnalytics] hands to [fs.writeFile], when
    the event goes through. *)
Definition updatedLedger (date : string) (ev : Event) (w : World)
  : outcome Ledger :=
  let analytics := loadedLedger w in
  let dayData :=
    match obj_get date analytics with
    | Some r => loadedDayData r
    | None => newDayData date
    end in
  match applyEvent (timestampOf w) ev dayData with
  | Return dayData' =>
      if validTime (daysAgo 90 w)
      then Return (pruneBefore (toISODate (dayOfTime (daysAgo 90 w)))
                     (obj_set date (arrayFromIPs dayData') analytics))
      else Throw (RangeError "Invalid time value")
  | Throw e => Throw e
  end.

(** The in-memory counters after an event. *)
Definition countersAfter (ev : Event) (c : DailyCounters) : DailyCounters :=
  match ev with
  | goalSelection goal =>
      mkCounters (counter_requests c)
                 (obj_incr goal (counter_goalSelections c))
                 (counter_errors c) (counter_successfulRequests c)
  | successfulRequest _ =>
      mkCounters (S (counter_requests c)) (counter_goalSelections c)
                 (counter_errors c) (S (counter_successfulRequests c))
  | failedRequest _ =>
      mkCounters (S (counter_requests c)) (counter_goalSelections c)
                 (S (counter_errors c)) (counter_successfulRequests c)
  end.

(** The three recording methods as one function of the event. *)
Definition logEvent (ev : Event) : IO unit :=
  match ev with
  | goalSelection goal => logGoalSelection goal
  | successfulRequest requestData => logSuccessfulRequest requestData
  | failedRequest requestData => logFailedRequest requestData
  end.

(* ------------------------------------------------------------------ *)
(** ** [AnalyticsService]: queries *)

Definition getEmptyDayData (date : string) : StoredDay :=
  mkDay date 0 0 0 [] [] 0 [] None None.

(** What [getDailyAnalytics] resolves to. *)
Inductive Analytics :=
| TodayAnalytics (date : string) (data : StoredDay) (currentCounters : DailyCounters)
| DayAnalytics (date : string) (data : StoredDay)
| RangeAnalytics (result : obj StoredDay)
| AnalyticsError (message : string).

(** [analytics[d] || this.getEmptyDayData(d)], for a date text [d]. *)
Definition dayOrEmpty (analytics : Ledger) (d : string) : StoredDay :=
  match obj_get d analytics with
  | Some r => r
  | None => getEmptyDayData d
  end.

(** [!s] for an optional string argument. *)
Definition falsy (s : option string) : bool :=
  match s with
  | None => true
  | Some t => String.eqb t ""
  end.

(** [new Date(s)]: UTC midnight for the form YYYY-MM-DD, what the host
    makes of any other text, and an invalid [Date] ([None]) otherwise. *)
Definition dateParse (s : string) (w : World) : option Z :=
  match parseISODate s with
  | Some d => Some (d * msPerDay)%Z
  | None =>
      match legacyDateParse w s with
      | Some t => if validTime t then Some t else None
      | None => None
      end
  end.

(** [for (d = start; d <= end; d.setDate(d.getDate() + 1)) result[iso(d)] = ...]
    on time values; [fuel] bounds the number of turns. *)
Fixpoint rangeLoop (fuel : nat) (z : Zone) (analytics : Ledger) (d stop : Z)
  (result : obj StoredDay) : obj StoredDay :=
  match fuel with
  | O => result
  | S fuel' =>
      if (d <=? stop)%Z
      then let dateStr := toISODate (dayOfTime d) in
           rangeLoop fuel' z analytics (setDateBy z 1 d) stop
                     (obj_set dateStr (dayOrEmpty analytics dateStr) result)
      else result
  end.

(** Turns enough for the loop: a turn moves the date on by 23 hours at
    least. *)
Definition rangeFuel (start stop : Z) : nat :=
  Z.to_nat ((stop - start) / (msPerDay - msPerHour) + 1).

(** The range branch; an invalid [Date] compares false with everything, so
    the loop body never runs. *)
Definition getRange (w : World) (analytics : Ledger) (startDate endDate : string)
  : obj StoredDay :=
  match dateParse startDate w, dateParse endDate w with
  | Some start, Some stop =>
      rangeLoop (rangeFuel start stop) (zone w) analytics start stop []
  | _, _ => []
  end.

(** The text of an argument that is not [null]. *)
Definition textOf (s : option string) : string :=
  match s with
  | Some t => t
  | None => ""
  end.

Definition getDailyAnalytics (startDate endDate : option string) : IO Analytics :=
  tryCatch
    (data <- readFile ;;
     analytics <- JSON_parse data ;;
     if falsy startDate
     then today <- todayISODate ;;
          fun w => (Return (TodayAnalytics today (dayOrEmpty analytics today)
                                           (dailyCounters w)), w)
     else if falsy endDate
     then ret (DayAnalytics (textOf startDate)
                            (dayOrEmpty analytics (textOf startDate)))
     else fun w =>
            (Return (RangeAnalytics
                       (getRange w analytics (textOf startDate) (textOf endDate))),
             w))
    (fun e =>
       console_error "Error reading analytics:" e ;;;
       ret (AnalyticsError "Failed to read analytics data")).

(* ------------------------------------------------------------------ *)
(** ** [AnalyticsService]: the summary *)

(** A counter as a double, and [(a / b) * 100]. *)
Definition toNumber (n : nat) : spec_float :=
  binary_normalize 53 1024 (Z.of_nat n) 0 false.

Definition percentOf (a b : nat) : spec_float :=
  SFmul 53 1024 (SFdiv 53 1024 (toNumber a) (toNumber b)) (toNumber 100).

Definition decimal (n : Z) : string :=
  NilZero.string_of_uint (N.to_uint (Z.to_N n)).

(** A number of tenths, written with one decimal. *)
Definition oneDecimal (n : Z) : string :=
  decimal (n / 10) ++ "." ++ decimal (n mod 10).

(** The integer [n] for which [n / 10] is nearest to [m * 2^e], the larger
    one when there are two. *)
Definition nearestTenths (m : positive) (e : Z) : Z :=
  if (0 <=? e)%Z then (10 * Z.pos m * 2 ^ e)%Z
  else ((20 * Z.pos m + 2 ^ (- e)) / 2 ^ (1 - e))%Z.

(** [x.toFixed(1)], for a number below 1e21 in size. *)
Definition toFixed1 (x : spec_float) : string :=
  match x with
  | S754_zero _ => "0.0"
  | S754_infinity negative => if negative then "-Infinity" else "Infinity"
  | S754_nan => "NaN"
  | S754_finite negative m e =>
      (if negative then "-" else "") ++ oneDecimal (nearestTenths m e)
  end.

Record GoalShare := mkGoalShare {
  goal : string;
  count : nat;
  percentage : string
}.

Record Summary := mkSummary {
  summary_totalRequests : nat;
  summary_successfulRequests : nat;
  summary_failedRequests : nat;
  successRate : string;
  uniqueUsers : nat;
  popularGoals : list GoalShare
}.

Record SummaryReport := mkReport {
  period : string;
  startDate : string;
  endDate : string;
  summary : Summary;
  dailyData : Analytics
}.

Inductive SummaryAnalytics :=
| SummaryOf (report : SummaryReport)
| SummaryError (message : string).

(** The running totals of the [forEach] over the days. *)
Record Totals := mkTotals {
  totalRequestsSum : nat;
  totalSuccessful : nat;
  totalFailed : nat;
  allGoalSelections : obj nat;
  uniqueIPsSet : list string
}.

Definition noTotals : Totals := mkTotals 0 0 0 [] [].

(** A tally as a summand: the [null] of the file adds nothing. *)
Definition tallyNumber (t : Tally) : nat :=
  match t with
  | Count n => n
  | NotANumber => 0
  end.

(** [allGoalSelections[goal] = (allGoalSelections[goal] || 0) + count], for a
    goal that is no name of [Object.prototype]: with one, the source adds
    the count to the inherited member and gets a text, which the sort that
    follows compares as [NaN]; the statements on the goals of a summary
    leave these names out. *)
Definition addGoal (goals : obj nat) (entry : string * Tally) : obj nat :=
  obj_set (fst entry)
          (match obj_get (fst entry) goals with Some n => n | None => 0 end
           + tallyNumber (snd entry))
          goals.

(** One turn of the [forEach]: a day with [totalRequests] zero is skipped. *)
Definition addDay (acc : Totals) (dayData : StoredDay) : Totals :=
  if Nat.eqb (totalRequests dayData) 0 then acc
  else mkTotals (totalRequestsSum acc + totalRequests dayData)
                (totalSuccessful acc + successfulRequests dayData)
                (totalFailed acc + failedRequests dayData)
                (fold_left addGoal (goalSelections dayData) (allGoalSelections acc))
                (fold_left set_add (uniqueIPs dayData) (uniqueIPsSet acc)).

(** [Object.values(rangeData)], as far as a value has [totalRequests]: the
    day records do; a date text, the counters and the text in the error
    object have none and are passed over by the [forEach]. *)
Definition dayValues (rangeData : Analytics) : list StoredDay :=
  match rangeData with
  | RangeAnalytics result => obj_values result
  | DayAnalytics _ data => [data]
  | TodayAnalytics _ data _ => [data]
  | AnalyticsError _ => []
  end.

(** [entries.sort(([, a], [, b]) => b - a)]: by count, largest first; the
    sort is stable. *)
Fixpoint insertByCount (entry : string * nat) (sorted : list (string * nat))
  : list (string * nat) :=
  match sorted with
  | [] => [entry]
  | first :: rest =>
      if Nat.ltb (snd entry) (snd first)
      then first :: insertByCount entry rest
      else entry :: first :: rest
  end.

Definition sortByCount (entries : list (string * nat)) : list (string * nat) :=
  fold_right insertByCount [] entries.

Definition sortedGoals (totals : Totals) : list GoalShare :=
  map (fun entry =>
         mkGoalShare (fst entry) (snd entry)
           (toFixed1 (percentOf (snd entry) (totalRequestsSum totals))))
      (sortByCount (allGoalSelections totals)).

Definition summaryOf (totals : Totals) : Summary :=
  mkSummary (totalRequestsSum totals) (totalSuccessful totals) (totalFailed totals)
            (if Nat.ltb 0 (totalRequestsSum totals)
             then toFixed1 (percentOf (totalSuccessful totals)
                                      (totalRequestsSum totals))
             else "0")
            (List.length (uniqueIPsSet totals))
            (sortedGoals totals).

Definition getSummaryAnalytics (days : Z) : IO SummaryAnalytics :=
  tryCatch
    (endDateStr <- todayISODate ;;
     startDateStr <- daysAgoISODate days ;;
     rangeData <- getDailyAnalytics (Some startDateStr) (Some endDateStr) ;;
     let totals := fold_left addDay (dayValues rangeData) noTotals in
     ret (SummaryOf
            (mkReport (NilZero.string_of_int (Z.to_int days) ++ " days")
                      startDateStr endDateStr (summaryOf totals) rangeData)))
    (fun e =>
       console_error "Error generating summary analytics:" e ;;;
       ret (SummaryError "Failed to generate summary analytics")).

(* ------------------------------------------------------------------ *)
(** ** [SuggestionsService] *)

Record AgeRange := mkAgeRange { age_min : Z; age_max : Z }.

Record Peptide := mkPeptide {
  name : string;
  description : string;
  dosage : string;
  timing : string;
  ageRecommendation : AgeRange;
  benefits : list string
}.

(** What [getPersonalizedNote] returns: a text, or, for a goal that is an
    inherited name, the member of [Object.prototype]. *)
Inductive Note :=
| NoteText (text : string)
| NoteMember (member : ProtoMember).

(** [{ ...peptide, personalizedNote }] *)
Record Suggestion := mkSuggestion {
  peptide : Peptide;
  personalizedNote : Note
}.

Definition peptideDatabase : obj (list Peptide) :=
  [
   ("energy",
    [
    mkPeptide "CJC-1295 with DAC"
      "A growth hormone releasing hormone analog that promotes natural energy production and vitality through improved sleep quality and recovery."
      "2mg per week" "Before bedtime"
      (mkAgeRange 25 65)
      ["Increased energy"; "Better sleep"; "Enhanced recovery"];
    mkPeptide "Ipamorelin"
      "A selective growth hormone secretagogue that supports natural energy levels without affecting cortisol or prolactin levels."
      "200-300mcg daily" "Morning or pre-workout"
      (mkAgeRange 20 70)
      ["Sustained energy"; "Improved metabolism"; "Fat loss support"];
    mkPeptide "MOTS-c"
      "A mitochondrial-derived peptide that enhances cellular energy production and metabolic efficiency."
      "5-10mg twice weekly" "Morning"
      (mkAgeRange 30 80)
      ["Mitochondrial health"; "Energy production"; "Metabolic support"]
    ]);
   ("sleep",
    [
    mkPeptide "DSIP (Delta Sleep-Inducing Peptide)"
      "A natural sleep-promoting peptide that helps regulate sleep cycles and improve sleep quality."
      "100-200mcg" "30 minutes before bedtime"
      (mkAgeRange 18 75)
      ["Deep sleep"; "Sleep cycle regulation"; "Stress reduction"];
    mkPeptide "CJC-1295 with DAC"
      "Promotes deeper, more restorative sleep through growth hormone optimization, leading to better recovery."
      "2mg per week" "Before bedtime"
      (mkAgeRange 25 65)
      ["Sleep quality"; "Recovery"; "Anti-aging"];
    mkPeptide "Glycine Peptide Complex"
      "A specialized peptide formulation that promotes relaxation and supports natural sleep patterns."
      "1-3g" "1 hour before bed"
      (mkAgeRange 18 85)
      ["Relaxation"; "Sleep onset"; "Sleep maintenance"]
    ]);
   ("focus",
    [
    mkPeptide "Noopept"
      "A nootropic peptide that enhances cognitive function, focus, and mental clarity through neuroprotective mechanisms."
      "10-30mg daily" "Morning with breakfast"
      (mkAgeRange 18 60)
      ["Mental clarity"; "Focus enhancement"; "Memory support"];
    mkPeptide "Selank"
      "An anxiolytic peptide that reduces anxiety while enhancing cognitive performance and mental focus."
      "150-300mcg daily" "Morning"
      (mkAgeRange 20 65)
      ["Anxiety reduction"; "Cognitive enhancement"; "Stress management"];
    mkPeptide "Cerebrolysin"
      "A neuropeptide complex that supports brain health, cognitive function, and neural plasticity."
      "5-10ml per session" "Morning"
      (mkAgeRange 25 70)
      ["Neuroprotection"; "Cognitive enhancement"; "Brain health"]
    ]);
   ("recovery",
    [
    mkPeptide "BPC-157"
      "A healing peptide that accelerates tissue repair, reduces inflammation, and supports overall recovery."
      "250-500mcg daily" "Post-workout or with meals"
      (mkAgeRange 18 80)
      ["Tissue repair"; "Inflammation reduction"; "Injury recovery"];
    mkPeptide "TB-500 (Thymosin Beta-4)"
      "A regenerative peptide that promotes healing, reduces inflammation, and supports muscle and tissue recovery."
      "2-5mg twice weekly" "Post-workout"
      (mkAgeRange 20 75)
      ["Muscle recovery"; "Tissue regeneration"; "Anti-inflammatory"];
    mkPeptide "IGF-1 LR3"
      "An insulin-like growth factor that supports muscle recovery, growth, and overall tissue repair."
      "20-40mcg daily" "Post-workout"
      (mkAgeRange 21 65)
      ["Muscle growth"; "Recovery acceleration"; "Tissue repair"]
    ]);
   ("longevity",
    [
    mkPeptide "Epitalon"
      "A telomerase-activating peptide that supports cellular longevity and anti-aging processes."
      "5-10mg per cycle" "Before bedtime"
      (mkAgeRange 35 85)
      ["Anti-aging"; "Cellular longevity"; "Immune support"];
    mkPeptide "GHK-Cu"
      "A copper peptide complex that supports skin health, wound healing, and anti-aging processes."
      "1-3mg daily" "Morning"
      (mkAgeRange 30 80)
      ["Skin health"; "Collagen production"; "Anti-aging"];
    mkPeptide "NAD+ Peptide Precursors"
      "Peptides that support NAD+ production for cellular energy, DNA repair, and longevity pathways."
      "100-500mg daily" "Morning"
      (mkAgeRange 40 85)
      ["Cellular energy"; "DNA repair"; "Longevity support"]
    ])
  ].

Definition getAgeGroup (age : Z) : string :=
  if (age <? 35)%Z then "young"
  else if (age <? 55)%Z then "middle"
  else "mature".

Definition personalizedNotes : obj (obj string) :=
  [
   ("young",
    [("energy",
      "At your age, focus on natural optimization rather than aggressive supplementation.");
     ("sleep",
      "Establishing good sleep hygiene is crucial for your age group.");
     ("focus",
      "Cognitive enhancement can provide significant benefits for productivity.");
     ("recovery",
      "Your natural recovery is still strong, use this to enhance performance.");
     ("longevity",
      "Starting early with longevity protocols can provide long-term benefits.")]);
   ("middle",
    [("energy",
      "This peptide can help counteract age-related energy decline.");
     ("sleep",
      "Sleep quality often decreases with age - this can help restore it.");
     ("focus",
      "Cognitive support becomes increasingly important in your 40s-50s.");
     ("recovery",
      "Recovery time increases with age - this can help maintain performance.");
     ("longevity",
      "This is an optimal age to begin serious anti-aging interventions.")]);
   ("mature",
    [("energy",
      "Energy optimization is crucial for maintaining vitality at your age.");
     ("sleep",
      "Quality sleep becomes even more important for health and recovery.");
     ("focus",
      "Cognitive support can help maintain mental sharpness and clarity.");
     ("recovery",
      "Enhanced recovery support is essential for maintaining activity levels.");
     ("longevity",
      "Anti-aging peptides can significantly impact quality of life.")])
  ].

(** [personalizedNotes[ageGroup]?.[goal] || "Consult ..."]; [ageGroup] is
    one of the three names of the table, and an inherited member is
    truthy. *)
Definition getPersonalizedNote (age : Z) (goal peptideName : string) : Note :=
  let ageGroup := getAgeGroup age in
  match obj_get ageGroup personalizedNotes with
  | Some notes =>
      match obj_read goal notes with
      | Own note =>
          if String.eqb note ""
          then NoteText "Consult with a healthcare provider for personalized guidance."
          else NoteText note
      | Inherited member => NoteMember member
      | Undefined =>
          NoteText "Consult with a healthcare provider for personalized guidance."
      end
  | None => NoteText "Consult with a healthcare provider for personalized guidance."
  end.

(** [age >= min && age <= max] *)
Definition ageSuitable (age : Z) (p : Peptide) : bool :=
  (age_min (ageRecommendation p) <=? age)%Z
  && (age <=? age_max (ageRecommendation p))%Z.

(** [getSuggestions] from [goalPeptides.length === 0] on, for an array. *)
Definition suggestionsFrom (age : Z) (goal : string) (goalPeptides : list Peptide)
  : outcome (list Suggestion) :=
  if Nat.eqb (List.length goalPeptides) 0
  then Throw (Error ("No peptides found for goal: " ++ goal))
  else
    let ageSuitablePeptides := filter (ageSuitable age) goalPeptides in
    let selectedPeptides :=
      if Nat.ltb 0 (List.length ageSuitablePeptides)
      then ageSuitablePeptides
      else goalPeptides in
    let personalizedSuggestions :=
      map (fun p => mkSuggestion p (getPersonalizedNote age goal (name p)))
          selectedPeptides in
    Return (firstn 3 personalizedSuggestions).

(** [this.peptideDatabase[goal] || []] is the catalog's array, the empty
    array for a name that is not there, and the inherited member for a name
    of [Object.prototype]: that one is truthy, has the [length] of a method
    or none, and no [filter]. *)
Definition getSuggestions (age : Z) (goal : string) : outcome (list Suggestion) :=
  match obj_read goal peptideDatabase with
  | Own goalPeptides => suggestionsFrom age goal goalPeptides
  | Undefined => suggestionsFrom age goal []
  | Inherited (ProtoFunction O) =>
      Throw (Error ("No peptides found for goal: " ++ goal))
  | Inherited _ => Throw (TypeError "goalPeptides.filter is not a function")
  end.

(** The goals of the catalog. *)
Definition catalogGoals : list string :=
  ["energy"; "sleep"; "focus"; "recovery"; "longevity"].

(* ------------------------------------------------------------------ *)
(** ** Notions and worlds used in the statements *)

(** [totalRequests == successfulRequests + failedRequests] *)
Definition balanced {C} (r : DayRecord C) : Prop :=
  totalRequests r = successfulRequests r + failedRequests r.

Definition noCounters : DailyCounters := mkCounters 0 [] 0 0.

(** The zone of a process that runs on UTC. *)
Definition utc : Zone := mkZone 0 (fun _ => false) (fun _ => false).

(** A zone without clock changes: the summer time is always in force or
    never. *)
Definition fixedOffset (z : Zone) : Prop :=
  exists b, (forall t, summerTimeAt z t = b) /\ (forall t, summerTimeAtLocal z t = b).

(** A host that reads no date but YYYY-MM-DD. *)
Definition isoDatesOnly : string -> option Z := fun _ => None.

(** A new deployment on 2024-06-15, 10:00 UTC: no ledger file yet. *)
Definition freshWorld : World :=
  mkWorld FileMissing TakesWrites 19889 36000000 utc isoDatesOnly noCounters [].

(** The same, on a disk that has run out of space. *)
Definition fullDiskWorld : World :=
  mkWorld FileMissing OutOfSpace 19889 36000000 utc isoDatesOnly noCounters [].

(** The same, where the file may not be opened for writing. *)
Definition readOnlyWorld : World :=
  mkWorld FileMissing RefusesOpen 19889 36000000 utc isoDatesOnly noCounters [].

Definition request_r1 : RequestData :=
  mkRequest (Some "r1") (Some "1.2.3.4") None.

(** The days [first], [first + 1], ..., [last]. *)
Definition daysFromTo (first last : Z) : list Z :=
  map (fun i => (first + Z.of_nat i)%Z) (seq 0 (Z.to_nat (last - first + 1))).

(** A ledger with an empty record for each of the days. *)
Definition emptyLedgerOver (days : list Z) : Ledger :=
  map (fun d => (toISODate d, getEmptyDayData (toISODate d))) days.

(** 1971-02-05 (day 400), over a ledger that goes back 200 days. *)
Definition longLedgerWorld : World :=
  mkWorld (FileHolds (LedgerText (emptyLedgerOver (daysFromTo (400 - 200) 400))))
          TakesWrites 400 36000000 utc isoDatesOnly noCounters [].

(** America/Los_Angeles in 2024: eight hours behind UTC, and summer time
    from 10 March, 10:00 UTC, to 3 November, 09:00 UTC.  A local time that a
    change skips or repeats is read with the offset before the change. *)
Definition losAngeles : Zone :=
  mkZone (-480)
    (fun t => (1710064800000 <=? t)%Z && (t <? 1730624400000)%Z)
    (fun t => (1710039600000 <=? t)%Z && (t <? 1730599200000)%Z).

(** 2024-04-01 (day 19814), 23:30 UTC, in Los Angeles, over a ledger that
    goes back 200 days. *)
Definition losAngelesWorld : World :=
  mkWorld (FileHolds (LedgerText
             (emptyLedgerOver (daysFromTo (19814 - 200) 19814))))
          TakesWrites 19814 84600000 losAngeles isoDatesOnly noCounters [].

(** 2024-11-10 (day 20037), 00:30 UTC, in Los Angeles, a week after the
    clocks went back; no ledger file yet. *)
Definition losAngelesNovemberWorld : World :=
  mkWorld FileMissing TakesWrites 20037 1800000 losAngeles isoDatesOnly
          noCounters [].

(** 2024-06-15 over two days of traffic: 10 requests with 8 successes, and
    5 requests with 5 successes. *)
Definition twoDayWorld : World :=
  mkWorld (FileHolds (LedgerText
             [("2024-06-14",
               mkDay "2024-06-14" 10 8 2 [] [] 0 ["1.2.3.4"] None None);
              ("2024-06-15",
               mkDay "2024-06-15" 5 5 0 [] [] 0 ["1.2.3.4"] None None)]))
          TakesWrites 19889 36000000 utc isoDatesOnly noCounters [].

(** 2024-06-15 over one day with 80 requests, 23 of them successful. *)
Definition day23of80World : World :=
  mkWorld (FileHolds (LedgerText
             [("2024-06-15",
               mkDay "2024-06-15" 80 23 57 [] [] 0 ["1.2.3.4"] None None)]))
          TakesWrites 19889 36000000 utc isoDatesOnly noCounters [].

(** [n / 10] is nearest to [m * 2^e], and is the larger one of two:
    [n/10 - 1/20 <= m * 2^e < n/10 + 1/20]. *)
Definition nearestTenthOf (m : positive) (e n : Z) : Prop :=
  ((2 * n - 1) * 2 ^ Z.max 0 (- e) <= 20 * Z.pos m * 2 ^ Z.max 0 e
   < (2 * n + 1) * 2 ^ Z.max 0 (- e))%Z.

(** [100 * successful / total] in exact arithmetic, in tenths, rounded to
    the nearest; a half goes up in the first and down in the second. *)
Definition exactTenthsUp (successful total : nat) : Z :=
  ((2000 * Z.of_nat successful + Z.of_nat total) / (2 * Z.of_nat total))%Z.

Definition exactTenthsDown (successful total : nat) : Z :=
  ((2000 * Z.of_nat successful + Z.of_nat total - 1) / (2 * Z.of_nat total))%Z.

(** The entry of the range query for a day. *)
Definition rangeEntry (analytics : Ledger) (d : Z) : string * StoredDay :=
  (toISODate d, dayOrEmpty analytics (toISODate d)).

(** The mapping that a range query returned. *)
Definition dayValuesByDate (rangeData : Analytics) : obj StoredDay :=
  match rangeData with
  | RangeAnalytics result => result
  | _ => []
  end.

(** The records of the days [first .. last], gaps filled with empty ones. *)
Definition recordsFromTo (analytics : Ledger) (first last : Z) : list StoredDay :=
  map (fun d => dayOrEmpty analytics (toISODate d)) (daysFromTo first last).

(** The days the summary takes in: [if (dayData.totalRequests)]. *)
Definition counted (r : StoredDay) : bool := negb (Nat.eqb (totalRequests r) 0).

(** [o[k] || 0] *)
Definition getOrZero (k : string) (o : obj nat) : nat :=
  match obj_get k o with
  | Some n => n
  | None => 0
  end.

(** What a list of entries holds under a key, all entries counted; for the
    entries of an object this is [getOrZero]. *)
Definition entriesTotal (k : string) (entries : list (string * Tally)) : nat :=
  list_sum (map (fun entry => tallyNumber (snd entry))
                (filter (fun entry => String.eqb k (fst entry)) entries)).

(** The selections of a goal on a day. *)
Definition tallyOf (k : string) (r : StoredDay) : nat :=
  entriesTotal k (goalSelections r).

(** The count a summary reports for a goal. *)
Definition goalCount (k : string) (shares : list GoalShare) : nat :=
  match find (fun share => String.eqb k (goal share)) shares with
  | Some share => count share
  | None => 0
  end.

(* ------------------------------------------------------------------ *)
(** ** The rest of [SuggestionsService] and the routes

    [getAvailableGoals], the handler of [POST /suggestions] in
    [routes/suggestions.js] and the handler of [GET /analytics] in the
    server file.  A handler is taken from the point where Express calls it:
    [validateSuggestionsRequest] and the other middleware have run, and the
    [uuid] of the request is given. *)

Record GoalOption := mkGoalOption {
  value : string;
  label : string;
  goal_description : string
}.

Definition getAvailableGoals : list GoalOption :=
  [ mkGoalOption "energy" "Energy & Vitality" "Boost natural energy and vitality";
    mkGoalOption "sleep" "Better Sleep" "Improve sleep quality and recovery";
    mkGoalOption "focus" "Mental Focus" "Enhance cognitive performance and clarity";
    mkGoalOption "recovery" "Muscle Recovery" "Accelerate healing and tissue repair";
    mkGoalOption "longevity" "Anti-Aging" "Support longevity and healthy aging" ].


(** [error.message]; an [Error] and a [TypeError] carry theirs, the other
    two are caught inside the service and reach no handler. *)
Definition messageOf (e : exn) : string :=
  match e with
  | FsError what => what
  | SyntaxError => "SyntaxError"
  | TypeError what => what
  | RangeError what => what
  | Error message => message
  end.

Record SuggestionsMeta := mkMeta {
  generatedAt : string;
  goalCategory : string;
  ageGroup : string
}.

Inductive ResponseBody :=
| SuggestionsBody (success : bool) (requestId : string)
    (suggestions : list Suggestion) (meta : SuggestionsMeta)
| FailureBody (error message requestId : string)
| AnalyticsBody (analytics : Analytics)
| ErrorBody (error : string).

(** [res.status(code).json(body)]; [res.json(body)] answers with 200. *)
Record Response := mkResponse {
  status : nat;
  body : ResponseBody
}.

(** The fields of the object given to [logSuccessfulRequest] that the
    service reads: there is a [requestId], and no [ip]. *)
Definition succeededRequest (requestId : string) : RequestData :=
  mkRequest (Some requestId) None None.

(** The same for [logFailedRequest], with [error: error.message]. *)
Definition failedRequestOf (requestId : string) (e : exn) : RequestData :=
  mkRequest (Some requestId) None (Some (messageOf e)).

(** [router.post('/', validateSuggestionsRequest, async (req, res) => ...)] *)
Definition postSuggestions (requestId : string) (age : Z) (goal : string)
  : IO Response :=
  tryCatch
    (logGoalSelection goal ;;;
     suggestions <- liftOutcome (getSuggestions age goal) ;;
     logSuccessfulRequest (succeededRequest requestId) ;;;
     now <- nowISOString ;;
     ret (mkResponse 200
            (SuggestionsBody true requestId suggestions
               (mkMeta now goal (getAgeGroup age)))))
    (fun e =>
       logFailedRequest (failedRequestOf requestId e) ;;;
       ret (mkResponse 500
              (FailureBody "Failed to generate suggestions"
                 "An internal error occurred while processing your request. Please try again."
                 requestId))).

(** [app.get('/analytics', async (req, res) => ...)] *)
Definition getAnalytics : IO Response :=
  tryCatch
    (analytics <- getDailyAnalytics None None ;;
     ret (mkResponse 200 (AnalyticsBody analytics)))
    (fun _ => ret (mkResponse 500 (ErrorBody "Failed to retrieve analytics"))).

(** [n] calls of a recording method, one after the other. *)
Definition repeatedly (n : nat) (call : IO unit) (w : World) : World :=
  Nat.iter n (fun w' => snd (call w')) w.

(** The counters of the process add up. *)
Definition countersBalanced (c : DailyCounters) : Prop :=
  counter_requests c = counter_successfulRequests c + counter_errors c.

(** The clock is in the years 0000..9999, and so was it 90 days ago. *)
Definition clockInRange (w : World) : Prop :=
  fourDigitYear (clockDay w - 90) /\ fourDigitYear (clockDay w).

(** [x] is in the list, and [y] after it. *)
Fixpoint precedes (x y : string) (l : list string) : Prop :=
  match l with
  | [] => False
  | a :: rest => (a = x /\ In y rest) \/ precedes x y rest
  end.

(** In a list of names, [x] is met before the first [y]. *)
Definition seenBefore (x y : string) (names : list string) : Prop :=
  exists before rest, names = (before ++ x :: rest)%list /\ ~ In y before.

(** A name written in digits only.  The canonical array indices are among
    these; JavaScript lists such keys of an object first, in numeric order,
    whenever they were set. *)
Fixpoint allDigits (s : string) : bool :=
  match s with
  | EmptyString => true
  | String c rest =>
      match digitVal c with
      | Some _ => allDigits rest
      | None => false
      end
  end.

Definition digitsOnly (k : string) : bool :=
  negb (String.eqb k "") && allDigits k.

(** The goals of the days of a list, in the order of the days and, within a
    day, of its tallies. *)
Definition goalNames (records : list StoredDay) : list string :=
  flat_map (fun r => obj_keys (goalSelections r)) records.

(** 2024-06-15 over two days with requests and goal selections: "sleep" and
    "energy" come to 2 each, "focus" to 3. *)
Definition threeGoalWorld : World :=
  mkWorld (FileHolds (LedgerText
             [("2024-06-14",
               mkDay "2024-06-14" 3 3 0 [("sleep", Count 2); ("focus", Count 1)]
                     [] 0 ["1.2.3.4"] None None);
              ("2024-06-15",
               mkDay "2024-06-15" 4 4 0 [("energy", Count 2); ("focus", Count 2)]
                     [] 0 ["1.2.3.4"] None None)]))
          TakesWrites 19889 36000000 utc isoDatesOnly noCounters [].

(** Counts from the largest down. *)
Fixpoint descending (counts : list nat) : Prop :=
  match counts with
  | [] => True
  | c :: rest => (forall c', In c' rest -> c' <= c) /\ descending rest
  end.

(** One more selection of [goal] in a record. *)
Definition withSelection (goal : string) (r : StoredDay) : StoredDay :=
  mkDay (date r) (totalRequests r) (successfulRequests r) (failedRequests r)
        (obj_incr goal (goalSelections r)) (errors r) (averageResponseTime r)
        (uniqueIPs r) (firstRequest r) (lastRequest r).

(** The number under a name of the tallies, 0 where none is. *)
Definition tallyOrZero (k : string) (o : obj Tally) : nat :=
  match obj_get k o with
  | Some (Count n) => n
  | _ => 0
  end.

(** The recording calls of a list of events, awaited one after the other. *)
Definition recordAll (events : list Event) (w : World) : World :=
  fold_left (fun w' ev => snd (logEvent ev w')) events w.

(** [true] for the two request events. *)
Definition isRequest (ev : Event) : bool :=
  match ev with
  | goalSelection _ => false
  | successfulRequest _ | failedRequest _ => true
  end.

(* ================================================================== *)
(** * Properties *)

Example toISODate_epoch : toISODate 0%Z = "1970-01-01".
Proof. reflexivity. Qed.

Example toISODate_leap_day : toISODate 19782%Z = "2024-02-29".
Proof. vm_compute. reflexivity. Qed.

Example toISODate_before_epoch : toISODate (-1)%Z = "1969-12-31".
Proof. reflexivity. Qed.

Example parseISODate_leap_day : parseISODate "2024-02-29" = Some 19782%Z.
Proof. vm_compute. reflexivity. Qed.

Example parseISODate_text : parseISODate "yesterday" = None.
Proof. reflexivity. Qed.

(* ------------------------------------------------------------------ *)
(** ** The calendar *)

Open Scope Z_scope.

Lemma isLeapYear_true y :
  isLeapYear y = true -> y mod 4 = 0 /\ (y mod 100 <> 0 \/ y mod 400 = 0).
Proof.
  unfold isLeapYear. rewrite andb_true_iff, orb_true_iff, negb_true_iff.
  rewrite !Z.eqb_eq, Z.eqb_neq. tauto.
Qed.

Lemma isLeapYear_false y :
  isLeapYear y = false -> y mod 4 <> 0 \/ (y mod 100 = 0 /\ y mod 400 <> 0).
Proof.
  unfold isLeapYear. rewrite andb_false_iff, orb_false_iff, negb_false_iff.
  rewrite !Z.eqb_eq, !Z.eqb_neq. tauto.
Qed.

Lemma dayFromYear_succ y :
  dayFromYear (y + 1) = dayFromYear y + 365 + (if isLeapYear y then 1 else 0).
Proof.
  unfold dayFromYear.
  destruct (isLeapYear y) eqn:L.
  - apply isLeapYear_true in L. Z.div_mod_to_equations. lia.
  - apply isLeapYear_false in L. Z.div_mod_to_equations. lia.
Qed.

Lemma month_cases m : 1 <= m <= 12 ->
  m = 1 \/ m = 2 \/ m = 3 \/ m = 4 \/ m = 5 \/ m = 6 \/
  m = 7 \/ m = 8 \/ m = 9 \/ m = 10 \/ m = 11 \/ m = 12.
Proof. lia. Qed.

Ltac each_month H :=
  apply month_cases in H;
  repeat (destruct H as [H | H]; [subst | ]); [ .. | subst ].

Lemma daysInMonth_bounds y m : 28 <= daysInMonth y m <= 31.
Proof.
  unfold daysInMonth.
  destruct (m =? 2); [destruct (isLeapYear y); lia |].
  destruct ((m =? 4) || (m =? 6) || (m =? 9) || (m =? 11)); lia.
Qed.

Lemma daysBeforeMonth_succ y m : 1 <= m <= 11 ->
  daysBeforeMonth y (m + 1) = daysBeforeMonth y m + daysInMonth y m.
Proof.
  intros H. assert (H' : 1 <= m <= 12) by lia.
  each_month H'; try lia;
    unfold daysBeforeMonth, daysInMonth; cbn; destruct (isLeapYear y); reflexivity.
Qed.

Lemma daysBeforeMonth_december y :
  daysBeforeMonth y 12 + 31 = 365 + (if isLeapYear y then 1 else 0).
Proof. unfold daysBeforeMonth; cbn. destruct (isLeapYear y); reflexivity. Qed.

Lemma daysBeforeMonth_january y : daysBeforeMonth y 1 = 0.
Proof. reflexivity. Qed.

Lemma nextDay_valid c : validCivil c -> validCivil (nextDay c).
Proof.
  destruct c as [y m d]. unfold validCivil, nextDay; cbn. intros [Hm Hd].
  destruct (d <? daysInMonth y m) eqn:E1; cbn.
  - apply Z.ltb_lt in E1. lia.
  - destruct (m <? 12) eqn:E2; cbn.
    + apply Z.ltb_lt in E2. pose proof (daysInMonth_bounds y (m + 1)). lia.
    + pose proof (daysInMonth_bounds (y + 1) 1). lia.
Qed.

Lemma prevDay_valid c : validCivil c -> validCivil (prevDay c).
Proof.
  destruct c as [y m d]. unfold validCivil, prevDay; cbn. intros [Hm Hd].
  destruct (1 <? d) eqn:E1; cbn.
  - apply Z.ltb_lt in E1. lia.
  - destruct (1 <? m) eqn:E2; cbn.
    + apply Z.ltb_lt in E2. pose proof (daysInMonth_bounds y (m - 1)). lia.
    + assert (daysInMonth (y - 1) 12 = 31) by reflexivity. lia.
Qed.

Lemma dayOfCivil_nextDay c : validCivil c -> dayOfCivil (nextDay c) = dayOfCivil c + 1.
Proof.
  destruct c as [y m d]. unfold validCivil, nextDay, dayOfCivil; cbn [year month dayOfMonth]. intros [Hm Hd].
  destruct (d <? daysInMonth y m) eqn:E1; cbn [year month dayOfMonth]; [lia |].
  apply Z.ltb_ge in E1.
  destruct (m <? 12) eqn:E2; cbn [year month dayOfMonth].
  - apply Z.ltb_lt in E2. rewrite daysBeforeMonth_succ by lia. lia.
  - apply Z.ltb_ge in E2. assert (m = 12) by lia; subst m.
    assert (daysInMonth y 12 = 31) by reflexivity.
    rewrite dayFromYear_succ.
    pose proof (daysBeforeMonth_january (y + 1)).
    pose proof (daysBeforeMonth_december y). lia.
Qed.

Lemma dayOfCivil_prevDay c : validCivil c -> dayOfCivil (prevDay c) = dayOfCivil c - 1.
Proof.
  destruct c as [y m d]. unfold validCivil, prevDay, dayOfCivil; cbn [year month dayOfMonth]. intros [Hm Hd].
  destruct (1 <? d) eqn:E1; cbn [year month dayOfMonth]; [lia |].
  apply Z.ltb_ge in E1.
  destruct (1 <? m) eqn:E2; cbn [year month dayOfMonth].
  - apply Z.ltb_lt in E2.
    pose proof (daysBeforeMonth_succ y (m - 1)) as S.
    replace (m - 1 + 1) with m in S by lia. lia.
  - apply Z.ltb_ge in E2. assert (m = 1) by lia; subst m.
    pose proof (dayFromYear_succ (y - 1)) as S.
    replace (y - 1 + 1) with y in S by lia.
    pose proof (daysBeforeMonth_january y).
    assert (daysInMonth (y - 1) 12 = 31) by reflexivity.
    pose proof (daysBeforeMonth_december (y - 1)). lia.
Qed.

Lemma epochCivil_valid : validCivil epochCivil.
Proof. unfold validCivil; cbn. lia. Qed.

Lemma civilOfDay_spec d : validCivil (civilOfDay d) /\ dayOfCivil (civilOfDay d) = d.
Proof.
  destruct d as [| p | p]; cbn [civilOfDay].
  - split; [exact epochCivil_valid | reflexivity].
  - induction p using Pos.peano_ind.
    + change (validCivil (nextDay epochCivil) /\ dayOfCivil (nextDay epochCivil) = 1).
      split; [apply nextDay_valid, epochCivil_valid | reflexivity].
    + rewrite Pos.iter_succ. destruct IHp as [V E]. split.
      * now apply nextDay_valid.
      * rewrite dayOfCivil_nextDay, E by assumption. lia.
  - induction p using Pos.peano_ind.
    + change (validCivil (prevDay epochCivil) /\ dayOfCivil (prevDay epochCivil) = -1).
      split; [apply prevDay_valid, epochCivil_valid | reflexivity].
    + rewrite Pos.iter_succ. destruct IHp as [V E]. split.
      * now apply prevDay_valid.
      * rewrite dayOfCivil_prevDay, E by assumption. lia.
Qed.

(** Within a year *)
Lemma daysBeforeMonth_bounds y m : 1 <= m <= 12 ->
  0 <= daysBeforeMonth y m /\
  daysBeforeMonth y m + daysInMonth y m <= 365 + (if isLeapYear y then 1 else 0).
Proof.
  intros H. each_month H;
    unfold daysBeforeMonth, daysInMonth; cbn; destruct (isLeapYear y); lia.
Qed.

Lemma daysBeforeMonth_mono y m m' : 1 <= m -> m < m' -> m' <= 12 ->
  daysBeforeMonth y m + daysInMonth y m <= daysBeforeMonth y m'.
Proof.
  intros H1 H2 H3.
  assert (Hm : 1 <= m <= 12) by lia. assert (Hm' : 1 <= m' <= 12) by lia.
  each_month Hm; each_month Hm'; try lia;
    unfold daysBeforeMonth, daysInMonth; cbn; destruct (isLeapYear y); lia.
Qed.

Lemma dayFromYear_mono y y' : y <= y' -> dayFromYear y <= dayFromYear y'.
Proof. unfold dayFromYear. intros. Z.div_mod_to_equations. lia. Qed.

Lemma dayOfCivil_in_year c : validCivil c ->
  dayFromYear (year c) <= dayOfCivil c < dayFromYear (year c + 1).
Proof.
  destruct c as [y m d]. unfold validCivil, dayOfCivil; cbn. intros [Hm Hd].
  rewrite dayFromYear_succ. pose proof (daysBeforeMonth_bounds y m Hm). lia.
Qed.

Lemma dayOfCivil_lt c c' : validCivil c -> validCivil c' ->
  dayOfCivil c < dayOfCivil c' -> civil_lt c c'.
Proof.
  intros V V' H.
  pose proof (dayOfCivil_in_year c V) as B. pose proof (dayOfCivil_in_year c' V') as B'.
  destruct (Z.lt_trichotomy (year c) (year c')) as [Hy | [Hy | Hy]].
  - now left.
  - right. split; [assumption |].
    destruct c as [y m d], c' as [y' m' d']; cbn in *. subst y'.
    unfold validCivil, dayOfCivil in *; cbn in *.
    destruct (Z.lt_trichotomy m m') as [Hm | [Hm | Hm]].
    + now left.
    + right. subst m'. lia.
    + exfalso. pose proof (daysBeforeMonth_mono y m' m). lia.
  - exfalso. pose proof (dayFromYear_mono (year c' + 1) (year c)). lia.
Qed.

Lemma civilOfDay_lt d d' : d < d' -> civil_lt (civilOfDay d) (civilOfDay d').
Proof.
  intros H. destruct (civilOfDay_spec d) as [V E], (civilOfDay_spec d') as [V' E'].
  apply dayOfCivil_lt; try assumption. lia.
Qed.

Lemma civilOfDay_year d : fourDigitYear d -> 0 <= year (civilOfDay d) <= 9999.
Proof.
  unfold fourDigitYear. intros H.
  destruct (civilOfDay_spec d) as [V E].
  pose proof (dayOfCivil_in_year _ V) as B.
  split.
  - destruct (Z_lt_le_dec (year (civilOfDay d)) 0) as [Hy |]; [| assumption].
    pose proof (dayFromYear_mono (year (civilOfDay d) + 1) 0).
    assert (dayFromYear 0 = -719528) by reflexivity. lia.
  - destruct (Z_lt_le_dec 9999 (year (civilOfDay d))) as [Hy |]; [| assumption].
    pose proof (dayFromYear_mono 10000 (year (civilOfDay d))).
    assert (dayFromYear 10000 = 2932897) by reflexivity. lia.
Qed.

(** *** Rendering and reading dates *)

Lemma digit_cases a : 0 <= a <= 9 ->
  a = 0 \/ a = 1 \/ a = 2 \/ a = 3 \/ a = 4 \/ a = 5 \/ a = 6 \/ a = 7 \/ a = 8 \/ a = 9.
Proof. lia. Qed.

Ltac each_digit H :=
  apply digit_cases in H;
  repeat (destruct H as [H | H]; [subst | ]); [ .. | subst ].

Lemma digitChar_compare a b : 0 <= a <= 9 -> 0 <= b <= 9 ->
  Ascii.compare (digitChar a) (digitChar b) = (a ?= b).
Proof. intros Ha Hb. each_digit Ha; each_digit Hb; reflexivity. Qed.

Lemma digitVal_digitChar a : 0 <= a <= 9 -> digitVal (digitChar a) = Some a.
Proof. intros Ha. each_digit Ha; reflexivity. Qed.

Lemma digitVal_range c a : digitVal c = Some a -> 0 <= a <= 9.
Proof.
  unfold digitVal.
  destruct ((48 <=? Z.of_nat (nat_of_ascii c)) && (Z.of_nat (nat_of_ascii c) <=? 57)) eqn:E;
    [| discriminate].
  apply andb_true_iff in E. destruct E as [E1 E2].
  apply Z.leb_le in E1, E2. intros [= <-]. lia.
Qed.

Lemma string_compare_refl s : String.compare s s = Eq.
Proof.
  induction s as [| a s IH]; [reflexivity |].
  cbn [String.compare]. unfold Ascii.compare. now rewrite N.compare_refl.
Qed.

(** Fixed-width decimals compare like the numbers they write. *)
Lemma padDigits_compare k : forall n n' rest rest',
  0 <= n < 10 ^ Z.of_nat k -> 0 <= n' < 10 ^ Z.of_nat k ->
  String.compare (padDigits k n rest) (padDigits k n' rest') =
  match n ?= n' with
  | Eq => String.compare rest rest'
  | c => c
  end.
Proof.
  induction k as [| k IH]; intros n n' rest rest' Hn Hn'.
  - change (10 ^ Z.of_nat 0) with 1 in *.
    assert (n = 0) by lia. assert (n' = 0) by lia. subst. reflexivity.
  - rewrite Nat2Z.inj_succ, Z.pow_succ_r in Hn, Hn' by lia.
    cbn [padDigits]. rewrite IH by (Z.div_mod_to_equations; lia).
    cbn [String.compare].
    rewrite digitChar_compare by (Z.div_mod_to_equations; lia).
    destruct (Z.compare_spec (n / 10) (n' / 10)) as [E | E | E];
    destruct (Z.compare_spec (n mod 10) (n' mod 10)) as [E' | E' | E'];
    destruct (Z.compare_spec n n') as [E'' | E'' | E''];
    try reflexivity; exfalso; Z.div_mod_to_equations; lia.
Qed.

Lemma isoYear_four y rest : 0 <= y <= 9999 -> isoYear y rest = padDigits 4 y rest.
Proof.
  intros H. unfold isoYear.
  replace (0 <=? y) with true by (symmetry; apply Z.leb_le; lia).
  replace (y <=? 9999) with true by (symmetry; apply Z.leb_le; lia).
  reflexivity.
Qed.

Lemma isoCivil_compare c c' : printable c -> printable c' ->
  String.compare (isoCivil c) (isoCivil c') = civil_compare c c'.
Proof.
  intros (Hy & Hm & Hd) (Hy' & Hm' & Hd'). unfold isoCivil, civil_compare.
  rewrite !isoYear_four by assumption.
  rewrite padDigits_compare by (change (10 ^ Z.of_nat 4) with 10000; lia).
  destruct (year c ?= year c'); try reflexivity.
  cbn [String.compare]. change (Ascii.compare "-" "-") with Eq. cbv iota.
  rewrite padDigits_compare by (change (10 ^ Z.of_nat 2) with 100; lia).
  destruct (month c ?= month c'); try reflexivity.
  cbn [String.compare]. change (Ascii.compare "-" "-") with Eq. cbv iota.
  rewrite padDigits_compare by (change (10 ^ Z.of_nat 2) with 100; lia).
  destruct (dayOfMonth c ?= dayOfMonth c'); reflexivity.
Qed.

Lemma civil_compare_lt c c' : civil_lt c c' -> civil_compare c c' = Lt.
Proof.
  unfold civil_lt, civil_compare. intros H.
  destruct (Z.compare_spec (year c) (year c')); try lia; try reflexivity.
  destruct (Z.compare_spec (month c) (month c')); try lia; try reflexivity.
  destruct (Z.compare_spec (dayOfMonth c) (dayOfMonth c')); try lia; reflexivity.
Qed.

Lemma civilOfDay_printable d : fourDigitYear d -> printable (civilOfDay d).
Proof.
  intros H. destruct (civilOfDay_spec d) as [[Vm Vd] _].
  pose proof (daysInMonth_bounds (year (civilOfDay d)) (month (civilOfDay d))).
  split; [now apply civilOfDay_year | lia].
Qed.

(** The order of ISO dates as strings is the order of the days. *)
Lemma toISODate_compare d d' : fourDigitYear d -> fourDigitYear d' ->
  String.compare (toISODate d) (toISODate d') = (d ?= d').
Proof.
  intros H H'.
  assert (L : forall a b, fourDigitYear a -> fourDigitYear b -> a < b ->
              String.compare (toISODate a) (toISODate b) = Lt).
  { intros a b Ha Hb Hab. unfold toISODate.
    rewrite isoCivil_compare by now apply civilOfDay_printable.
    now apply civil_compare_lt, civilOfDay_lt. }
  destruct (Z.compare_spec d d') as [E | E | E].
  - subst. apply string_compare_refl.
  - now apply L.
  - rewrite String.compare_antisym, (L d' d) by assumption. reflexivity.
Qed.

Lemma toISODate_ltb d d' : fourDigitYear d -> fourDigitYear d' ->
  String.ltb (toISODate d) (toISODate d') = (d <? d').
Proof.
  intros H H'. unfold String.ltb. rewrite toISODate_compare by assumption.
  unfold Z.ltb. reflexivity.
Qed.

Lemma toISODate_inj d d' : fourDigitYear d -> fourDigitYear d' ->
  toISODate d = toISODate d' -> d = d'.
Proof.
  intros H H' E. apply Z.compare_eq.
  rewrite <- (toISODate_compare d d'), E by assumption. apply string_compare_refl.
Qed.

Lemma padDigits_two n rest :
  padDigits 2 n rest =
  String (digitChar (n / 10 mod 10)) (String (digitChar (n mod 10)) rest).
Proof. reflexivity. Qed.

Lemma padDigits_four n rest :
  padDigits 4 n rest =
  String (digitChar (n / 10 / 10 / 10 mod 10))
    (String (digitChar (n / 10 / 10 mod 10))
       (String (digitChar (n / 10 mod 10)) (String (digitChar (n mod 10)) rest))).
Proof. reflexivity. Qed.

(** Reading back a printed date. *)
Lemma parseISODate_isoCivil c :
  0 <= year c <= 9999 -> 1 <= month c <= 12 -> 1 <= dayOfMonth c <= 31 ->
  parseISODate (isoCivil c) = Some (dayOfCivil c).
Proof.
  destruct c as [y m d]; cbn [year month dayOfMonth]. intros Hy Hm Hd.
  unfold isoCivil; cbn [year month dayOfMonth].
  rewrite isoYear_four, padDigits_four, !padDigits_two by assumption.
  unfold parseISODate.
  rewrite !digitVal_digitChar by (Z.div_mod_to_equations; lia).
  change (isDash "-") with true.
  replace (1000 * (y / 10 / 10 / 10 mod 10) + 100 * (y / 10 / 10 mod 10)
           + 10 * (y / 10 mod 10) + y mod 10) with y
    by (Z.div_mod_to_equations; lia).
  replace (10 * (m / 10 mod 10) + m mod 10) with m by (Z.div_mod_to_equations; lia).
  replace (10 * (d / 10 mod 10) + d mod 10) with d by (Z.div_mod_to_equations; lia).
  cbn [andb].
  replace (1 <=? m) with true by (symmetry; apply Z.leb_le; lia).
  replace (m <=? 12) with true by (symmetry; apply Z.leb_le; lia).
  replace (1 <=? d) with true by (symmetry; apply Z.leb_le; lia).
  replace (d <=? 31) with true by (symmetry; apply Z.leb_le; lia).
  reflexivity.
Qed.

Lemma parseISODate_toISODate d : fourDigitYear d ->
  parseISODate (toISODate d) = Some d.
Proof.
  intros H. destruct (civilOfDay_spec d) as [[Vm Vd] E].
  pose proof (daysInMonth_bounds (year (civilOfDay d)) (month (civilOfDay d))).
  unfold toISODate. rewrite parseISODate_isoCivil.
  - now rewrite E.
  - now apply civilOfDay_year.
  - assumption.
  - lia.
Qed.

Lemma daysBeforeMonth_range y m : 1 <= m <= 12 ->
  0 <= daysBeforeMonth y m <= 334 + (if isLeapYear y then 1 else 0).
Proof.
  intros H. each_month H; unfold daysBeforeMonth; cbn; destruct (isLeapYear y); lia.
Qed.

Lemma dayOfCivil_fourDigitYear y m d :
  0 <= y <= 9999 -> 1 <= m <= 12 -> 1 <= d <= 31 ->
  fourDigitYear (dayOfCivil (mkCivil y m d)).
Proof.
  intros Hy Hm Hd. unfold fourDigitYear, dayOfCivil; cbn [year month dayOfMonth].
  pose proof (daysBeforeMonth_range y m Hm).
  pose proof (dayFromYear_mono 0 y). pose proof (dayFromYear_mono (y + 1) 10000).
  pose proof (dayFromYear_succ y).
  assert (dayFromYear 0 = -719528) by reflexivity.
  assert (dayFromYear 10000 = 2932897) by reflexivity.
  lia.
Qed.

Lemma parseISODate_fourDigitYear s d : parseISODate s = Some d -> fourDigitYear d.
Proof.
  unfold parseISODate.
  do 10 (destruct s as [| ? s]; [discriminate |]).
  destruct s; [| discriminate].
  repeat match goal with
         | |- context [match digitVal ?c with _ => _ end] =>
             let E := fresh "E" in
             destruct (digitVal c) eqn:E; [apply digitVal_range in E | discriminate]
         end.
  match goal with |- context [if ?b then _ else _] => destruct b eqn:B end;
    [| discriminate].
  repeat (apply andb_true_iff in B; destruct B as [B ?]).
  repeat match goal with H : (_ <=? _) = true |- _ => apply Z.leb_le in H end.
  intros E'.
  match type of E' with Some ?x = Some _ => assert (D : d = x) by congruence end.
  rewrite D. apply dayOfCivil_fourDigitYear; lia.
Qed.

(** *** Dates of the years before 0000 *)

Lemma digitChar_after_minus a : 0 <= a <= 9 ->
  Ascii.compare (digitChar a) "-" = Gt.
Proof. intros H. each_digit H; reflexivity. Qed.

Lemma toISODate_starts_with_digit d : fourDigitYear d ->
  exists a rest, 0 <= a <= 9 /\ toISODate d = String (digitChar a) rest.
Proof.
  intros F. pose proof (civilOfDay_year d F) as Y.
  unfold toISODate, isoCivil. rewrite isoYear_four by exact Y.
  rewrite padDigits_four. eexists. eexists. split; [| reflexivity].
  pose proof (Z.mod_pos_bound (year (civilOfDay d) / 10 / 10 / 10) 10). lia.
Qed.

(** A date of the years 0000..9999 is not below the text of a day up to it,
    also when that day is the last of the year before 0000. *)
Lemma toISODate_not_before d d' : fourDigitYear d -> -719529 <= d' <= d ->
  String.ltb (toISODate d) (toISODate d') = false.
Proof.
  intros F [Lo Hi]. destruct (Z.eq_dec d' (-719529)) as [-> | N].
  - destruct (toISODate_starts_with_digit d F) as (a & rest & A & ->).
    replace (toISODate (-719529)) with "-000001-12-31"%string
      by (vm_compute; reflexivity).
    unfold String.ltb. cbn [String.compare].
    now rewrite (digitChar_after_minus a A).
  - rewrite toISODate_ltb; [apply Z.ltb_ge; lia | exact F |].
    unfold fourDigitYear in *. lia.
Qed.

(* ------------------------------------------------------------------ *)
(** ** Time values and the zone *)

Lemma msOfDay_range w : 0 <= msOfDay w < msPerDay.
Proof. unfold msOfDay. apply Z.mod_pos_bound. reflexivity. Qed.

(** The UTC day of [new Date()]. *)
Lemma dayOfTime_now w : dayOfTime (now w) = clockDay w.
Proof.
  unfold dayOfTime, now. pose proof (msOfDay_range w).
  rewrite Z.add_comm, Z.div_add by discriminate.
  rewrite Z.div_small by assumption. reflexivity.
Qed.

(** [setDate] lands within an hour of the same time of day. *)
Lemma setDateBy_bounds z k t :
  t + k * msPerDay - msPerHour <= setDateBy z k t <= t + k * msPerDay + msPerHour.
Proof.
  unfold setDateBy, UTC, LocalTime, LocalTZA, msPerHour.
  destruct (summerTimeAt z t), (summerTimeAtLocal z _); lia.
Qed.

(** Without clock changes it lands on it. *)
Lemma setDateBy_fixedOffset z k t :
  fixedOffset z -> setDateBy z k t = t + k * msPerDay.
Proof.
  intros (b & A & L). unfold setDateBy, UTC, LocalTime, LocalTZA.
  rewrite A, L. lia.
Qed.

Lemma setDateBy_utc k t : setDateBy utc k t = t + k * msPerDay.
Proof. apply setDateBy_fixedOffset. exists false. split; reflexivity. Qed.

Lemma fixedOffset_utc : fixedOffset utc.
Proof. exists false. split; reflexivity. Qed.

(** The day of [k] days ago is, in UTC, [k] days back give or take one. *)
Lemma dayOfTime_daysAgo_bounds k w :
  clockDay w - k - 1 <= dayOfTime (daysAgo k w) <= clockDay w - k + 1.
Proof.
  unfold daysAgo, dayOfTime.
  pose proof (setDateBy_bounds (zone w) (- k) (now w)) as B.
  pose proof (msOfDay_range w) as M. unfold now in *.
  unfold msPerDay, msPerHour in *. split.
  - apply Z.div_le_lower_bound; lia.
  - apply Z.lt_succ_r, Z.div_lt_upper_bound; lia.
Qed.

Lemma daysAgo_fixedOffset k w :
  fixedOffset (zone w) -> daysAgo k w = now w - k * msPerDay.
Proof. intros F. unfold daysAgo. rewrite setDateBy_fixedOffset by exact F. lia. Qed.

Lemma dayOfTime_daysAgo_fixedOffset k w :
  fixedOffset (zone w) -> dayOfTime (daysAgo k w) = clockDay w - k.
Proof.
  intros F. rewrite daysAgo_fixedOffset by exact F.
  unfold dayOfTime, now. pose proof (msOfDay_range w).
  replace (clockDay w * msPerDay + msOfDay w - k * msPerDay)
    with (msOfDay w + (clockDay w - k) * msPerDay) by lia.
  rewrite Z.div_add by discriminate.
  rewrite Z.div_small by assumption. reflexivity.
Qed.

(** A day of the years 0000..9999, give or take one, is a valid [Date]. *)
Lemma validTime_daysAgo k w :
  -719530 <= clockDay w - k <= 2932898 -> validTime (daysAgo k w) = true.
Proof.
  intros R. unfold validTime, daysAgo. apply Z.leb_le.
  pose proof (setDateBy_bounds (zone w) (- k) (now w)) as B.
  pose proof (msOfDay_range w) as M. unfold now in *.
  unfold msPerDay, msPerHour in *. lia.
Qed.

Close Scope Z_scope.

(* ------------------------------------------------------------------ *)
(** ** Recording *)

Lemma loadAnalytics_run w : loadAnalytics w = (Return (loadedLedger w), w).
Proof.
  unfold loadAnalytics, tryCatch, bind, readFile, loadedLedger.
  destruct (analyticsFile w) as [| [| analytics]]; reflexivity.
Qed.

(** One call of [updateDailyAnalytics], step by step. *)
Lemma updateDailyAnalytics_run date ev w :
  updateDailyAnalytics date ev w =
  match updatedLedger date ev w with
  | Return analytics =>
      match disk w with
      | TakesWrites => (Return tt, withFile (FileHolds (LedgerText analytics)) w)
      | RefusesOpen =>
          (Return tt,
           withConsoleError "Error updating daily analytics:" (FsError "EACCES") w)
      | OutOfSpace =>
          (Return tt,
           withConsoleError "Error updating daily analytics:" (FsError "ENOSPC")
             (withFile (FileHolds InvalidText) w))
      end
  | Throw e =>
      (Return tt, withConsoleError "Error updating daily analytics:" e w)
  end.
Proof.
  unfold updateDailyAnalytics, updatedLedger, tryCatch, bind.
  rewrite loadAnalytics_run.
  unfold nowISOString, liftOutcome, daysAgoISODate, toISOStringDate, writeFile,
    console_error, JSON_stringify.
  destruct (applyEvent _ ev _); [| reflexivity].
  destruct (validTime (daysAgo 90 w)); [| reflexivity].
  destruct (disk w); reflexivity.
Qed.

Lemma logEvent_run ev w :
  logEvent ev w =
  updateDailyAnalytics (toISODate (clockDay w)) ev
    (withCounters (countersAfter ev (dailyCounters w)) w).
Proof. destruct ev; reflexivity. Qed.

Lemma updatedLedger_withCounters date ev c w :
  updatedLedger date ev (withCounters c w) = updatedLedger date ev w.
Proof. reflexivity. Qed.

(** No recording call rejects. *)
Lemma logEvent_returns ev w : fst (logEvent ev w) = Return tt.
Proof.
  rewrite logEvent_run, updateDailyAnalytics_run.
  destruct (updatedLedger _ _ _); [| reflexivity].
  destruct (disk _); reflexivity.
Qed.

(** *** The prune as a filter *)

Lemma pruneStep_keeps cutoff k v dates : forall analytics,
  String.ltb k cutoff = false ->
  fold_left (pruneStep cutoff) dates ((k, v) :: analytics) =
  (k, v) :: fold_left (pruneStep cutoff) dates analytics.
Proof.
  induction dates as [| d dates IH]; intros analytics K; cbn [fold_left];
    [reflexivity |].
  unfold pruneStep at 2 4. destruct (String.ltb d cutoff) eqn:D.
  - cbn [obj_delete]. destruct (String.eqb_spec d k) as [-> | N]; [congruence |].
    now apply IH.
  - now apply IH.
Qed.

Lemma pruneBefore_filter cutoff analytics :
  pruneBefore cutoff analytics =
  filter (fun entry => negb (String.ltb (fst entry) cutoff)) analytics.
Proof.
  unfold pruneBefore.
  induction analytics as [| [k v] analytics IH]; [reflexivity |].
  cbn [obj_keys map fst fold_left filter]. unfold pruneStep at 2.
  destruct (String.ltb k cutoff) eqn:K; cbn [negb].
  - cbn [obj_delete]. rewrite String.eqb_refl. exact IH.
  - rewrite pruneStep_keeps by assumption. f_equal. exact IH.
Qed.

(** *** Totals of a record *)

Lemma applyEvent_balanced now ev dayData dayData' :
  balanced dayData -> applyEvent now ev dayData = Return dayData' ->
  balanced dayData'.
Proof.
  unfold balanced. intros B.
  destruct ev as [goal | data | data]; cbn [applyEvent].
  - intros [= <-]. exact B.
  - destruct (uniqueIPs_add _ _); [| discriminate].
    intros [= <-]. cbn. lia.
  - destruct (uniqueIPs_add _ _); [| discriminate].
    intros [= <-]. cbn. lia.
Qed.

Lemma In_obj_set {V} k (v : V) o e :
  In e (obj_set k v o) -> In e o \/ snd e = v.
Proof.
  induction o as [| [k' v'] o IH]; cbn.
  - intros [<- | []]. now right.
  - destruct (String.eqb k k'); cbn.
    + intros [<- | H]; [now right | left; now right].
    + intros [<- | H]; [left; now left |].
      destruct (IH H); [left; now right | now right].
Qed.

Lemma obj_get_In {V} k (v : V) o : obj_get k o = Some v -> In v (obj_values o).
Proof.
  induction o as [| [k' v'] o IH]; cbn; [discriminate |].
  destruct (String.eqb k k'); [intros [= <-]; now left | right; now apply IH].
Qed.

(** Every update leaves [totalRequests = successfulRequests + failedRequests]
    in every record it writes. *)
Lemma updatedLedger_balanced date ev w analytics :
  (forall r, In r (obj_values (loadedLedger w)) -> balanced r) ->
  updatedLedger date ev w = Return analytics ->
  forall r, In r (obj_values analytics) -> balanced r.
Proof.
  intros Hall. unfold updatedLedger.
  destruct (applyEvent _ ev _) as [dayData' |] eqn:A; [| discriminate].
  destruct (validTime _); [| discriminate].
  intros [= <-] r Hr.
  rewrite pruneBefore_filter in Hr.
  apply in_map_iff in Hr. destruct Hr as (e & <- & He).
  apply filter_In in He. destruct He as [He _].
  apply In_obj_set in He. destruct He as [He | ->].
  - apply Hall. apply in_map_iff. now exists e.
  - assert (B : balanced dayData').
    { eapply applyEvent_balanced; [| exact A].
      destruct (obj_get date (loadedLedger w)) eqn:G.
      - apply obj_get_In in G. apply Hall in G. exact G.
      - reflexivity. }
    exact B.
Qed.

(** *** Requests on a stored day *)

(** Once a date is in the file, every later request event of that date ends
    in the [catch]: the stored [uniqueIPs] is an array, [add] is missing, and
    nothing is written. *)
Lemma request_on_stored_day_is_dropped date r ev w :
  obj_get date (loadedLedger w) = Some r ->
  (exists data, ev = successfulRequest data \/ ev = failedRequest data) ->
  updateDailyAnalytics date ev w =
  (Return tt,
   withConsoleError "Error updating daily analytics:"
     (TypeError "dayData.uniqueIPs.add is not a function") w).
Proof.
  intros G (data & [-> | ->]); rewrite updateDailyAnalytics_run;
    unfold updatedLedger; rewrite G; reflexivity.
Qed.

(** A goal selection is applied to any day, stored or new. *)
Lemma goalSelection_goes_through date goal w :
  validTime (daysAgo 90 w) = true ->
  exists analytics, updatedLedger date (goalSelection goal) w = Return analytics.
Proof.
  intros V. unfold updatedLedger. cbn [applyEvent]. rewrite V.
  eexists. reflexivity.
Qed.

(** The cutoff of a clock in the years 0000..9999. *)
Lemma cutoff_valid w : fourDigitYear (clockDay w - 90) -> validTime (daysAgo 90 w) = true.
Proof. intros F. apply validTime_daysAgo. unfold fourDigitYear in F. lia. Qed.

(** Today is never before the cutoff. *)
Lemma today_survives w : clockInRange w ->
  String.ltb (toISODate (clockDay w)) (toISODate (dayOfTime (daysAgo 90 w))) = false.
Proof.
  intros [F F']. apply toISODate_not_before; [exact F' |].
  pose proof (dayOfTime_daysAgo_bounds 90 w). unfold fourDigitYear in F. lia.
Qed.

(** *** The scenarios of the specification *)

(** C1 (the code falls short of it): from an empty ledger, two successful
    requests on the same date leave [totalRequests = 1], not 2.  The first
    call writes [uniqueIPs] as an array; the second call reads it back,
    calls [add] on the array and the [TypeError] ends in the console. *)
Theorem two_successful_requests_count_one :
  let w1 := snd (logSuccessfulRequest request_r1 freshWorld) in
  let w2 := snd (logSuccessfulRequest request_r1 w1) in
  exists r,
    analyticsFile w2 = FileHolds (LedgerText [("2024-06-15", r)]) /\
    totalRequests r = 1 /\ successfulRequests r = 1 /\ failedRequests r = 0 /\
    consoleErrors w2 =
      [("Error updating daily analytics:",
        TypeError "dayData.uniqueIPs.add is not a function")].
Proof. vm_compute. eexists. repeat split. Qed.

(** C3 (the code falls short of it): after [logGoalSelection "sleep"] and
    [logSuccessfulRequest {requestId: "r1", ip: "1.2.3.4"}] on 2024-06-15,
    the day query shows the goal selection and no request at all. *)
Theorem goal_then_request_shows_no_request :
  let w1 := snd (logGoalSelection "sleep" freshWorld) in
  let w2 := snd (logSuccessfulRequest request_r1 w1) in
  fst (getDailyAnalytics (Some "2024-06-15") None w2) =
  Return (DayAnalytics "2024-06-15"
            (mkDay "2024-06-15" 0 0 0 [("sleep", Count 1)] [] 0 [] None None)).
Proof. vm_compute. reflexivity. Qed.

(** C2, as stated, fails: on a disk without space the write fails, and the
    recording call returns normally: no error reaches its caller, and no
    event is in the file. *)
Lemma write_failure_not_propagated :
  ~ (exists e, fst (logGoalSelection "sleep" fullDiskWorld) = Throw e) /\
  loadedLedger (snd (logGoalSelection "sleep" fullDiskWorld)) = [].
Proof. split; [intros [e H]; vm_compute in H; discriminate | reflexivity]. Qed.

(** C2, amended: a recording call never rejects, and the in-memory counters
    move in every case.  When the event gets to the write and the write goes
    through, the file holds the updated ledger when the call returns.  When
    the write fails, the failure is caught in [updateDailyAnalytics] and goes
    to [console.error], not to the caller; the file is as it was when the
    open was refused, and is left cut off, no longer JSON, when the space ran
    out during the write.  An event that throws before the write leaves the
    file as it was. *)
Theorem logEvent_catches_write_failure ev w :
  let w' := snd (logEvent ev w) in
  let reported e :=
    (consoleErrors w ++ [("Error updating daily analytics:", e)])%list in
  fst (logEvent ev w) = Return tt /\
  dailyCounters w' = countersAfter ev (dailyCounters w) /\
  (forall analytics,
     updatedLedger (toISODate (clockDay w)) ev w = Return analytics ->
     (disk w = TakesWrites ->
        analyticsFile w' = FileHolds (LedgerText analytics) /\
        consoleErrors w' = consoleErrors w) /\
     (disk w = RefusesOpen ->
        analyticsFile w' = analyticsFile w /\
        consoleErrors w' = reported (FsError "EACCES")) /\
     (disk w = OutOfSpace ->
        analyticsFile w' = FileHolds InvalidText /\
        consoleErrors w' = reported (FsError "ENOSPC"))) /\
  (forall e,
     updatedLedger (toISODate (clockDay w)) ev w = Throw e ->
     analyticsFile w' = analyticsFile w /\ consoleErrors w' = reported e).
Proof.
  cbv zeta. split; [apply logEvent_returns |].
  rewrite logEvent_run, updateDailyAnalytics_run, updatedLedger_withCounters.
  change (disk (withCounters (countersAfter ev (dailyCounters w)) w)) with (disk w).
  destruct (updatedLedger _ ev w) as [analytics |] eqn:U.
  - destruct (disk w) eqn:D;
      cbn [snd dailyCounters analyticsFile consoleErrors withFile withConsoleError
           withCounters];
      (split; [reflexivity |]); (split; [| intros e [=]]);
      intros a [= <-]; (split; [| split]); intros E; try discriminate E;
      split; reflexivity.
  - cbn [snd dailyCounters analyticsFile consoleErrors withFile withConsoleError
         withCounters].
    split; [reflexivity |]. split; [intros a [=] |].
    intros e' [= <-]. split; reflexivity.
Qed.

Lemma logEvent_catches_write_failure_witness :
  analyticsFile (snd (logEvent (goalSelection "sleep") fullDiskWorld)) =
    FileHolds InvalidText /\
  analyticsFile (snd (logEvent (goalSelection "sleep") readOnlyWorld)) =
    FileMissing /\
  analyticsFile (snd (logEvent (goalSelection "sleep") freshWorld)) =
  FileHolds (LedgerText
    [("2024-06-15",
      mkDay "2024-06-15" 0 0 0 [("sleep", Count 1)] [] 0 [] None None)]).
Proof.
  assert (U : forall d, updatedLedger "2024-06-15" (goalSelection "sleep")
                (mkWorld FileMissing d 19889 36000000 utc isoDatesOnly noCounters [])
              = Return [("2024-06-15",
                         mkDay "2024-06-15" 0 0 0 [("sleep", Count 1)] [] 0 []
                               None None)])
    by (intros d; vm_compute; reflexivity).
  split; [| split].
  - destruct (logEvent_catches_write_failure (goalSelection "sleep") fullDiskWorld)
      as (_ & _ & W & _).
    destruct (W _ (U OutOfSpace)) as (_ & _ & F). now destruct (F eq_refl).
  - destruct (logEvent_catches_write_failure (goalSelection "sleep") readOnlyWorld)
      as (_ & _ & W & _).
    destruct (W _ (U RefusesOpen)) as (_ & F & _). now destruct (F eq_refl).
  - destruct (logEvent_catches_write_failure (goalSelection "sleep") freshWorld)
      as (_ & _ & W & _).
    destruct (W _ (U TakesWrites)) as (F & _). now destruct (F eq_refl).
Defined.

Lemma applyEvent_newDayData now ev date :
  exists dayData', applyEvent now ev (newDayData date) = Return dayData'.
Proof. destruct ev; cbn; eexists; reflexivity. Qed.

Lemma pruneBefore_today w r :
  clockInRange w ->
  pruneBefore (toISODate (dayOfTime (daysAgo 90 w))) [(toISODate (clockDay w), r)] =
  [(toISODate (clockDay w), r)].
Proof.
  intros R. rewrite pruneBefore_filter. cbn [filter fst].
  now rewrite today_survives.
Qed.

(** What [obj_incr] makes of an object without entries. *)
Lemma obj_incr_nil goal :
  obj_incr goal [] =
  if inheritedName goal
  then (if String.eqb goal "__proto__" then [] else [(goal, NotANumber)])
  else [(goal, Count 1)].
Proof.
  unfold obj_incr, obj_read, inheritedName. cbn [obj_get].
  cbn [objectPrototype obj_get obj_keys map fst existsb].
  repeat match goal with
         | |- context [String.eqb goal ?s] =>
             destruct (String.eqb_spec goal s) as [-> | ?]; [reflexivity |]
         end.
  reflexivity.
Qed.

(** C4: with the ledger file missing or not JSON, a recording call starts
    from the empty ledger, writes a ledger that holds the event in a new
    record for today and nothing else, and returns with nothing reported.
    The record is spelled out: a goal selection has the tally 1 (for a name
    inherited from [Object.prototype], the [NaN] that the source makes of
    it), a request has one request, its caller, the time of the call and,
    when it failed, the error entry. *)
Theorem unreadable_ledger_starts_fresh ev w :
  analyticsFile w = FileMissing \/ analyticsFile w = FileHolds InvalidText ->
  diskWritable w = true ->
  fourDigitYear (clockDay w - 90) -> fourDigitYear (clockDay w) ->
  let today := toISODate (clockDay w) in
  let now := (toISODate (clockDay w) ++ "T" ++ clockTime w)%string in
  let caller data :=
    match ip data with
    | Some a => if String.eqb a "" then "unknown" else a
    | None => "unknown"
    end in
  fst (logEvent ev w) = Return tt /\
  consoleErrors (snd (logEvent ev w)) = consoleErrors w /\
  analyticsFile (snd (logEvent ev w)) =
  FileHolds (LedgerText
    [(today,
      match ev with
      | goalSelection goal =>
          mkDay today 0 0 0
            (if inheritedName goal
             then (if String.eqb goal "__proto__" then [] else [(goal, NotANumber)])
             else [(goal, Count 1)])
            [] 0 [] None None
      | successfulRequest data =>
          mkDay today 1 1 0 [] [] 0 [caller data] (Some now) (Some now)
      | failedRequest data =>
          mkDay today 1 0 1 []
            [mkErrorEntry (error data) now (requestId data)] 0
            [caller data] (Some now) (Some now)
      end)]).
Proof.
  intros F D H H'. cbv zeta. split; [apply logEvent_returns |].
  rewrite logEvent_run, updateDailyAnalytics_run, updatedLedger_withCounters.
  change (disk (withCounters (countersAfter ev (dailyCounters w)) w)) with (disk w).
  unfold diskWritable in D. destruct (disk w); try discriminate.
  assert (L : loadedLedger w = []).
  { unfold loadedLedger. destruct F as [-> | ->]; reflexivity. }
  unfold updatedLedger. rewrite L. cbn [obj_get].
  rewrite (cutoff_valid w H).
  destruct ev as [goal | data | data];
    cbn [applyEvent newDayData uniqueIPs_add uniqueIPs date totalRequests
         successfulRequests failedRequests goalSelections errors
         averageResponseTime firstRequest lastRequest set_add existsb app
         firstRequestOr arrayFromIPs obj_set];
    rewrite pruneBefore_today by (split; assumption);
    cbn [snd consoleErrors analyticsFile withFile withCounters];
    (split; [reflexivity |]).
  - now rewrite obj_incr_nil.
  - reflexivity.
  - reflexivity.
Qed.

Lemma unreadable_ledger_starts_fresh_witness :
  analyticsFile (snd (logEvent (successfulRequest request_r1) freshWorld)) =
  FileHolds (LedgerText
    [("2024-06-15",
      mkDay "2024-06-15" 1 1 0 [] [] 0 ["1.2.3.4"]
            (Some "2024-06-15T10:00:00.000Z") (Some "2024-06-15T10:00:00.000Z"))]).
Proof.
  destruct (unreadable_ledger_starts_fresh (successfulRequest request_r1) freshWorld)
    as (_ & _ & F).
  - left; reflexivity.
  - reflexivity.
  - unfold fourDigitYear; cbn; lia.
  - unfold fourDigitYear; cbn; lia.
  - rewrite F. vm_compute. reflexivity.
Defined.

(* ------------------------------------------------------------------ *)
(** ** Pruning *)

Lemma In_keys_pruneBefore cutoff (analytics : Ledger) k :
  In k (obj_keys (pruneBefore cutoff analytics)) <->
  In k (obj_keys analytics) /\ String.ltb k cutoff = false.
Proof.
  rewrite pruneBefore_filter. unfold obj_keys. rewrite !in_map_iff. split.
  - intros (e & <- & He). apply filter_In in He. destruct He as [He Hc].
    apply negb_true_iff in Hc. split; [now exists e | exact Hc].
  - intros [(e & <- & He) Hc]. exists e. split; [reflexivity |].
    apply filter_In. split; [exact He | now apply negb_true_iff].
Qed.

Lemma In_keys_obj_set {V} k0 (v : V) o k :
  In k (obj_keys (obj_set k0 v o)) <-> k = k0 \/ In k (obj_keys o).
Proof.
  induction o as [| [k' v'] o IH]; cbn.
  - split; [intros [<- | []]; now left | intros [-> | []]; now left].
  - destruct (String.eqb_spec k0 k') as [-> | N]; cbn.
    + split; [intros [<- | H]; [now left | right; now right] |].
      intros [-> | [<- | H]]; [now left | now left | now right].
    + unfold obj_keys in IH. rewrite IH. tauto.
Qed.

(** C5, as stated, fails: over a ledger with the dates today-200 .. today
    (today is day 400, 1971-02-05, on UTC), one write leaves the date
    today-90, which is earlier than today-89. *)
Lemma cutoff_day_survives_prune :
  ~ (forall d, (d < 400 - 89)%Z ->
       ~ In (toISODate d)
            (obj_keys (loadedLedger
               (snd (updateDailyAnalytics "1971-02-05" (goalSelection "sleep")
                       longLedgerWorld))))).
Proof.
  intros H. apply (H (400 - 90)%Z); [lia |].
  assert (E : existsb (String.eqb (toISODate (400 - 90)))
                (obj_keys (loadedLedger
                   (snd (updateDailyAnalytics "1971-02-05" (goalSelection "sleep")
                           longLedgerWorld)))) = true)
    by (vm_compute; reflexivity).
  apply existsb_exists in E. destruct E as (k & Hk & E).
  apply String.eqb_eq in E. rewrite E. exact Hk.
Qed.

(** The cutoff is the UTC date of the time 90 local days back: in Los
    Angeles on 2024-04-01 at 23:30 UTC that is 2024-01-03, a day after
    today-90, and a write removes the record of today-90. *)
Example cutoff_after_clock_change :
  toISODate (clockDay losAngelesWorld - 90) = "2024-01-02" /\
  toISODate (dayOfTime (daysAgo 90 losAngelesWorld)) = "2024-01-03" /\
  existsb (String.eqb "2024-01-02")
    (obj_keys (loadedLedger
       (snd (updateDailyAnalytics "2024-04-01" (goalSelection "sleep")
               losAngelesWorld)))) = false.
Proof. vm_compute. repeat split. Qed.

Lemma updatedLedger_keys date ev w analytics k :
  updatedLedger date ev w = Return analytics ->
  In k (obj_keys analytics) <->
  (k = date \/ In k (obj_keys (loadedLedger w))) /\
  String.ltb k (toISODate (dayOfTime (daysAgo 90 w))) = false.
Proof.
  unfold updatedLedger.
  destruct (applyEvent _ ev _); [| discriminate].
  destruct (validTime _); [| discriminate].
  intros [= <-]. rewrite In_keys_pruneBefore, In_keys_obj_set. reflexivity.
Qed.

(** C5, amended: a call of [updateDailyAnalytics] that gets to its write
    removes the dates before the cutoff and keeps the others, the cutoff date
    included.  The cutoff is the UTC date of the time 90 local days ago: it
    is today-90 in a zone without clock changes, and today-89, today-90 or
    today-91 in any zone. *)
Theorem write_prunes_before_cutoff date ev w analytics :
  diskWritable w = true ->
  updatedLedger date ev w = Return analytics ->
  fourDigitYear (clockDay w - 91) -> fourDigitYear (clockDay w) ->
  analyticsFile (snd (updateDailyAnalytics date ev w)) =
    FileHolds (LedgerText analytics) /\
  (fixedOffset (zone w) ->
     (forall d, fourDigitYear d -> In (toISODate d) (obj_keys analytics) ->
                (clockDay w - 90 <= d)%Z) /\
     (forall d, fourDigitYear d -> (clockDay w - 90 <= d)%Z ->
                In (toISODate d) (obj_keys (loadedLedger w)) ->
                In (toISODate d) (obj_keys analytics))) /\
  (forall d, fourDigitYear d -> In (toISODate d) (obj_keys analytics) ->
             (clockDay w - 91 <= d)%Z) /\
  (forall d, fourDigitYear d -> (clockDay w - 89 <= d)%Z ->
             In (toISODate d) (obj_keys (loadedLedger w)) ->
             In (toISODate d) (obj_keys analytics)).
Proof.
  intros D U C C'.
  pose proof (dayOfTime_daysAgo_bounds 90 w) as B.
  assert (FC : fourDigitYear (dayOfTime (daysAgo 90 w)))
    by (unfold fourDigitYear in *; lia).
  assert (Old : forall d, fourDigitYear d -> In (toISODate d) (obj_keys analytics) ->
                  (dayOfTime (daysAgo 90 w) <= d)%Z).
  { intros d Hd Hk. apply (updatedLedger_keys _ _ _ _ _ U) in Hk.
    destruct Hk as [_ Hk]. rewrite toISODate_ltb in Hk by assumption.
    now apply Z.ltb_ge in Hk. }
  assert (New : forall d, fourDigitYear d -> (dayOfTime (daysAgo 90 w) <= d)%Z ->
                  In (toISODate d) (obj_keys (loadedLedger w)) ->
                  In (toISODate d) (obj_keys analytics)).
  { intros d Hd Hc Hk. apply (updatedLedger_keys _ _ _ _ _ U). split.
    - now right.
    - rewrite toISODate_ltb by assumption. now apply Z.ltb_ge. }
  split; [| split; [| split]].
  - rewrite updateDailyAnalytics_run, U.
    unfold diskWritable in D. destruct (disk w); try discriminate. reflexivity.
  - intros Fx. rewrite (dayOfTime_daysAgo_fixedOffset 90 w Fx) in Old, New.
    split; assumption.
  - intros d Hd Hk. specialize (Old d Hd Hk). lia.
  - intros d Hd Hc Hk. apply (New d Hd); [lia | exact Hk].
Qed.

Lemma write_prunes_before_cutoff_witness :
  ~ In (toISODate (400 - 91))
     (obj_keys (loadedLedger
        (snd (updateDailyAnalytics "1971-02-05" (goalSelection "sleep")
                longLedgerWorld)))).
Proof.
  assert (U : exists analytics,
            updatedLedger "1971-02-05" (goalSelection "sleep") longLedgerWorld
            = Return analytics) by (vm_compute; eexists; reflexivity).
  destruct U as [analytics U].
  destruct (write_prunes_before_cutoff "1971-02-05" (goalSelection "sleep")
              longLedgerWorld analytics eq_refl U) as (F & Fixed & _).
  { unfold fourDigitYear. change (clockDay longLedgerWorld) with 400%Z. lia. }
  { unfold fourDigitYear. change (clockDay longLedgerWorld) with 400%Z. lia. }
  destruct (Fixed fixedOffset_utc) as [Old _].
  unfold loadedLedger. rewrite F. intros Hk. apply Old in Hk.
  - change (clockDay longLedgerWorld) with 400%Z in Hk. lia.
  - unfold fourDigitYear. lia.
Defined.

(* ------------------------------------------------------------------ *)
(** ** Day and range queries *)

Lemma falsy_Some s : s <> "" -> falsy (Some s) = false.
Proof. intros H. cbn. now apply String.eqb_neq. Qed.

Lemma getDailyAnalytics_unreadable startDate endDate w :
  analyticsFile w = FileMissing \/ analyticsFile w = FileHolds InvalidText ->
  fst (getDailyAnalytics startDate endDate w) =
  Return (AnalyticsError "Failed to read analytics data").
Proof.
  unfold getDailyAnalytics, tryCatch, bind, readFile.
  intros [-> | ->]; reflexivity.
Qed.

(** C6, as stated, fails: before the first event is recorded there is no
    ledger file, and the day query answers with the error object, not with
    an empty record. *)
Lemma day_query_without_file_is_error :
  fst (getDailyAnalytics (Some "2024-06-15") None freshWorld) =
    Return (AnalyticsError "Failed to read analytics data") /\
  fst (getDailyAnalytics (Some "2024-06-15") None freshWorld) <>
    Return (DayAnalytics "2024-06-15" (getEmptyDayData "2024-06-15")).
Proof. split; [reflexivity | discriminate]. Qed.

(** C6, amended: over a ledger file that can be read and parsed, the day
    query returns the stored record of the date, or the empty record when
    the ledger has none, and changes nothing (asking again gives the same);
    over a file that is missing or not JSON it returns the error object.
    It never rejects. *)
Theorem day_query_stored_or_empty date w :
  date <> "" ->
  (forall analytics,
     analyticsFile w = FileHolds (LedgerText analytics) ->
     getDailyAnalytics (Some date) None w =
     (Return (DayAnalytics date
                (match obj_get date analytics with
                 | Some r => r
                 | None => mkDay date 0 0 0 [] [] 0 [] None None
                 end)), w)) /\
  (analyticsFile w = FileMissing \/ analyticsFile w = FileHolds InvalidText ->
     fst (getDailyAnalytics (Some date) None w) =
     Return (AnalyticsError "Failed to read analytics data")) /\
  (forall e, fst (getDailyAnalytics (Some date) None w) <> Throw e).
Proof.
  intros N. split; [| split].
  - intros analytics F.
    unfold getDailyAnalytics, tryCatch, bind, readFile. rewrite F.
    cbn [JSON_parse ret]. rewrite (falsy_Some _ N). reflexivity.
  - apply getDailyAnalytics_unreadable.
  - intros e. unfold getDailyAnalytics, tryCatch, bind, readFile.
    destruct (analyticsFile w) as [| [| analytics]]; try discriminate.
    cbn [JSON_parse ret]. rewrite (falsy_Some _ N). discriminate.
Qed.

Lemma day_query_stored_or_empty_witness :
  getDailyAnalytics (Some "2024-06-15") None
    (snd (logGoalSelection "sleep" freshWorld)) =
  (Return (DayAnalytics "2024-06-15"
             (mkDay "2024-06-15" 0 0 0 [("sleep", Count 1)] [] 0 [] None None)),
   snd (logGoalSelection "sleep" freshWorld)).
Proof.
  assert (N : "2024-06-15" <> "") by discriminate.
  destruct (day_query_stored_or_empty "2024-06-15"
              (snd (logGoalSelection "sleep" freshWorld)) N) as (S & _ & _).
  apply (S [("2024-06-15",
             mkDay "2024-06-15" 0 0 0 [("sleep", Count 1)] [] 0 [] None None)]).
  vm_compute. reflexivity.
Defined.

(** *** The loop of the range query *)

Lemma daysFromTo_nil first last : (last < first)%Z -> daysFromTo first last = [].
Proof.
  intros H. unfold daysFromTo.
  replace (Z.to_nat (last - first + 1)) with 0 by lia. reflexivity.
Qed.

Lemma daysFromTo_cons first last : (first <= last)%Z ->
  daysFromTo first last = first :: daysFromTo (first + 1) last.
Proof.
  intros H. unfold daysFromTo.
  replace (Z.to_nat (last - first + 1)) with (S (Z.to_nat (last - (first + 1) + 1)))
    by lia.
  cbn [seq map]. f_equal; [lia |].
  rewrite <- seq_shift, map_map. apply map_ext. intros i. lia.
Qed.

Lemma In_daysFromTo first last d :
  In d (daysFromTo first last) <-> (first <= d <= last)%Z.
Proof.
  unfold daysFromTo. rewrite in_map_iff. split.
  - intros (i & <- & Hi). apply in_seq in Hi. lia.
  - intros H. exists (Z.to_nat (d - first)). split; [lia |].
    apply in_seq. lia.
Qed.

Lemma NoDup_daysFromTo first last : NoDup (daysFromTo first last).
Proof.
  unfold daysFromTo. apply Injective_map_NoDup; [| apply seq_NoDup].
  intros i j H. lia.
Qed.

Lemma obj_set_new {V} k (v : V) o :
  ~ In k (obj_keys o) -> obj_set k v o = (o ++ [(k, v)])%list.
Proof.
  induction o as [| [k' v'] o IH]; cbn; [reflexivity |].
  intros H. destruct (String.eqb_spec k k') as [-> | N]; [tauto |].
  f_equal. apply IH. tauto.
Qed.

(** More fuel than [rangeFuel] changes nothing: a turn takes the date on by
    23 hours at least. *)
Lemma rangeFuel_step z d stop :
  (d <= stop)%Z -> rangeFuel (setDateBy z 1 d) stop < rangeFuel d stop.
Proof.
  intros L. unfold rangeFuel.
  pose proof (setDateBy_bounds z 1 d) as B.
  unfold msPerDay, msPerHour in *.
  assert (Q : ((stop - setDateBy z 1 d) / 82800000 + 1 <= (stop - d) / 82800000)%Z).
  { replace (stop - d)%Z with ((stop - d - 82800000) + 1 * 82800000)%Z by lia.
    rewrite Z.div_add by discriminate.
    pose proof (Z.div_le_mono (stop - setDateBy z 1 d) (stop - d - 82800000)
                  82800000). lia. }
  assert (P : (0 <= (stop - d) / 82800000)%Z) by (apply Z.div_pos; lia).
  change (86400000 - 3600000)%Z with 82800000%Z. lia.
Qed.

Lemma rangeLoop_enough z analytics stop fuel : forall fuel' d result,
  rangeFuel d stop <= fuel -> rangeFuel d stop <= fuel' ->
  rangeLoop fuel z analytics d stop result =
  rangeLoop fuel' z analytics d stop result.
Proof.
  induction fuel as [| fuel IH]; intros fuel' d result F F'.
  - assert (G : (stop < d)%Z).
    { unfold rangeFuel in F. unfold msPerDay, msPerHour in F.
      destruct (Z_lt_le_dec stop d) as [G | G]; [exact G |].
      assert (0 <= (stop - d) / (86400000 - 3600000))%Z by (apply Z.div_pos; lia).
      lia. }
    destruct fuel'; cbn [rangeLoop]; [reflexivity |].
    replace (d <=? stop)%Z with false by (symmetry; apply Z.leb_gt; lia).
    reflexivity.
  - cbn [rangeLoop]. destruct (d <=? stop)%Z eqn:E.
    + apply Z.leb_le in E. pose proof (rangeFuel_step z d stop E) as S.
      destruct fuel' as [| fuel']; [lia |]. cbn [rangeLoop].
      replace (d <=? stop)%Z with true by (symmetry; apply Z.leb_le; lia).
      apply IH; lia.
    + destruct fuel'; cbn [rangeLoop]; [reflexivity |]. now rewrite E.
Qed.

Lemma dayOfTime_midnight d : dayOfTime (d * msPerDay) = d.
Proof. unfold dayOfTime. apply Z.div_mul. discriminate. Qed.

(** In a zone without clock changes, and with fuel for every turn, the loop
    from the midnight of [d] to the midnight of [stop] adds the days from
    [d] to [stop] in order, each under its own key. *)
Lemma rangeLoop_spec z analytics stop fuel : fixedOffset z -> forall d result,
  (Z.to_nat (stop - d + 1) <= fuel)%nat ->
  fourDigitYear d -> fourDigitYear stop ->
  (forall k, In k (obj_keys result) ->
             exists d0, fourDigitYear d0 /\ (d0 < d)%Z /\ k = toISODate d0) ->
  rangeLoop fuel z analytics (d * msPerDay) (stop * msPerDay) result =
  (result ++ map (rangeEntry analytics) (daysFromTo d stop))%list.
Proof.
  intros Fx. induction fuel as [| fuel IH]; intros d result Hf Hd Hs Hr.
  - rewrite daysFromTo_nil by lia. cbn. now rewrite app_nil_r.
  - cbn [rangeLoop]. rewrite dayOfTime_midnight.
    rewrite (setDateBy_fixedOffset z 1 _ Fx).
    replace (d * msPerDay + 1 * msPerDay)%Z with ((d + 1) * msPerDay)%Z by lia.
    destruct (d * msPerDay <=? stop * msPerDay)%Z eqn:E.
    + apply Z.leb_le in E. assert (E' : (d <= stop)%Z) by (unfold msPerDay in E; lia).
      rewrite daysFromTo_cons by assumption.
      assert (New : ~ In (toISODate d) (obj_keys result)).
      { intros Hk. apply Hr in Hk. destruct Hk as (d0 & H0 & Hlt & Hk).
        apply toISODate_inj in Hk; [lia | assumption | assumption]. }
      rewrite obj_set_new by assumption.
      destruct (Z.eq_dec d stop) as [-> | Ne].
      * rewrite daysFromTo_nil by lia.
        destruct fuel; cbn [rangeLoop map];
          [| replace ((stop + 1) * msPerDay <=? stop * msPerDay)%Z with false
               by (symmetry; apply Z.leb_gt; unfold msPerDay; lia)];
          reflexivity.
      * rewrite IH.
        -- cbn [map]. now rewrite <- app_assoc.
        -- lia.
        -- unfold fourDigitYear in *. lia.
        -- assumption.
        -- intros k Hk. unfold obj_keys in Hk. rewrite map_app in Hk.
           apply in_app_or in Hk. destruct Hk as [Hk | [<- | []]].
           ++ apply Hr in Hk. destruct Hk as (d0 & H0 & Hlt & Hk).
              exists d0. repeat split; [apply H0 | apply H0 | lia | assumption].
           ++ exists d. repeat split; [apply Hd | apply Hd | lia].
    + apply Z.leb_gt in E. rewrite daysFromTo_nil by (unfold msPerDay in E; lia).
      cbn. now rewrite app_nil_r.
Qed.

Lemma dateParse_iso s d w : parseISODate s = Some d -> dateParse s w = Some (d * msPerDay)%Z.
Proof. intros P. unfold dateParse. now rewrite P. Qed.

Lemma getRange_spec w analytics startDate endDate start stop :
  fixedOffset (zone w) ->
  parseISODate startDate = Some start -> parseISODate endDate = Some stop ->
  getRange w analytics startDate endDate =
  map (rangeEntry analytics) (daysFromTo start stop).
Proof.
  intros Fx Ps Pe. unfold getRange.
  rewrite (dateParse_iso _ _ w Ps), (dateParse_iso _ _ w Pe).
  destruct (Z_le_gt_dec start stop) as [L | G].
  - rewrite rangeLoop_spec; try reflexivity; try assumption.
    + unfold rangeFuel.
      replace (stop * msPerDay - start * msPerDay)%Z
        with ((stop - start) * msPerDay)%Z by lia.
      unfold msPerDay, msPerHour.
      assert (stop - start <= (stop - start) * 86400000 / (86400000 - 3600000))%Z
        by (apply Z.div_le_lower_bound; lia).
      lia.
    + exact (parseISODate_fourDigitYear _ _ Ps).
    + exact (parseISODate_fourDigitYear _ _ Pe).
    + intros k [].
  - rewrite daysFromTo_nil by lia.
    assert (Z : rangeFuel (start * msPerDay) (stop * msPerDay) = 0
                \/ (stop * msPerDay < start * msPerDay)%Z)
      by (right; unfold msPerDay; lia).
    destruct (rangeFuel _ _); cbn [rangeLoop]; [reflexivity |].
    replace (start * msPerDay <=? stop * msPerDay)%Z with false
      by (symmetry; apply Z.leb_gt; unfold msPerDay; lia).
    reflexivity.
Qed.

Lemma keys_rangeEntries analytics days :
  obj_keys (map (rangeEntry analytics) days) = map toISODate days.
Proof. unfold obj_keys. rewrite map_map. reflexivity. Qed.

Lemma getDailyAnalytics_range analytics startDate endDate start stop w :
  analyticsFile w = FileHolds (LedgerText analytics) ->
  fixedOffset (zone w) ->
  parseISODate startDate = Some start ->
  parseISODate endDate = Some stop ->
  getDailyAnalytics (Some startDate) (Some endDate) w =
  (Return (RangeAnalytics (map (rangeEntry analytics) (daysFromTo start stop))), w).
Proof.
  intros F Fx Ps Pe.
  unfold getDailyAnalytics, tryCatch, bind, readFile. rewrite F.
  cbn [JSON_parse ret].
  assert (Ns : startDate <> "") by (intros ->; discriminate).
  assert (Ne : endDate <> "") by (intros ->; discriminate).
  rewrite (falsy_Some _ Ns), (falsy_Some _ Ne). cbn [textOf].
  now rewrite (getRange_spec w analytics _ _ _ _ Fx Ps Pe).
Qed.

(** C7, as stated, fails: without a ledger file the range query answers
    with the error object, whatever the dates: with [start], ..., [end] it is
    no mapping of these dates, and with [start] after [end] it is not the
    empty mapping. *)
Lemma range_query_without_file_is_error :
  fst (getDailyAnalytics (Some "2024-06-14") (Some "2024-06-16") freshWorld) =
    Return (AnalyticsError "Failed to read analytics data") /\
  fst (getDailyAnalytics (Some "2024-06-16") (Some "2024-06-14") freshWorld) <>
    Return (RangeAnalytics []).
Proof. split; [reflexivity | discriminate]. Qed.

(** Where the clocks change, the loop steps 23 or 25 hours: in Los Angeles
    the range 2024-03-08 .. 2024-03-12 comes without its last date. *)
Example range_over_clock_change :
  option_map (obj_keys (V := StoredDay))
    (match fst (getDailyAnalytics (Some "2024-03-08") (Some "2024-03-12")
                  losAngelesWorld) with
     | Return (RangeAnalytics result) => Some result
     | _ => None
     end) =
  Some ["2024-03-08"; "2024-03-09"; "2024-03-10"; "2024-03-11"].
Proof. vm_compute. reflexivity. Qed.

(** The range query never rejects. *)
Lemma getDailyAnalytics_returns startDate endDate w :
  exists rangeData w',
    getDailyAnalytics startDate endDate w = (Return rangeData, w').
Proof.
  unfold getDailyAnalytics, tryCatch, bind, readFile.
  destruct (analyticsFile w) as [| [| analytics]];
    try (eexists; eexists; reflexivity).
  cbn [JSON_parse ret].
  destruct (falsy startDate); [eexists; eexists; reflexivity |].
  destruct (falsy endDate); eexists; eexists; reflexivity.
Qed.

(** C7, amended: for two dates YYYY-MM-DD, over a ledger file that can be
    read and parsed and in a zone without clock changes, the range query
    returns one entry for each calendar date from [startDate] to [endDate],
    both included and in order, with the stored record or else the empty
    record; nothing when [startDate] is after [endDate], one entry when they
    are equal.  Over a file that is missing or not JSON it returns the error
    object.  It never rejects. *)
Theorem range_query_covers_dates startDate endDate start stop w :
  parseISODate startDate = Some start ->
  parseISODate endDate = Some stop ->
  (forall analytics,
     analyticsFile w = FileHolds (LedgerText analytics) ->
     fixedOffset (zone w) ->
     let result := map (rangeEntry analytics) (daysFromTo start stop) in
     getDailyAnalytics (Some startDate) (Some endDate) w =
       (Return (RangeAnalytics result), w) /\
     NoDup (obj_keys result) /\
     (forall d, fourDigitYear d ->
        (In (toISODate d) (obj_keys result) <-> (start <= d <= stop)%Z)) /\
     (forall d, (start <= d <= stop)%Z ->
        obj_get (toISODate d) result =
        Some (match obj_get (toISODate d) analytics with
              | Some r => r
              | None => mkDay (toISODate d) 0 0 0 [] [] 0 [] None None
              end)) /\
     ((stop < start)%Z -> result = []) /\
     (startDate = endDate -> List.length result = 1)) /\
  (analyticsFile w = FileMissing \/ analyticsFile w = FileHolds InvalidText ->
     fst (getDailyAnalytics (Some startDate) (Some endDate) w) =
     Return (AnalyticsError "Failed to read analytics data")) /\
  (forall e, fst (getDailyAnalytics (Some startDate) (Some endDate) w) <> Throw e).
Proof.
  intros Ps Pe.
  split; [| split; [apply getDailyAnalytics_unreadable |]];
    [| intros e;
       destruct (getDailyAnalytics_returns (Some startDate) (Some endDate) w)
         as (rangeData & w' & G); rewrite G; discriminate].
  intros analytics F Fx result.
  pose proof (parseISODate_fourDigitYear _ _ Ps) as Ws.
  pose proof (parseISODate_fourDigitYear _ _ Pe) as We.
  assert (W : forall d, In d (daysFromTo start stop) -> fourDigitYear d).
  { intros d Hd. apply In_daysFromTo in Hd. unfold fourDigitYear in *. lia. }
  assert (ND : NoDup (obj_keys result)).
  { unfold result. rewrite keys_rangeEntries.
    assert (G : forall l, NoDup l -> (forall d, In d l -> fourDigitYear d) ->
                          NoDup (map toISODate l)).
    { induction l as [| a l IHl]; intros Hn Hw; cbn; constructor.
      - inversion Hn as [| ? ? Ha Hl]; subst. intros Hin.
        apply in_map_iff in Hin. destruct Hin as (b & Hb & Hbl).
        apply toISODate_inj in Hb; [subst; tauto | |]; apply Hw; cbn; tauto.
      - inversion Hn; subst. apply IHl; [assumption |].
        intros d Hd. apply Hw. now right. }
    apply G; [apply NoDup_daysFromTo | exact W]. }
  assert (M : forall d, fourDigitYear d ->
                (In (toISODate d) (obj_keys result) <-> (start <= d <= stop)%Z)).
  { intros d Hd. unfold result. rewrite keys_rangeEntries, in_map_iff. split.
    - intros (d' & E & Hd'). apply toISODate_inj in E.
      + subst. now apply In_daysFromTo.
      + now apply W.
      + assumption.
    - intros H. exists d. split; [reflexivity | now apply In_daysFromTo]. }
  split; [| split; [exact ND | split; [exact M | split; [| split]]]].
  - now apply getDailyAnalytics_range.
  - intros d Hd.
    assert (Hin : In (rangeEntry analytics d) result)
      by (apply in_map; now apply In_daysFromTo).
    change (mkDay (toISODate d) 0 0 0 [] [] 0 [] None None)
      with (getEmptyDayData (toISODate d)).
    clear - ND Hin. unfold rangeEntry in Hin. unfold dayOrEmpty in Hin.
    induction result as [| [k v] rest IH]; [destruct Hin |].
    cbn [obj_get]. cbn in ND. inversion ND as [| ? ? Hk Hrest]; subst.
    destruct Hin as [E | Hin].
    + injection E as -> ->. now rewrite String.eqb_refl.
    + destruct (String.eqb_spec (toISODate d) k) as [<- | N].
      * exfalso. apply Hk. apply in_map_iff.
        eexists. split; [| exact Hin]. reflexivity.
      * now apply IH.
  - intros H. unfold result. now rewrite daysFromTo_nil.
  - intros ->. assert (start = stop) by congruence. subst stop.
    unfold result. rewrite length_map. unfold daysFromTo. rewrite length_map, length_seq.
    lia.
Qed.

Lemma range_query_covers_dates_witness :
  fst (getDailyAnalytics (Some "2024-06-14") (Some "2024-06-16")
         (snd (logGoalSelection "sleep" freshWorld))) =
    Return (RangeAnalytics
      [("2024-06-14", mkDay "2024-06-14" 0 0 0 [] [] 0 [] None None);
       ("2024-06-15",
        mkDay "2024-06-15" 0 0 0 [("sleep", Count 1)] [] 0 [] None None);
       ("2024-06-16", mkDay "2024-06-16" 0 0 0 [] [] 0 [] None None)]) /\
  fst (getDailyAnalytics (Some "2024-06-14") (Some "2024-06-16") freshWorld) =
    Return (AnalyticsError "Failed to read analytics data").
Proof.
  assert (Ps : parseISODate "2024-06-14" = Some 19888%Z) by (vm_compute; reflexivity).
  assert (Pe : parseISODate "2024-06-16" = Some 19890%Z) by (vm_compute; reflexivity).
  split.
  - destruct (range_query_covers_dates "2024-06-14" "2024-06-16" 19888 19890
                (snd (logGoalSelection "sleep" freshWorld)) Ps Pe)
      as (Readable & _ & _).
    destruct (Readable
                [("2024-06-15",
                  mkDay "2024-06-15" 0 0 0 [("sleep", Count 1)] [] 0 [] None None)])
      as (R & _).
    + vm_compute. reflexivity.
    + exact fixedOffset_utc.
    + rewrite R. vm_compute. reflexivity.
  - destruct (range_query_covers_dates "2024-06-14" "2024-06-16" 19888 19890
                freshWorld Ps Pe) as (_ & Unreadable & _).
    apply Unreadable. left. reflexivity.
Defined.

(* ------------------------------------------------------------------ *)
(** ** The summary *)

(** The summary is computed from what the range query returns. *)
Lemma getSummaryAnalytics_run days w rangeData w' :
  validTime (daysAgo days w) = true ->
  getDailyAnalytics (Some (toISODate (dayOfTime (daysAgo days w))))
                    (Some (toISODate (clockDay w))) w = (Return rangeData, w') ->
  getSummaryAnalytics days w =
  (Return (SummaryOf
     (mkReport (NilZero.string_of_int (Z.to_int days) ++ " days")
               (toISODate (dayOfTime (daysAgo days w))) (toISODate (clockDay w))
               (summaryOf (fold_left addDay (dayValues rangeData) noTotals))
               rangeData)), w').
Proof.
  intros V G.
  unfold getSummaryAnalytics, tryCatch, bind, todayISODate, daysAgoISODate,
    toISOStringDate.
  rewrite V, G. reflexivity.
Qed.

(** A start date that no [Date] holds ends in the [catch]. *)
Lemma getSummaryAnalytics_invalid days w :
  validTime (daysAgo days w) = false ->
  getSummaryAnalytics days w =
  (Return (SummaryError "Failed to generate summary analytics"),
   withConsoleError "Error generating summary analytics:"
     (RangeError "Invalid time value") w).
Proof.
  intros V.
  unfold getSummaryAnalytics, tryCatch, bind, todayISODate, daysAgoISODate,
    toISOStringDate.
  rewrite V. reflexivity.
Qed.

Lemma start_valid days w :
  fourDigitYear (clockDay w - days) -> validTime (daysAgo days w) = true.
Proof. intros F. apply validTime_daysAgo. unfold fourDigitYear in F. lia. Qed.

Lemma nearestTenths_spec m e : nearestTenthOf m e (nearestTenths m e).
Proof.
  unfold nearestTenthOf, nearestTenths.
  destruct (0 <=? e)%Z eqn:E.
  - apply Z.leb_le in E.
    rewrite (Z.max_l 0 (- e)), (Z.max_r 0 e) by lia.
    change (2 ^ 0)%Z with 1%Z. lia.
  - apply Z.leb_gt in E.
    rewrite (Z.max_r 0 (- e)), (Z.max_l 0 e) by lia.
    change (2 ^ 0)%Z with 1%Z.
    replace (1 - e)%Z with (Z.succ (- e)) by lia.
    rewrite Z.pow_succ_r by lia.
    assert (P : (0 < 2 ^ (- e))%Z) by (apply Z.pow_pos_nonneg; lia).
    pose proof (Z.mul_div_le (20 * Z.pos m + 2 ^ (- e)) (2 * 2 ^ (- e))) as Lo.
    pose proof (Z.mul_succ_div_gt (20 * Z.pos m + 2 ^ (- e)) (2 * 2 ^ (- e))) as Hi.
    lia.
Qed.

(** Double arithmetic against exact arithmetic.  For totals up to 100 the
    rate is the exact quotient rounded to the nearest tenth; where the exact
    quotient lies halfway between two tenths the double may fall on either
    side: 23 successes out of 80 are 28.75 percent and come out as "28.7". *)
Lemma successRate_near_exact_quotient successful total :
  0 < total <= 100 -> successful <= total ->
  toFixed1 (percentOf successful total) = oneDecimal (exactTenthsUp successful total) \/
  toFixed1 (percentOf successful total) = oneDecimal (exactTenthsDown successful total).
Proof.
  intros Ht Hs.
  assert (A : forallb (fun t =>
                forallb (fun s =>
                  String.eqb (toFixed1 (percentOf s t)) (oneDecimal (exactTenthsUp s t))
                  || String.eqb (toFixed1 (percentOf s t))
                                (oneDecimal (exactTenthsDown s t)))
                  (seq 0 (S t)))
              (seq 1 100) = true) by (vm_compute; reflexivity).
  rewrite forallb_forall in A. specialize (A total).
  rewrite forallb_forall in A. specialize (A ltac:(apply in_seq; lia) successful).
  specialize (A ltac:(apply in_seq; lia)).
  apply orb_true_iff in A. destruct A as [A | A]; apply String.eqb_eq in A; tauto.
Qed.

Example successRate_23_of_80 :
  toFixed1 (percentOf 23 80) = "28.7" /\ oneDecimal (exactTenthsUp 23 80) = "28.8".
Proof. vm_compute. split; reflexivity. Qed.

(** C8, as stated, fails: 23 successful requests out of 80 are 28.75
    percent, which rounds to 28.8, and the summary reports "28.7": the
    product of the two roundings of the double arithmetic lies below
    28.75. *)
Lemma successRate_off_exact_rounding :
  exists report,
    fst (getSummaryAnalytics 0 day23of80World) = Return (SummaryOf report) /\
    summary_totalRequests (summary report) = 80 /\
    summary_successfulRequests (summary report) = 23 /\
    (23 * 100 * 100 = 2875 * 80)%Z /\
    exactTenthsUp 23 80 = 288%Z /\
    successRate (summary report) = "28.7".
Proof. eexists. split; [vm_compute; reflexivity |]. repeat split. Qed.

(** C8, amended: the summary's [successRate] is "0" when the summed total
    is zero, and otherwise the text that [toFixed(1)] gives for the double
    [(successful / total) * 100]: the number with one decimal nearest to that
    double.  For totals up to 100 it is the exact quotient rounded to one
    decimal, a quotient halfway between two tenths going either way.  Two
    days with 10 requests, 8 successful, and 5 requests, 5 successful, give a
    total of 15 and a rate of "86.7". *)
Theorem successRate_is_rounded_percentage days w :
  fourDigitYear (clockDay w - days) -> fourDigitYear (clockDay w) ->
  (exists report w',
     getSummaryAnalytics days w = (Return (SummaryOf report), w') /\
     let total := summary_totalRequests (summary report) in
     let successful := summary_successfulRequests (summary report) in
     let double n := binary_normalize 53 1024 (Z.of_nat n) 0 false in
     let tenths n :=
       (NilZero.string_of_uint (N.to_uint (Z.to_N (n / 10))) ++ "."
        ++ NilZero.string_of_uint (N.to_uint (Z.to_N (n mod 10))))%string in
     (total = 0 -> successRate (summary report) = "0") /\
     (total <> 0 ->
        match SFmul 53 1024 (SFdiv 53 1024 (double successful) (double total))
                    (double 100) with
        | S754_zero _ => successRate (summary report) = "0.0"
        | S754_finite negative m e =>
            exists n,
              nearestTenthOf m e n /\
              successRate (summary report) =
              ((if negative then "-" else "") ++ tenths n)%string
        | S754_infinity negative =>
            successRate (summary report) =
            if negative then "-Infinity" else "Infinity"
        | S754_nan => successRate (summary report) = "NaN"
        end) /\
     (0 < total <= 100 -> successful <= total ->
        successRate (summary report) = tenths (exactTenthsUp successful total) \/
        successRate (summary report) = tenths (exactTenthsDown successful total))) /\
  (exists report,
     fst (getSummaryAnalytics 2 twoDayWorld) = Return (SummaryOf report) /\
     summary_totalRequests (summary report) = 15 /\
     successRate (summary report) = "86.7").
Proof.
  intros Ws We. split.
  - destruct (getDailyAnalytics_returns
                (Some (toISODate (dayOfTime (daysAgo days w))))
                (Some (toISODate (clockDay w))) w) as (rangeData & w' & G).
    eexists. exists w'.
    split; [apply (getSummaryAnalytics_run _ _ _ _ (start_valid _ _ Ws) G) |].
    cbn [summary summaryOf summary_totalRequests summary_successfulRequests
         successRate].
    set (totals := fold_left addDay (dayValues rangeData) noTotals).
    assert (R : totalRequestsSum totals <> 0 ->
                (if Nat.ltb 0 (totalRequestsSum totals)
                 then toFixed1 (percentOf (totalSuccessful totals)
                                          (totalRequestsSum totals))
                 else "0") =
                toFixed1 (percentOf (totalSuccessful totals)
                                    (totalRequestsSum totals))).
    { intros N. destruct (Nat.ltb_spec 0 (totalRequestsSum totals)); [reflexivity | lia]. }
    split; [| split].
    + intros ->. reflexivity.
    + intros N. rewrite (R N).
      change (SFmul 53 1024
                (SFdiv 53 1024
                   (binary_normalize 53 1024 (Z.of_nat (totalSuccessful totals)) 0 false)
                   (binary_normalize 53 1024 (Z.of_nat (totalRequestsSum totals)) 0 false))
                (binary_normalize 53 1024 (Z.of_nat 100) 0 false))
        with (percentOf (totalSuccessful totals) (totalRequestsSum totals)).
      destruct (percentOf _ _) as [sign | sign | | sign m e]; try reflexivity.
      exists (nearestTenths m e). split; [apply nearestTenths_spec | reflexivity].
    + intros Ht Hs. rewrite R by lia.
      exact (successRate_near_exact_quotient _ _ Ht Hs).
  - eexists. split; [vm_compute; reflexivity |]. split; reflexivity.
Qed.

Lemma successRate_is_rounded_percentage_witness :
  exists report,
    fst (getSummaryAnalytics 2 twoDayWorld) = Return (SummaryOf report) /\
    successRate (summary report) = "86.7".
Proof.
  destruct (successRate_is_rounded_percentage 2 twoDayWorld)
    as [(report & w' & R & _ & _ & Near) _].
  - unfold fourDigitYear; cbn; lia.
  - unfold fourDigitYear; cbn; lia.
  - exists report. split; [rewrite R; reflexivity |].
    vm_compute in R. injection R as <- <-.
    destruct Near as [N | N]; [cbn; lia | cbn; lia | |]; rewrite N;
      vm_compute; reflexivity.
Defined.

(** *** Adding up the days *)

Lemma obj_get_obj_set {V} k k0 (v : V) o :
  obj_get k (obj_set k0 v o) = if String.eqb k k0 then Some v else obj_get k o.
Proof.
  induction o as [| [k' v'] o IH]; cbn.
  - destruct (String.eqb k k0); reflexivity.
  - destruct (String.eqb_spec k0 k') as [<- | N]; cbn.
    + destruct (String.eqb k k0); reflexivity.
    + rewrite IH. destruct (String.eqb_spec k k') as [-> | N'].
      * destruct (String.eqb_spec k' k0) as [-> | _]; [tauto | reflexivity].
      * reflexivity.
Qed.

Lemma keys_obj_set {V} k (v : V) o :
  obj_keys (obj_set k v o) =
  if existsb (String.eqb k) (obj_keys o) then obj_keys o
  else (obj_keys o ++ [k])%list.
Proof.
  induction o as [| [k' v'] o IH]; cbn; [reflexivity |].
  destruct (String.eqb k k'); cbn; [reflexivity |].
  unfold obj_keys in IH. rewrite IH.
  destruct (existsb (String.eqb k) (map fst o)); reflexivity.
Qed.

Lemma NoDup_keys_obj_set {V} k (v : V) o :
  NoDup (obj_keys o) -> NoDup (obj_keys (obj_set k v o)).
Proof.
  intros H. rewrite keys_obj_set.
  destruct (existsb (String.eqb k) (obj_keys o)) eqn:E; [assumption |].
  apply NoDup_app; [assumption | repeat constructor; intros [] |].
  intros x Hx [E' | []]. subst x.
  assert (existsb (String.eqb k) (obj_keys o) = true); [| congruence].
  apply existsb_exists. exists k. split; [assumption | apply String.eqb_refl].
Qed.

Lemma getOrZero_addGoal k goals entry :
  getOrZero k (addGoal goals entry) =
  getOrZero k goals
  + (if String.eqb k (fst entry) then tallyNumber (snd entry) else 0).
Proof.
  unfold getOrZero, addGoal. rewrite obj_get_obj_set.
  destruct (String.eqb_spec k (fst entry)) as [-> | N].
  - destruct (obj_get (fst entry) goals); lia.
  - destruct (obj_get k goals); lia.
Qed.

Lemma getOrZero_addGoals k entries : forall goals,
  getOrZero k (fold_left addGoal entries goals) =
  getOrZero k goals + entriesTotal k entries.
Proof.
  unfold entriesTotal.
  induction entries as [| entry entries IH]; intros goals; cbn [fold_left filter].
  - cbn. lia.
  - rewrite IH, getOrZero_addGoal.
    destruct (String.eqb k (fst entry)); unfold list_sum; cbn [map fold_right]; lia.
Qed.

Lemma NoDup_keys_addGoals entries : forall goals,
  NoDup (obj_keys goals) -> NoDup (obj_keys (fold_left addGoal entries goals)).
Proof.
  induction entries as [| entry entries IH]; intros goals H; cbn [fold_left];
    [assumption |].
  apply IH. now apply NoDup_keys_obj_set.
Qed.

Lemma In_set_add members x y :
  In y (set_add members x) <-> In y members \/ y = x.
Proof.
  unfold set_add. destruct (existsb (String.eqb x) members) eqn:E.
  - apply existsb_exists in E. destruct E as (z & Hz & E).
    apply String.eqb_eq in E. subst z. split; [tauto | intros [H | ->]; assumption].
  - rewrite in_app_iff. cbn. intuition.
Qed.

Lemma NoDup_set_add members x : NoDup members -> NoDup (set_add members x).
Proof.
  intros H. unfold set_add. destruct (existsb (String.eqb x) members) eqn:E;
    [assumption |].
  apply NoDup_app; [assumption | repeat constructor; intros [] |].
  intros y Hy [E' | []]. subst y.
  assert (existsb (String.eqb x) members = true); [| congruence].
  apply existsb_exists. exists x. split; [assumption | apply String.eqb_refl].
Qed.

Lemma In_set_adds ips y : forall members,
  In y (fold_left set_add ips members) <-> In y members \/ In y ips.
Proof.
  induction ips as [| x ips IH]; intros members; cbn [fold_left].
  - cbn. tauto.
  - rewrite IH, In_set_add. cbn. intuition.
Qed.

Lemma NoDup_set_adds ips : forall members,
  NoDup members -> NoDup (fold_left set_add ips members).
Proof.
  induction ips as [| x ips IH]; intros members H; cbn [fold_left]; [assumption |].
  apply IH. now apply NoDup_set_add.
Qed.

Lemma addDay_skipped acc r : counted r = false -> addDay acc r = acc.
Proof.
  unfold counted, addDay. intros H. apply negb_false_iff in H. now rewrite H.
Qed.

Lemma addDay_counted acc r : counted r = true ->
  addDay acc r =
  mkTotals (totalRequestsSum acc + totalRequests r)
           (totalSuccessful acc + successfulRequests r)
           (totalFailed acc + failedRequests r)
           (fold_left addGoal (goalSelections r) (allGoalSelections acc))
           (fold_left set_add (uniqueIPs r) (uniqueIPsSet acc)).
Proof.
  unfold counted, addDay. intros H. apply negb_true_iff in H. now rewrite H.
Qed.

(** What the [forEach] over the days leaves in the running totals. *)
Lemma addDays_spec records : forall acc,
  let totals := fold_left addDay records acc in
  let active := filter counted records in
  totalRequestsSum totals =
    totalRequestsSum acc + list_sum (map totalRequests records) /\
  totalSuccessful totals =
    totalSuccessful acc + list_sum (map successfulRequests active) /\
  totalFailed totals = totalFailed acc + list_sum (map failedRequests active) /\
  (forall k, getOrZero k (allGoalSelections totals) =
             getOrZero k (allGoalSelections acc)
             + list_sum (map (tallyOf k) active)) /\
  (NoDup (obj_keys (allGoalSelections acc)) ->
   NoDup (obj_keys (allGoalSelections totals))) /\
  (forall a, In a (uniqueIPsSet totals) <->
             In a (uniqueIPsSet acc) \/
             exists r, In r active /\ In a (uniqueIPs r)) /\
  (NoDup (uniqueIPsSet acc) -> NoDup (uniqueIPsSet totals)).
Proof.
  induction records as [| r records IH]; intros acc; cbn zeta.
  - cbn. repeat split; try lia; try tauto.
    intros [H | (r & [] & _)]. exact H.
  - cbn [fold_left filter]. specialize (IH (addDay acc r)). cbn zeta in IH.
    destruct IH as (T & S & F & G & NG & U & NU).
    rewrite T, S, F. clear T S F.
    destruct (counted r) eqn:C.
    + rewrite (addDay_counted acc r C) in *.
      cbn [totalRequestsSum totalSuccessful totalFailed allGoalSelections
           uniqueIPsSet] in *.
      unfold list_sum in *. cbn [map fold_right].
      split; [lia |]. split; [lia |]. split; [lia |].
      split; [| split; [| split]].
      * intros k. rewrite G, getOrZero_addGoals. unfold tallyOf at 2. lia.
      * intros H. apply NG. now apply NoDup_keys_addGoals.
      * intros a. rewrite U, In_set_adds. split.
        -- intros [[H | H] | (r' & Hr' & Ha)].
           ++ now left.
           ++ right. exists r. split; [now left | assumption].
           ++ right. exists r'. split; [now right | assumption].
        -- intros [H | (r' & [<- | Hr'] & Ha)].
           ++ left. now left.
           ++ left. now right.
           ++ right. now exists r'.
      * intros H. apply NU. now apply NoDup_set_adds.
    + rewrite (addDay_skipped acc r C) in *.
      assert (Z : totalRequests r = 0).
      { unfold counted in C. apply negb_false_iff in C. now apply Nat.eqb_eq. }
      unfold list_sum. cbn [map fold_right]. rewrite Z.
      repeat split; try lia; try assumption; apply U.
Qed.

(** *** The ranked goals *)

Lemma goalCount_shares k (f : string * nat -> string) entries :
  goalCount k (map (fun entry => mkGoalShare (fst entry) (snd entry) (f entry))
                   entries) =
  getOrZero k entries.
Proof.
  unfold goalCount, getOrZero.
  induction entries as [| [k' n] entries IH]; cbn; [reflexivity |].
  destruct (String.eqb k k'); [reflexivity | exact IH].
Qed.

Lemma In_keys_insertByCount entry sorted x :
  In x (obj_keys (insertByCount entry sorted)) <->
  x = fst entry \/ In x (obj_keys sorted).
Proof.
  unfold obj_keys.
  induction sorted as [| first rest IH]; cbn [insertByCount map In].
  - intuition.
  - destruct (Nat.ltb (snd entry) (snd first)); cbn [map In].
    + rewrite IH. intuition.
    + intuition.
Qed.

Lemma In_keys_sortByCount entries x :
  In x (obj_keys (sortByCount entries)) <-> In x (obj_keys entries).
Proof.
  induction entries as [| entry entries IH]; cbn [sortByCount fold_right];
    [tauto |].
  fold (sortByCount entries). rewrite In_keys_insertByCount, IH.
  unfold obj_keys. cbn [map In]. intuition.
Qed.

Lemma getOrZero_insertByCount k entry sorted :
  ~ In (fst entry) (obj_keys sorted) ->
  getOrZero k (insertByCount entry sorted) =
  if String.eqb k (fst entry) then snd entry else getOrZero k sorted.
Proof.
  unfold getOrZero, obj_keys. destruct entry as [k0 n]. cbn [fst snd].
  induction sorted as [| [k' n'] rest IH];
    cbn [insertByCount obj_get map In fst snd]; intros H.
  - destruct (String.eqb k k0); reflexivity.
  - destruct (Nat.ltb n n'); cbn [obj_get].
    + destruct (String.eqb_spec k k') as [E | N].
      * destruct (String.eqb_spec k k0) as [E' | _]; [| reflexivity].
        exfalso. apply H. left. congruence.
      * apply IH. tauto.
    + destruct (String.eqb k k0); reflexivity.
Qed.

(** Sorting keeps what is held under each key. *)
Lemma getOrZero_sortByCount k entries :
  NoDup (obj_keys entries) ->
  getOrZero k (sortByCount entries) = getOrZero k entries.
Proof.
  induction entries as [| [k0 n] entries IH]; cbn [sortByCount fold_right];
    [reflexivity |].
  intros H. cbn in H. inversion H as [| ? ? Hk Hrest]; subst.
  fold (sortByCount entries). rewrite getOrZero_insertByCount.
  - cbn [fst snd]. unfold getOrZero at 2. cbn [obj_get].
    destruct (String.eqb k k0); [reflexivity | now apply IH].
  - cbn [fst]. now rewrite In_keys_sortByCount.
Qed.

Lemma goalCount_sortedGoals k totals :
  NoDup (obj_keys (allGoalSelections totals)) ->
  goalCount k (sortedGoals totals) = getOrZero k (allGoalSelections totals).
Proof.
  intros H. unfold sortedGoals.
  rewrite (goalCount_shares k
             (fun entry => toFixed1 (percentOf (snd entry) (totalRequestsSum totals)))).
  now apply getOrZero_sortByCount.
Qed.

(** C9, as stated, fails: the day that [logGoalSelection "sleep"] wrote has
    [totalRequests] zero and one selection of "sleep"; it lies in the range
    of [getSummaryAnalytics 7], and the summary has no goal at all. *)
Lemma zero_request_day_goals_left_out :
  let w := snd (logGoalSelection "sleep" freshWorld) in
  exists report,
    fst (getSummaryAnalytics 7 w) = Return (SummaryOf report) /\
    (exists r, obj_get "2024-06-15" (dayValuesByDate (dailyData report)) = Some r /\
               totalRequests r = 0 /\ goalSelections r = [("sleep", Count 1)]) /\
    popularGoals (summary report) = [] /\
    goalCount "sleep" (popularGoals (summary report)) <> 1.
Proof.
  eexists. split; [vm_compute; reflexivity |]. split.
  - eexists. split; [vm_compute; reflexivity |]. split; reflexivity.
  - split; [reflexivity | cbn; lia].
Qed.

(** C9, amended: over a ledger file that can be read and parsed, in a zone
    without clock changes, the summary of [days] days takes the records of
    the dates today-[days] .. today; it adds up their [totalRequests]; it
    adds up the successful and failed requests, merges the goal selections
    by addition (for a goal whose name is not inherited from
    [Object.prototype]) and unites the callers of those days whose
    [totalRequests] is not zero. *)
Theorem summary_adds_up_counted_days days w analytics :
  analyticsFile w = FileHolds (LedgerText analytics) ->
  fixedOffset (zone w) ->
  fourDigitYear (clockDay w - days) -> fourDigitYear (clockDay w) ->
  let records := recordsFromTo analytics (clockDay w - days) (clockDay w) in
  let active := filter counted records in
  exists report,
    getSummaryAnalytics days w = (Return (SummaryOf report), w) /\
    obj_values (dayValuesByDate (dailyData report)) = records /\
    summary_totalRequests (summary report) = list_sum (map totalRequests records) /\
    summary_successfulRequests (summary report) =
      list_sum (map successfulRequests active) /\
    summary_failedRequests (summary report) =
      list_sum (map failedRequests active) /\
    (forall k, inheritedName k = false ->
               goalCount k (popularGoals (summary report)) =
               list_sum (map (tallyOf k) active)) /\
    (exists callers,
       NoDup callers /\
       (forall a, In a callers <-> exists r, In r active /\ In a (uniqueIPs r)) /\
       uniqueUsers (summary report) = List.length callers).
Proof.
  intros F Fx Ws We records active.
  assert (G : getDailyAnalytics (Some (toISODate (dayOfTime (daysAgo days w))))
                (Some (toISODate (clockDay w))) w =
              (Return (RangeAnalytics
                 (map (rangeEntry analytics)
                      (daysFromTo (clockDay w - days) (clockDay w)))), w)).
  { rewrite (dayOfTime_daysAgo_fixedOffset days w Fx).
    apply getDailyAnalytics_range; [assumption | assumption | |];
      now apply parseISODate_toISODate. }
  eexists.
  split; [apply (getSummaryAnalytics_run _ _ _ _ (start_valid _ _ Ws) G) |].
  cbn [dailyData dayValuesByDate summary summaryOf summary_totalRequests
       summary_successfulRequests summary_failedRequests popularGoals
       uniqueUsers dayValues].
  assert (V : obj_values (map (rangeEntry analytics)
                (daysFromTo (clockDay w - days) (clockDay w))) = records).
  { unfold obj_values, records, recordsFromTo. rewrite map_map. reflexivity. }
  rewrite V.
  destruct (addDays_spec records noTotals) as (T & S & Fl & Gl & NG & U & NU).
  fold active in S, Fl, Gl, U.
  split; [reflexivity |]. split; [exact T |]. split; [exact S |].
  split; [exact Fl |]. split.
  - intros k _. rewrite goalCount_sortedGoals; [| apply NG; constructor].
    rewrite Gl. reflexivity.
  - exists (uniqueIPsSet (fold_left addDay records noTotals)).
    split; [apply NU; constructor |]. split; [| reflexivity].
    intros a. rewrite U. cbn. tauto.
Qed.

Lemma summary_adds_up_counted_days_witness :
  exists report,
    getSummaryAnalytics 2 twoDayWorld = (Return (SummaryOf report), twoDayWorld) /\
    summary_totalRequests (summary report) = 15 /\
    summary_successfulRequests (summary report) = 13 /\
    summary_failedRequests (summary report) = 2.
Proof.
  assert (F : analyticsFile twoDayWorld =
              FileHolds (LedgerText (loadedLedger twoDayWorld))) by reflexivity.
  assert (Ws : fourDigitYear (clockDay twoDayWorld - 2))
    by (unfold fourDigitYear; cbn; lia).
  assert (We : fourDigitYear (clockDay twoDayWorld))
    by (unfold fourDigitYear; cbn; lia).
  destruct (summary_adds_up_counted_days 2 twoDayWorld _ F fixedOffset_utc Ws We)
    as (report & R & _ & T & S & Fl & _).
  exists report. split; [exact R |].
  rewrite T, S, Fl. vm_compute. repeat split.
Defined.

(* ------------------------------------------------------------------ *)
(** ** Suggestions *)

Example catalog_keys : obj_keys peptideDatabase = catalogGoals.
Proof. reflexivity. Qed.

Example suggestions_for_40_sleep :
  option_map (map (fun s => name (peptide s)))
    (match getSuggestions 40 "sleep" with Return l => Some l | Throw _ => None end) =
  Some ["DSIP (Delta Sleep-Inducing Peptide)"; "CJC-1295 with DAC";
        "Glycine Peptide Complex"].
Proof. reflexivity. Qed.

Example suggestions_for_82_focus_fall_back :
  option_map (map (fun s => (name (peptide s), personalizedNote s)))
    (match getSuggestions 82 "focus" with Return l => Some l | Throw _ => None end) =
  Some [("Noopept",
         NoteText "Cognitive support can help maintain mental sharpness and clarity.");
        ("Selank",
         NoteText "Cognitive support can help maintain mental sharpness and clarity.");
        ("Cerebrolysin",
         NoteText "Cognitive support can help maintain mental sharpness and clarity.")].
Proof. reflexivity. Qed.

(** A goal that is a name of [Object.prototype] finds the inherited member:
    a method without arguments looks like an empty array, any other member
    has no [filter]. *)
Example suggestions_for_inherited_names :
  getSuggestions 40 "constructor" =
    Throw (TypeError "goalPeptides.filter is not a function") /\
  getSuggestions 40 "__proto__" =
    Throw (TypeError "goalPeptides.filter is not a function") /\
  getSuggestions 40 "toString" =
    Throw (Error "No peptides found for goal: toString").
Proof. repeat split. Qed.

Lemma obj_get_None {V} k (o : obj V) : ~ In k (obj_keys o) -> obj_get k o = None.
Proof.
  induction o as [| [k' v] o IH]; cbn; [reflexivity |].
  intros H. destruct (String.eqb_spec k k') as [-> | N]; [tauto |].
  apply IH. tauto.
Qed.

Lemma filter_nil_none {A} (f : A -> bool) l :
  (forall x, In x l -> f x = false) -> filter f l = [].
Proof.
  induction l as [| a l IH]; cbn; [reflexivity |].
  intros H. rewrite (H a) by now left. apply IH. intros x Hx. apply H. now right.
Qed.

(** What [getSuggestions] returns for a goal that has one to three entries. *)
Lemma getSuggestions_selected age goal goalPeptides :
  obj_get goal peptideDatabase = Some goalPeptides ->
  goalPeptides <> [] -> List.length goalPeptides <= 3 ->
  exists suggestions,
    getSuggestions age goal = Return suggestions /\
    suggestions <> [] /\ List.length suggestions <= 3 /\
    (forall s, In s suggestions ->
       personalizedNote s = getPersonalizedNote age goal (name (peptide s))) /\
    ((exists p, In p goalPeptides /\ ageSuitable age p = true) ->
       map peptide suggestions = filter (ageSuitable age) goalPeptides) /\
    ((forall p, In p goalPeptides -> ageSuitable age p = false) ->
       map peptide suggestions = goalPeptides).
Proof.
  intros G NE Len. unfold getSuggestions, obj_read. rewrite G.
  unfold suggestionsFrom.
  destruct goalPeptides as [| p0 rest] eqn:GP; [congruence |]. rewrite <- GP in *.
  replace (Nat.eqb (List.length goalPeptides) 0) with false
    by (rewrite GP; reflexivity).
  cbv zeta.
  set (suitable := filter (ageSuitable age) goalPeptides).
  set (selected := if Nat.ltb 0 (List.length suitable) then suitable else goalPeptides).
  assert (SL : List.length suitable <= List.length goalPeptides)
    by apply filter_length_le.
  assert (Sel : selected <> [] /\ List.length selected <= 3).
  { unfold selected. destruct (Nat.ltb_spec 0 (List.length suitable)) as [P | Z].
    - split; [| lia]. intros E. rewrite E in P. cbn in P. lia.
    - split; [congruence | lia]. }
  destruct Sel as [SelNE SelLen].
  rewrite firstn_all2 by (rewrite length_map; lia).
  eexists. split; [reflexivity |].
  assert (MP : map peptide
                 (map (fun p => mkSuggestion p (getPersonalizedNote age goal (name p)))
                      selected) = selected).
  { rewrite map_map. cbn. apply map_id. }
  split; [| split; [| split; [| split]]].
  - intros E. apply map_eq_nil in E. contradiction.
  - rewrite length_map. exact SelLen.
  - intros s Hs. apply in_map_iff in Hs. destruct Hs as (p & <- & _). reflexivity.
  - intros (p & Hp & Sp). rewrite MP. unfold selected.
    assert (Hin : In p suitable) by (apply filter_In; now split).
    destruct suitable; [destruct Hin | reflexivity].
  - intros None. rewrite MP. unfold selected, suitable.
    rewrite filter_nil_none by assumption. reflexivity.
Qed.

(** A goal that the catalog does not have: the names of [Object.prototype]
    apart, nothing is found. *)
Lemma getSuggestions_unknown age goal :
  ~ In goal catalogGoals ->
  getSuggestions age goal =
  Throw (if existsb (String.eqb goal)
              ["constructor"; "__defineGetter__"; "__defineSetter__";
               "hasOwnProperty"; "__lookupGetter__"; "__lookupSetter__";
               "isPrototypeOf"; "propertyIsEnumerable"; "__proto__"]
         then TypeError "goalPeptides.filter is not a function"
         else Error ("No peptides found for goal: " ++ goal)).
Proof.
  intros Hg. unfold getSuggestions, obj_read.
  rewrite (obj_get_None goal peptideDatabase Hg).
  cbn [objectPrototype obj_get existsb].
  repeat match goal with
         | |- context [String.eqb goal ?s] =>
             destruct (String.eqb_spec goal s) as [-> | ?]; [reflexivity |]
         end.
  reflexivity.
Qed.

(** C10: for a goal of the catalog and every age, [getSuggestions] returns
    one to three suggestions: the entries of the goal whose age range holds
    the age, or all entries of the goal when no range does, each with its
    note; for any other goal it throws: the [Error] that no peptides were
    found, or, for a name that finds a member of [Object.prototype] which
    does not look like an empty array, the [TypeError] of the missing
    [filter]. *)
Theorem getSuggestions_filters_by_age age goal :
  (In goal catalogGoals ->
   exists goalPeptides suggestions,
     obj_get goal peptideDatabase = Some goalPeptides /\
     getSuggestions age goal = Return suggestions /\
     suggestions <> [] /\ List.length suggestions <= 3 /\
     ((exists p, In p goalPeptides /\ ageSuitable age p = true) ->
        map peptide suggestions = filter (ageSuitable age) goalPeptides) /\
     ((forall p, In p goalPeptides -> ageSuitable age p = false) ->
        map peptide suggestions = goalPeptides)) /\
  (~ In goal catalogGoals ->
   getSuggestions age goal =
   Throw (if existsb (String.eqb goal)
               ["constructor"; "__defineGetter__"; "__defineSetter__";
                "hasOwnProperty"; "__lookupGetter__"; "__lookupSetter__";
                "isPrototypeOf"; "propertyIsEnumerable"; "__proto__"]
          then TypeError "goalPeptides.filter is not a function"
          else Error ("No peptides found for goal: " ++ goal))).
Proof.
  split.
  - intros Hg.
    assert (G : exists goalPeptides,
               obj_get goal peptideDatabase = Some goalPeptides /\
               goalPeptides <> [] /\ List.length goalPeptides <= 3).
    { cbn in Hg.
      repeat (destruct Hg as [<- | Hg];
              [eexists; split; [reflexivity | split; [discriminate | cbn; lia]] |]).
      destruct Hg. }
    destruct G as (goalPeptides & G & NE & Len).
    destruct (getSuggestions_selected age goal goalPeptides G NE Len)
      as (suggestions & R & SN & SL & _ & Some_ & None_).
    exists goalPeptides, suggestions. repeat split; assumption.
  - apply getSuggestions_unknown.
Qed.

Lemma getSuggestions_filters_by_age_witness :
  (exists suggestions,
     getSuggestions 22 "energy" = Return suggestions /\
     map (fun s => name (peptide s)) suggestions = ["Ipamorelin"]) /\
  getSuggestions 22 "weight" = Throw (Error "No peptides found for goal: weight") /\
  getSuggestions 22 "constructor" =
    Throw (TypeError "goalPeptides.filter is not a function").
Proof.
  destruct (getSuggestions_filters_by_age 22 "energy") as [Known _].
  destruct (getSuggestions_filters_by_age 22 "weight") as [_ Unknown].
  destruct (getSuggestions_filters_by_age 22 "constructor") as [_ Inherited_].
  split; [| split].
  - destruct Known as (goalPeptides & suggestions & G & R & _ & _ & Some_ & _).
    { cbn. tauto. }
    exists suggestions. split; [exact R |].
    vm_compute in G. injection G as <-.
    rewrite <- map_map, Some_.
    + reflexivity.
    + eexists. split; [right; left; reflexivity | reflexivity].
  - apply Unknown. cbn. intuition discriminate.
  - apply Inherited_. cbn. intuition discriminate.
Defined.

(* ================================================================== *)
(** * More of the service *)

(** ** What a call leaves of the world *)

Lemma updateDailyAnalytics_host date ev w :
  let w' := snd (updateDailyAnalytics date ev w) in
  disk w' = disk w /\ clockDay w' = clockDay w /\ clockMs w' = clockMs w /\
  zone w' = zone w /\ legacyDateParse w' = legacyDateParse w /\
  dailyCounters w' = dailyCounters w.
Proof.
  cbv zeta. rewrite updateDailyAnalytics_run.
  destruct (updatedLedger date ev w); [destruct (disk w) eqn:D |];
    cbn; repeat split; auto.
Qed.

Lemma updateDailyAnalytics_world date ev w :
  let w' := snd (updateDailyAnalytics date ev w) in
  diskWritable w' = diskWritable w /\ clockDay w' = clockDay w /\
  clockTime w' = clockTime w /\ dailyCounters w' = dailyCounters w.
Proof.
  cbv zeta.
  destruct (updateDailyAnalytics_host date ev w) as (D & C & M & _ & _ & K).
  unfold diskWritable, clockTime, msOfDay. rewrite D, C, M. repeat split; auto.
Qed.


Lemma logEvent_world ev w :
  let w' := snd (logEvent ev w) in
  diskWritable w' = diskWritable w /\ clockDay w' = clockDay w /\
  clockTime w' = clockTime w /\
  dailyCounters w' = countersAfter ev (dailyCounters w).
Proof.
  cbv zeta. rewrite logEvent_run.
  destruct (updateDailyAnalytics_world (toISODate (clockDay w)) ev
              (withCounters (countersAfter ev (dailyCounters w)) w))
    as (D & C & T & K).
  repeat split; assumption.
Qed.

(** The ledger on file after a call: the updated one when the event went
    through and the disk took the write, none when the write was cut off,
    the old one otherwise. *)
Lemma loadedLedger_after_update date ev w :
  loadedLedger (snd (updateDailyAnalytics date ev w)) =
  match updatedLedger date ev w with
  | Return analytics =>
      match disk w with
      | TakesWrites => analytics
      | RefusesOpen => loadedLedger w
      | OutOfSpace => []
      end
  | Throw _ => loadedLedger w
  end.
Proof.
  rewrite updateDailyAnalytics_run.
  destruct (updatedLedger date ev w); [destruct (disk w) |]; reflexivity.
Qed.

Lemma analyticsFile_after_update date ev w :
  analyticsFile (snd (updateDailyAnalytics date ev w)) =
  match updatedLedger date ev w with
  | Return analytics =>
      match disk w with
      | TakesWrites => FileHolds (LedgerText analytics)
      | RefusesOpen => analyticsFile w
      | OutOfSpace => FileHolds InvalidText
      end
  | Throw _ => analyticsFile w
  end.
Proof.
  rewrite updateDailyAnalytics_run.
  destruct (updatedLedger date ev w); [destruct (disk w) |]; reflexivity.
Qed.

Lemma disk_of_writable w : diskWritable w = true -> disk w = TakesWrites.
Proof. unfold diskWritable. destruct (disk w); [reflexivity | discriminate ..]. Qed.

Lemma obj_get_filter_key {V} (keep : string -> bool) k (o : obj V) :
  obj_get k (filter (fun entry => keep (fst entry)) o) =
  if keep k then obj_get k o else None.
Proof.
  induction o as [| [k' v] o IH]; cbn [filter obj_get fst].
  - destruct (keep k); reflexivity.
  - destruct (keep k') eqn:K'; cbn [obj_get].
    + destruct (String.eqb_spec k k') as [-> | N].
      * now rewrite K'.
      * exact IH.
    + destruct (String.eqb_spec k k') as [-> | N].
      * rewrite IH, K'. reflexivity.
      * exact IH.
Qed.

Lemma obj_get_pruneBefore cutoff k analytics :
  obj_get k (pruneBefore cutoff analytics) =
  if String.ltb k cutoff then None else obj_get k analytics.
Proof.
  rewrite pruneBefore_filter.
  rewrite (obj_get_filter_key (fun d => negb (String.ltb d cutoff))).
  destruct (String.ltb k cutoff); reflexivity.
Qed.

(** The record of [date] in the ledger an update writes. *)
Lemma updatedLedger_get date ev w analytics k :
  updatedLedger date ev w = Return analytics ->
  obj_get k analytics =
  if String.ltb k (toISODate (dayOfTime (daysAgo 90 w))) then None
  else if String.eqb k date
       then match applyEvent (timestampOf w) ev
                    (match obj_get date (loadedLedger w) with
                     | Some r => loadedDayData r
                     | None => newDayData date
                     end) with
            | Return dayData' => Some (arrayFromIPs dayData')
            | Throw _ => None
            end
       else obj_get k (loadedLedger w).
Proof.
  unfold updatedLedger. destruct (applyEvent _ ev _) as [dayData' |]; [| discriminate].
  destruct (validTime _); [| discriminate].
  intros [= <-]. rewrite obj_get_pruneBefore, obj_get_obj_set. reflexivity.
Qed.

(** ** Recording, further *)

(** X1.  Every call of [updateDailyAnalytics] keeps
    [totalRequests = successfulRequests + failedRequests] in every record on
    file, whatever the event and whether or not the write goes through. *)
Theorem update_keeps_records_balanced date ev w :
  (forall r, In r (obj_values (loadedLedger w)) -> balanced r) ->
  forall r,
    In r (obj_values (loadedLedger (snd (updateDailyAnalytics date ev w)))) ->
    balanced r.
Proof.
  intros H r. rewrite loadedLedger_after_update.
  destruct (updatedLedger date ev w) as [analytics |] eqn:U; [| apply H].
  destruct (disk w); [| apply H | intros []].
  now apply (updatedLedger_balanced date ev w analytics).
Qed.

Lemma update_keeps_records_balanced_witness :
  Forall balanced
    (obj_values (loadedLedger
       (snd (updateDailyAnalytics "2024-06-15" (goalSelection "sleep")
               twoDayWorld)))).
Proof.
  apply Forall_forall. apply update_keeps_records_balanced.
  intros r [<- | [<- | []]]; reflexivity.
Defined.

(** X2.  When today's date is on file, [logSuccessfulRequest] and
    [logFailedRequest] return normally, leave the file as it is and put the
    [TypeError] of [uniqueIPs.add] on the console; the in-memory request
    counter goes up all the same. *)
Theorem request_on_day_on_file_is_lost ev w r :
  obj_get (toISODate (clockDay w)) (loadedLedger w) = Some r ->
  (exists data, ev = successfulRequest data \/ ev = failedRequest data) ->
  fst (logEvent ev w) = Return tt /\
  analyticsFile (snd (logEvent ev w)) = analyticsFile w /\
  consoleErrors (snd (logEvent ev w)) =
    (consoleErrors w
     ++ [("Error updating daily analytics:",
          TypeError "dayData.uniqueIPs.add is not a function")])%list /\
  counter_requests (dailyCounters (snd (logEvent ev w))) =
    S (counter_requests (dailyCounters w)).
Proof.
  intros G E. rewrite logEvent_run.
  rewrite (request_on_stored_day_is_dropped (toISODate (clockDay w)) r ev
             (withCounters (countersAfter ev (dailyCounters w)) w) G E).
  destruct E as (data & [-> | ->]); repeat split.
Qed.

Lemma request_on_day_on_file_is_lost_witness :
  analyticsFile (snd (logEvent (failedRequest request_r1) twoDayWorld)) =
  analyticsFile twoDayWorld.
Proof.
  eapply (request_on_day_on_file_is_lost (failedRequest request_r1) twoDayWorld).
  - vm_compute. reflexivity.
  - exists request_r1. right. reflexivity.
Defined.

(** *** Goal selections *)

Lemma not_inherited k : inheritedName k = false -> obj_get k objectPrototype = None.
Proof.
  intros H. apply obj_get_None. intros Hin.
  assert (E : inheritedName k = true); [| congruence].
  apply existsb_exists. exists k. split; [exact Hin | apply String.eqb_refl].
Qed.

(** For a name that is not inherited, [obj_incr] counts. *)
Lemma tallyOrZero_obj_incr k goal o :
  inheritedName goal = false ->
  tallyOrZero k (obj_incr goal o) =
  tallyOrZero k o + (if String.eqb k goal then 1 else 0).
Proof.
  intros N. unfold tallyOrZero, obj_incr, obj_read.
  rewrite (not_inherited goal N).
  destruct (obj_get goal o) as [[n |] |] eqn:G; rewrite obj_get_obj_set;
    destruct (String.eqb_spec k goal) as [-> | Ne];
    try rewrite G; try lia; destruct (obj_get k o) as [[m |] |]; lia.
Qed.

(** A name of [Object.prototype] is not counted: the first selection of
    "constructor" leaves [NaN], which the file holds as [null], and the
    second one starts from there. *)
Example goal_selections_of_constructor :
  let w1 := snd (logGoalSelection "constructor" freshWorld) in
  let w2 := snd (logGoalSelection "constructor" w1) in
  loadedLedger w1 =
    [("2024-06-15",
      mkDay "2024-06-15" 0 0 0 [("constructor", NotANumber)] [] 0 [] None None)] /\
  loadedLedger w2 =
    [("2024-06-15",
      mkDay "2024-06-15" 0 0 0 [("constructor", Count 1)] [] 0 [] None None)].
Proof. vm_compute. split; reflexivity. Qed.

Lemma logGoalSelection_step goal w :
  diskWritable w = true -> clockInRange w ->
  let today := toISODate (clockDay w) in
  let w' := snd (logGoalSelection goal w) in
  analyticsFile w' = FileHolds (LedgerText (loadedLedger w')) /\
  obj_get today (loadedLedger w') =
    Some (withSelection goal (dayOrEmpty (loadedLedger w) today)) /\
  diskWritable w' = true /\ clockDay w' = clockDay w.
Proof.
  intros D R. cbv zeta.
  change (logGoalSelection goal) with (logEvent (goalSelection goal)).
  destruct (logEvent_world (goalSelection goal) w) as (D' & C' & _ & _).
  rewrite logEvent_run in *.
  pose proof (analyticsFile_after_update (toISODate (clockDay w)) (goalSelection goal)
                (withCounters (countersAfter (goalSelection goal) (dailyCounters w)) w))
    as F.
  rewrite updatedLedger_withCounters in F.
  change (disk (withCounters (countersAfter (goalSelection goal) (dailyCounters w)) w))
    with (disk w) in F.
  rewrite (disk_of_writable w D) in F.
  destruct (goalSelection_goes_through (toISODate (clockDay w)) goal w
              (cutoff_valid w (proj1 R))) as [analytics U].
  rewrite U in F.
  assert (L : loadedLedger
                (snd (updateDailyAnalytics (toISODate (clockDay w)) (goalSelection goal)
                   (withCounters (countersAfter (goalSelection goal) (dailyCounters w)) w)))
              = analytics) by (unfold loadedLedger; now rewrite F).
  rewrite L. split; [exact F |]. split; [| split; [congruence | exact C']].
  rewrite (updatedLedger_get _ _ _ _ (toISODate (clockDay w)) U).
  rewrite today_survives by assumption. rewrite String.eqb_refl.
  unfold dayOrEmpty.
  destruct (obj_get (toISODate (clockDay w)) (loadedLedger w)); reflexivity.
Qed.

Lemma repeatedly_S n call w :
  repeatedly (S n) call w = snd (call (repeatedly n call w)).
Proof. reflexivity. Qed.

(** X3.  Goal selections add up: after [n + 1] calls of [logGoalSelection]
    for one goal on one day, on a disk that takes the writes, the day query
    shows the tally of the goal [n + 1] higher than before and everything
    else of the day as it was.  The goal is any name but those that every
    object inherits from [Object.prototype]. *)
Theorem goal_selections_accumulate n goal w :
  inheritedName goal = false ->
  diskWritable w = true -> clockInRange w ->
  let today := toISODate (clockDay w) in
  let before := dayOrEmpty (loadedLedger w) today in
  let w' := repeatedly (S n) (logGoalSelection goal) w in
  exists r,
    getDailyAnalytics (Some today) None w' = (Return (DayAnalytics today r), w') /\
    tallyOrZero goal (goalSelections r) =
      tallyOrZero goal (goalSelections before) + S n /\
    (forall other, other <> goal ->
       tallyOrZero other (goalSelections r) =
       tallyOrZero other (goalSelections before)) /\
    totalRequests r = totalRequests before /\
    successfulRequests r = successfulRequests before /\
    failedRequests r = failedRequests before /\
    uniqueIPs r = uniqueIPs before /\
    errors r = errors before.
Proof.
  intros NI D R. cbv zeta.
  assert (I : forall m,
    let w' := repeatedly (S m) (logGoalSelection goal) w in
    analyticsFile w' = FileHolds (LedgerText (loadedLedger w')) /\
    diskWritable w' = true /\ clockDay w' = clockDay w /\
    let r := dayOrEmpty (loadedLedger w') (toISODate (clockDay w)) in
    let before := dayOrEmpty (loadedLedger w) (toISODate (clockDay w)) in
    (forall k, tallyOrZero k (goalSelections r) =
               tallyOrZero k (goalSelections before)
               + (if String.eqb k goal then S m else 0)) /\
    totalRequests r = totalRequests before /\
    successfulRequests r = successfulRequests before /\
    failedRequests r = failedRequests before /\
    uniqueIPs r = uniqueIPs before /\ errors r = errors before).
  { induction m as [| m IH]; cbv zeta.
    - rewrite repeatedly_S. change (repeatedly 0 (logGoalSelection goal) w) with w.
      destruct (logGoalSelection_step goal w D R) as (F & S1 & D1 & C1).
      assert (S1' : dayOrEmpty (loadedLedger (snd (logGoalSelection goal w)))
                      (toISODate (clockDay w)) =
                    withSelection goal
                      (dayOrEmpty (loadedLedger w) (toISODate (clockDay w))))
        by (unfold dayOrEmpty at 1; now rewrite S1).
      rewrite S1'. repeat split; try assumption.
      intros k. cbn [goalSelections withSelection].
      now apply tallyOrZero_obj_incr.
    - cbv zeta in IH. destruct IH as (F & D1 & C1 & G & T & Su & Fa & U & E).
      rewrite (repeatedly_S (S m)).
      set (wm := repeatedly (S m) (logGoalSelection goal) w) in *.
      assert (Rm : clockInRange wm) by (unfold clockInRange in *; now rewrite C1).
      destruct (logGoalSelection_step goal wm D1 Rm) as (F' & S' & D' & C').
      rewrite C1 in S'.
      assert (S'' : dayOrEmpty (loadedLedger (snd (logGoalSelection goal wm)))
                      (toISODate (clockDay w)) =
                    withSelection goal
                      (dayOrEmpty (loadedLedger wm) (toISODate (clockDay w))))
        by (unfold dayOrEmpty at 1; now rewrite S').
      rewrite S''.
      cbn [goalSelections withSelection totalRequests successfulRequests
           failedRequests uniqueIPs errors].
      repeat split; try assumption; try congruence.
      intros k. rewrite tallyOrZero_obj_incr, G by exact NI.
      destruct (String.eqb k goal); lia. }
  destruct (I n) as (F & D1 & C1 & G & T & Su & Fa & U & E).
  set (w' := repeatedly (S n) (logGoalSelection goal) w) in *.
  exists (dayOrEmpty (loadedLedger w') (toISODate (clockDay w))).
  split; [| split; [| split]].
  - unfold getDailyAnalytics, tryCatch, bind, readFile. rewrite F.
    cbn [JSON_parse ret].
    assert (N : toISODate (clockDay w) <> "").
    { intros E0. pose proof (parseISODate_toISODate (clockDay w) (proj2 R)) as P.
      rewrite E0 in P. discriminate. }
    rewrite (falsy_Some _ N). reflexivity.
  - rewrite G, String.eqb_refl. reflexivity.
  - intros other N. rewrite G.
    destruct (String.eqb_spec other goal); [contradiction | lia].
  - repeat split; assumption.
Qed.

Lemma goal_selections_accumulate_witness :
  exists r,
    getDailyAnalytics (Some "2024-06-15") None
      (repeatedly 3 (logGoalSelection "sleep") twoDayWorld) =
    (Return (DayAnalytics "2024-06-15" r),
     repeatedly 3 (logGoalSelection "sleep") twoDayWorld) /\
    tallyOrZero "sleep" (goalSelections r) = 3 /\ totalRequests r = 5.
Proof.
  destruct (goal_selections_accumulate 2 "sleep" twoDayWorld)
    as (r & Q & G & _ & T & _).
  - reflexivity.
  - reflexivity.
  - unfold clockInRange, fourDigitYear; cbn; lia.
  - change (toISODate (clockDay twoDayWorld)) with (toISODate 19889) in *.
    assert (E : toISODate 19889 = "2024-06-15") by (vm_compute; reflexivity).
    rewrite E in *. exists r. split; [exact Q |]. split.
    + rewrite G. reflexivity.
    + rewrite T. reflexivity.
Defined.

(** *** Other days, old days, new days *)

(** X4.  An update touches one date only: whatever the event, the record
    of every other date that is not before the cutoff is read back as it
    was, when the write goes through, when the file may not be opened, and
    when the event does not get to the write.  When the space runs out
    during the write, the file is left cut off and no record is read back
    from it. *)
Theorem update_leaves_other_days_alone date ev w k :
  k <> date ->
  String.ltb k (toISODate (dayOfTime (daysAgo 90 w))) = false ->
  let w' := snd (updateDailyAnalytics date ev w) in
  (disk w <> OutOfSpace ->
     obj_get k (loadedLedger w') = obj_get k (loadedLedger w)) /\
  (forall e, updatedLedger date ev w = Throw e ->
     obj_get k (loadedLedger w') = obj_get k (loadedLedger w)) /\
  (forall analytics,
     disk w = OutOfSpace -> updatedLedger date ev w = Return analytics ->
     analyticsFile w' = FileHolds InvalidText /\ loadedLedger w' = []).
Proof.
  intros N K. cbv zeta.
  rewrite loadedLedger_after_update, analyticsFile_after_update.
  split; [| split].
  - intros D. destruct (updatedLedger date ev w) as [analytics |] eqn:U;
      [| reflexivity].
    destruct (disk w); [| reflexivity | contradiction].
    rewrite (updatedLedger_get _ _ _ _ k U), K.
    destruct (String.eqb_spec k date); [contradiction | reflexivity].
  - intros e ->. reflexivity.
  - intros analytics -> ->. split; reflexivity.
Qed.

Lemma update_leaves_other_days_alone_witness :
  obj_get "2024-06-14"
    (loadedLedger (snd (updateDailyAnalytics "2024-06-15" (goalSelection "sleep")
                          twoDayWorld))) =
  obj_get "2024-06-14" (loadedLedger twoDayWorld).
Proof.
  destruct (update_leaves_other_days_alone "2024-06-15" (goalSelection "sleep")
              twoDayWorld "2024-06-14") as (Kept & _).
  - discriminate.
  - vm_compute. reflexivity.
  - apply Kept. discriminate.
Defined.

(** X5.  The prune removes the entries whose date is before the cutoff and
    nothing else: the other entries stay in their order with their records,
    a lookup finds what it found before, and pruning again changes
    nothing. *)
Theorem prune_is_a_stable_filter cutoff analytics :
  pruneBefore cutoff analytics =
    filter (fun entry => negb (String.ltb (fst entry) cutoff)) analytics /\
  (forall k, obj_get k (pruneBefore cutoff analytics) =
             if String.ltb k cutoff then None else obj_get k analytics) /\
  pruneBefore cutoff (pruneBefore cutoff analytics) = pruneBefore cutoff analytics.
Proof.
  split; [apply pruneBefore_filter |]. split; [intros k; apply obj_get_pruneBefore |].
  rewrite !pruneBefore_filter.
  induction analytics as [| [k v] analytics IH]; cbn [filter fst]; [reflexivity |].
  destruct (String.ltb k cutoff) eqn:K; cbn [negb filter fst]; [exact IH |].
  rewrite K. cbn [negb]. now rewrite IH.
Qed.

(** X6.  An event for a date more than 91 days back, or more than 90 in a
    zone without clock changes, is written and pruned in the same call: the
    ledger that goes to the file has no record of the date. *)
Theorem event_for_old_date_is_not_kept d ev w analytics :
  fourDigitYear d -> fourDigitYear (clockDay w - 91) -> fourDigitYear (clockDay w) ->
  (d < clockDay w - 91 \/ (fixedOffset (zone w) /\ d < clockDay w - 90))%Z ->
  diskWritable w = true ->
  updatedLedger (toISODate d) ev w = Return analytics ->
  analyticsFile (snd (updateDailyAnalytics (toISODate d) ev w)) =
    FileHolds (LedgerText analytics) /\
  obj_get (toISODate d) analytics = None.
Proof.
  intros Hd Hc Hc' Lt D U. split.
  - rewrite analyticsFile_after_update, U, (disk_of_writable w D). reflexivity.
  - rewrite (updatedLedger_get _ _ _ _ (toISODate d) U).
    pose proof (dayOfTime_daysAgo_bounds 90 w) as B.
    rewrite toISODate_ltb; [| exact Hd | unfold fourDigitYear in *; lia].
    replace (d <? dayOfTime (daysAgo 90 w))%Z with true; [reflexivity |].
    symmetry. apply Z.ltb_lt. destruct Lt as [Lt | [Fx Lt]]; [lia |].
    rewrite (dayOfTime_daysAgo_fixedOffset 90 w Fx). lia.
Qed.

(** After the clocks went back the cutoff is a day early: in Los Angeles on
    2024-11-10 at 00:30 UTC it is 2024-08-11, today-91, and an event for
    that date is written and kept. *)
Example event_for_day_91_kept_after_clock_change :
  toISODate (clockDay losAngelesNovemberWorld - 91) = "2024-08-11" /\
  toISODate (dayOfTime (daysAgo 90 losAngelesNovemberWorld)) = "2024-08-11" /\
  obj_keys (loadedLedger
    (snd (updateDailyAnalytics "2024-08-11" (goalSelection "sleep")
            losAngelesNovemberWorld))) = ["2024-08-11"].
Proof. vm_compute. repeat split. Qed.

Lemma event_for_old_date_is_not_kept_witness :
  analyticsFile (snd (updateDailyAnalytics (toISODate 19789) (goalSelection "sleep")
                        freshWorld)) =
  FileHolds (LedgerText []).
Proof.
  apply (event_for_old_date_is_not_kept 19789 (goalSelection "sleep") freshWorld []).
  - unfold fourDigitYear; lia.
  - unfold fourDigitYear; cbn; lia.
  - unfold fourDigitYear; cbn; lia.
  - left. cbn. lia.
  - reflexivity.
  - vm_compute. reflexivity.
Defined.

(** X7.  The in-memory counters count every call, written or not: each
    recording call keeps [requests = successfulRequests + errors], a request
    call raises [requests] by one and a goal selection raises the tally of
    its goal by one, for any goal but the names that every object inherits
    from [Object.prototype]. *)
Theorem counters_count_every_call ev w :
  let c := dailyCounters w in
  let c' := dailyCounters (snd (logEvent ev w)) in
  (countersBalanced c -> countersBalanced c') /\
  (forall data, ev = successfulRequest data \/ ev = failedRequest data ->
     counter_requests c' = S (counter_requests c)) /\
  (forall goal, ev = goalSelection goal ->
     counter_requests c' = counter_requests c /\
     (inheritedName goal = false ->
      tallyOrZero goal (counter_goalSelections c') =
      S (tallyOrZero goal (counter_goalSelections c)))).
Proof.
  cbv zeta. destruct (logEvent_world ev w) as (_ & _ & _ & K). rewrite K.
  unfold countersBalanced. split; [| split].
  - destruct ev; cbn; lia.
  - intros data [-> | ->]; reflexivity.
  - intros goal ->. cbn [countersAfter counter_requests counter_goalSelections].
    split; [reflexivity |]. intros NI.
    rewrite tallyOrZero_obj_incr, String.eqb_refl by exact NI. lia.
Qed.

Lemma counters_count_every_call_witness :
  countersBalanced
    (dailyCounters (snd (logEvent (failedRequest request_r1) fullDiskWorld))) /\
  tallyOrZero "sleep"
    (counter_goalSelections
       (dailyCounters (snd (logEvent (goalSelection "sleep") fullDiskWorld)))) = 1.
Proof.
  destruct (counters_count_every_call (failedRequest request_r1) fullDiskWorld)
    as (B & _ & _).
  destruct (counters_count_every_call (goalSelection "sleep") fullDiskWorld)
    as (_ & _ & G).
  split; [apply B; reflexivity |].
  destruct (G "sleep" eq_refl) as [_ T]. now rewrite T.
Defined.

(** X8.  The first request of a day is recorded in full: with today's date
    not on file, [logSuccessfulRequest] and [logFailedRequest] write a
    record with one request, the caller's [ip] or else 'unknown' as its
    only caller, and the time of the call as first and last request; the
    failed one also has the error entry. *)
Theorem first_request_of_a_day data w :
  obj_get (toISODate (clockDay w)) (loadedLedger w) = None ->
  diskWritable w = true -> clockInRange w ->
  let today := toISODate (clockDay w) in
  let now := timestampOf w in
  obj_get today (loadedLedger (snd (logSuccessfulRequest data w))) =
    Some (mkDay today 1 1 0 [] [] 0 [ipOrUnknown data] (Some now) (Some now)) /\
  obj_get today (loadedLedger (snd (logFailedRequest data w))) =
    Some (mkDay today 1 0 1 []
            [mkErrorEntry (error data) now (requestId data)] 0
            [ipOrUnknown data] (Some now) (Some now)).
Proof.
  intros G D R. cbv zeta.
  assert (S : forall ev r,
    applyEvent (timestampOf w) ev (newDayData (toISODate (clockDay w))) = Return r ->
    obj_get (toISODate (clockDay w)) (loadedLedger (snd (logEvent ev w))) =
    Some (arrayFromIPs r)).
  { intros ev r A. rewrite logEvent_run, loadedLedger_after_update.
    rewrite updatedLedger_withCounters.
    change (disk (withCounters (countersAfter ev (dailyCounters w)) w)) with (disk w).
    rewrite (disk_of_writable w D).
    destruct (updatedLedger (toISODate (clockDay w)) ev w) as [analytics |] eqn:U.
    - rewrite (updatedLedger_get _ _ _ _ (toISODate (clockDay w)) U).
      rewrite today_survives by assumption.
      rewrite String.eqb_refl, G, A. reflexivity.
    - unfold updatedLedger in U.
      rewrite G, A, (cutoff_valid w (proj1 R)) in U. discriminate. }
  split.
  - change (logSuccessfulRequest data) with (logEvent (successfulRequest data)).
    rewrite (S (successfulRequest data) _ eq_refl). reflexivity.
  - change (logFailedRequest data) with (logEvent (failedRequest data)).
    rewrite (S (failedRequest data) _ eq_refl). reflexivity.
Qed.

Lemma first_request_of_a_day_witness :
  obj_get "2024-06-15"
    (loadedLedger (snd (logSuccessfulRequest (mkRequest (Some "r9") None None)
                          freshWorld))) =
  Some (mkDay "2024-06-15" 1 1 0 [] [] 0 ["unknown"]
          (Some "2024-06-15T10:00:00.000Z") (Some "2024-06-15T10:00:00.000Z")).
Proof.
  destruct (first_request_of_a_day (mkRequest (Some "r9") None None) freshWorld)
    as [S _].
  - reflexivity.
  - reflexivity.
  - unfold clockInRange, fourDigitYear; cbn; lia.
  - assert (E : toISODate (clockDay freshWorld) = "2024-06-15")
      by (vm_compute; reflexivity).
    assert (T : timestampOf freshWorld = "2024-06-15T10:00:00.000Z")
      by (vm_compute; reflexivity).
    rewrite E, T in S. exact S.
Defined.

(** ** Queries, further *)

Lemma getDailyAnalytics_cases startDate endDate w :
  (exists analytics,
     analyticsFile w = FileHolds (LedgerText analytics) /\
     exists result,
       getDailyAnalytics startDate endDate w = (Return result, w) /\
       (result = TodayAnalytics (toISODate (clockDay w))
                   (dayOrEmpty analytics (toISODate (clockDay w))) (dailyCounters w) \/
        result = DayAnalytics (textOf startDate)
                   (dayOrEmpty analytics (textOf startDate)) \/
        result = RangeAnalytics
                   (getRange w analytics (textOf startDate) (textOf endDate)))) \/
  (exists e,
     (analyticsFile w = FileMissing \/ analyticsFile w = FileHolds InvalidText) /\
     getDailyAnalytics startDate endDate w =
     (Return (AnalyticsError "Failed to read analytics data"),
      withConsoleError "Error reading analytics:" e w)).
Proof.
  unfold getDailyAnalytics, tryCatch, bind, readFile.
  destruct (analyticsFile w) as [| [| analytics]] eqn:F.
  - right. eexists. split; [now left | reflexivity].
  - right. eexists. split; [now right | reflexivity].
  - left. exists analytics. split; [reflexivity |].
    cbn [JSON_parse ret].
    destruct (falsy startDate); [eexists; split; [reflexivity | tauto] |].
    destruct (falsy endDate); eexists; (split; [reflexivity | tauto]).
Qed.

(** X9.  The queries only read: for every argument [getDailyAnalytics] and
    [getSummaryAnalytics] return without rejecting and leave the ledger
    file and the in-memory counters as they were. *)
Theorem queries_only_read startDate endDate days w :
  (exists result w',
     getDailyAnalytics startDate endDate w = (Return result, w') /\
     analyticsFile w' = analyticsFile w /\ dailyCounters w' = dailyCounters w) /\
  (exists result w',
     getSummaryAnalytics days w = (Return result, w') /\
     analyticsFile w' = analyticsFile w /\ dailyCounters w' = dailyCounters w).
Proof.
  assert (Q : forall s e,
            exists result w',
              getDailyAnalytics s e w = (Return result, w') /\
              analyticsFile w' = analyticsFile w /\ dailyCounters w' = dailyCounters w).
  { intros s e.
    destruct (getDailyAnalytics_cases s e w)
      as [(analytics & F & result & G & _) | (x & F & G)];
      eexists; eexists; (split; [exact G |]); split; reflexivity. }
  split; [apply Q |].
  destruct (validTime (daysAgo days w)) eqn:V.
  - destruct (Q (Some (toISODate (dayOfTime (daysAgo days w))))
                (Some (toISODate (clockDay w))))
      as (rangeData & w' & G & F & C).
    eexists. exists w'. split; [apply (getSummaryAnalytics_run _ _ _ _ V G) |].
    split; assumption.
  - rewrite (getSummaryAnalytics_invalid days w V).
    eexists. eexists. split; [reflexivity |]. split; reflexivity.
Qed.

(** X10.  [GET /analytics] always answers with status 200: with today's
    record (or the empty one) and the in-memory counters when the ledger
    file can be read, and with the error object of the service when it
    cannot; the handler's own 500 answer is never sent. *)
Theorem analytics_endpoint_answers_200 w :
  exists content w',
    getAnalytics w = (Return (mkResponse 200 (AnalyticsBody content)), w') /\
    (forall analytics,
       analyticsFile w = FileHolds (LedgerText analytics) ->
       content = TodayAnalytics (toISODate (clockDay w))
                   (dayOrEmpty analytics (toISODate (clockDay w)))
                   (dailyCounters w)) /\
    (analyticsFile w = FileMissing \/ analyticsFile w = FileHolds InvalidText ->
       content = AnalyticsError "Failed to read analytics data").
Proof.
  unfold getAnalytics, getDailyAnalytics, tryCatch, bind, readFile.
  destruct (analyticsFile w) as [| [| analytics]] eqn:F;
    eexists; eexists; (split; [reflexivity |]); split;
    try (intros a [= <-]); try discriminate; try reflexivity;
    try (intros [H | H]; discriminate).
Qed.

Lemma analytics_endpoint_answers_200_witness :
  exists w',
    getAnalytics freshWorld =
    (Return (mkResponse 200
               (AnalyticsBody (AnalyticsError "Failed to read analytics data"))), w').
Proof.
  destruct (analytics_endpoint_answers_200 freshWorld)
    as (content & w' & R & _ & Missing).
  exists w'. rewrite R, Missing; [reflexivity | left; reflexivity].
Defined.

(** X11.  Without a ledger file that can be read, the summary is still
    returned: all totals zero, rate "0", no goals, and the error object of
    the range query as its daily data.  Its start date is the UTC date of
    the time [days] local days ago: today-[days] without clock changes. *)
Theorem summary_without_ledger days w :
  analyticsFile w = FileMissing \/ analyticsFile w = FileHolds InvalidText ->
  fourDigitYear (clockDay w - days) -> fourDigitYear (clockDay w) ->
  fst (getSummaryAnalytics days w) =
  Return (SummaryOf
    (mkReport (NilZero.string_of_int (Z.to_int days) ++ " days")
       (toISODate (dayOfTime (daysAgo days w))) (toISODate (clockDay w))
       (mkSummary 0 0 0 "0" 0 [])
       (AnalyticsError "Failed to read analytics data"))) /\
  (fixedOffset (zone w) -> dayOfTime (daysAgo days w) = (clockDay w - days)%Z).
Proof.
  intros F Ws _. split; [| apply dayOfTime_daysAgo_fixedOffset].
  destruct (getDailyAnalytics_cases (Some (toISODate (dayOfTime (daysAgo days w))))
              (Some (toISODate (clockDay w))) w)
    as [(analytics & F' & _) | (e & _ & G)].
  - destruct F as [F | F]; rewrite F in F'; discriminate.
  - rewrite (getSummaryAnalytics_run _ _ _ _ (start_valid _ _ Ws) G). reflexivity.
Qed.

Lemma summary_without_ledger_witness :
  fst (getSummaryAnalytics 7 freshWorld) =
  Return (SummaryOf
    (mkReport "7 days" "2024-06-08" "2024-06-15" (mkSummary 0 0 0 "0" 0 [])
       (AnalyticsError "Failed to read analytics data"))).
Proof.
  destruct (summary_without_ledger 7 freshWorld) as [S _];
    [left; reflexivity | unfold fourDigitYear; cbn; lia .. |].
  rewrite S. vm_compute. reflexivity.
Defined.

(** *** The ranking of the goals *)

Lemma In_insertByCount entry sorted x :
  In x (insertByCount entry sorted) <-> x = entry \/ In x sorted.
Proof.
  induction sorted as [| first rest IH]; cbn [insertByCount In].
  - intuition.
  - destruct (Nat.ltb (snd entry) (snd first)); cbn [In].
    + rewrite IH. intuition.
    + intuition.
Qed.

Lemma descending_insertByCount entry sorted :
  descending (map snd sorted) -> descending (map snd (insertByCount entry sorted)).
Proof.
  induction sorted as [| first rest IH]; cbn [insertByCount map descending].
  - intros _. split; [intros c' [] | exact I].
  - intros [Hfirst Hrest].
    destruct (Nat.ltb_spec (snd entry) (snd first)) as [Lt | Ge];
      cbn [map descending].
    + split; [| now apply IH].
      intros c' Hc. apply in_map_iff in Hc. destruct Hc as (x & <- & Hx).
      apply In_insertByCount in Hx. destruct Hx as [-> | Hx]; [lia |].
      apply Hfirst. now apply in_map.
    + split; [| now split].
      intros c' [<- | Hc]; [assumption |].
      apply Hfirst in Hc. lia.
Qed.

Lemma descending_sortByCount entries : descending (map snd (sortByCount entries)).
Proof.
  induction entries as [| entry entries IH]; cbn [sortByCount fold_right];
    [exact I |].
  now apply descending_insertByCount.
Qed.

Lemma NoDup_keys_insertByCount entry sorted :
  ~ In (fst entry) (obj_keys sorted) -> NoDup (obj_keys sorted) ->
  NoDup (obj_keys (insertByCount entry sorted)).
Proof.
  unfold obj_keys.
  induction sorted as [| first rest IH]; cbn [insertByCount map]; intros N D.
  - constructor; [intros [] | constructor].
  - destruct (Nat.ltb (snd entry) (snd first)); cbn [map].
    + inversion D as [| ? ? Hf Hr]; subst. constructor.
      * intros Hin. apply in_map_iff in Hin. destruct Hin as (x & E & Hx).
        apply In_insertByCount in Hx. destruct Hx as [-> | Hx].
        -- apply N. left. symmetry. exact E.
        -- apply Hf. rewrite <- E. now apply in_map.
      * apply IH; [| assumption]. intros Hin. apply N. now right.
    + constructor; assumption.
Qed.

Lemma NoDup_keys_sortByCount entries :
  NoDup (obj_keys entries) -> NoDup (obj_keys (sortByCount entries)).
Proof.
  induction entries as [| entry entries IH]; cbn [sortByCount fold_right];
    [intros _; constructor |].
  intros D. cbn in D. inversion D as [| ? ? Hk Hr]; subst.
  fold (sortByCount entries). apply NoDup_keys_insertByCount.
  - now rewrite In_keys_sortByCount.
  - now apply IH.
Qed.

(** The names under which the [forEach] has put tallies, in the order it
    met them. *)
Lemma keys_addGoals entries : forall goals,
  obj_keys (fold_left addGoal entries goals) =
  fold_left set_add (obj_keys entries) (obj_keys goals).
Proof.
  induction entries as [| entry entries IH]; intros goals; [reflexivity |].
  change (obj_keys (entry :: entries)) with (fst entry :: obj_keys entries).
  cbn [fold_left]. rewrite IH. unfold addGoal. now rewrite keys_obj_set.
Qed.

Lemma keys_addDays records : forall acc,
  obj_keys (allGoalSelections (fold_left addDay records acc)) =
  fold_left set_add (goalNames (filter counted records))
            (obj_keys (allGoalSelections acc)).
Proof.
  induction records as [| r records IH]; intros acc; cbn [fold_left filter];
    [reflexivity |].
  rewrite IH. destruct (counted r) eqn:C.
  - rewrite (addDay_counted acc r C). cbn [allGoalSelections goalNames flat_map].
    fold (goalNames (filter counted records)).
    now rewrite keys_addGoals, fold_left_app.
  - now rewrite (addDay_skipped acc r C).
Qed.

Lemma set_adds_extends names : forall acc,
  exists more, fold_left set_add names acc = (acc ++ more)%list.
Proof.
  induction names as [| x names IH]; intros acc; cbn [fold_left].
  - exists []. now rewrite app_nil_r.
  - destruct (IH (set_add acc x)) as [more E]. rewrite E. unfold set_add.
    destruct (existsb (String.eqb x) acc).
    + now exists more.
    + exists (x :: more). now rewrite <- app_assoc.
Qed.

Lemma precedes_middle x y before rest :
  In y rest -> precedes x y (before ++ x :: rest).
Proof.
  intros H. induction before as [| a before IH]; cbn [app precedes].
  - left. now split.
  - right. exact IH.
Qed.

Lemma precedes_insert x y a before rest :
  precedes x y (before ++ rest) -> precedes x y (before ++ a :: rest).
Proof.
  induction before as [| b before IH]; cbn [app precedes].
  - intros H. now right.
  - intros [[-> H] | H].
    + left. split; [reflexivity |]. apply in_app_iff in H. apply in_app_iff.
      destruct H; [now left | right; now right].
    + right. now apply IH.
Qed.

Lemma precedes_In x y l : precedes x y l -> In x l /\ In y l.
Proof.
  induction l as [| a l IH]; cbn [precedes]; [tauto |].
  intros [[-> H] | H].
  - split; [now left | now right].
  - destruct (IH H). split; now right.
Qed.

(** A goal met before another one has its tally before the other's. *)
Lemma precedes_set_adds g g' names acc :
  g <> g' -> ~ In g' acc -> seenBefore g g' names -> In g' names ->
  precedes g g' (fold_left set_add names acc).
Proof.
  intros N Hacc (before & rest & -> & Hb) Hin.
  rewrite fold_left_app. cbn [fold_left].
  set (acc1 := fold_left set_add before acc).
  assert (H1 : ~ In g' acc1).
  { unfold acc1. rewrite In_set_adds. tauto. }
  assert (Hg : In g (set_add acc1 g)) by (apply In_set_add; now right).
  assert (H2 : ~ In g' (set_add acc1 g)).
  { rewrite In_set_add. intros [H | H]; [tauto | congruence]. }
  destruct (in_split _ _ Hg) as (p & q & E).
  destruct (set_adds_extends rest (set_add acc1 g)) as [more M].
  assert (Hf : In g' (fold_left set_add rest (set_add acc1 g))).
  { apply In_set_adds. right. apply in_app_iff in Hin.
    destruct Hin as [H | [H | H]]; [tauto | congruence | exact H]. }
  rewrite M in *. rewrite E in *. rewrite <- app_assoc. cbn [app].
  apply precedes_middle. apply in_app_iff in Hf. apply in_app_iff.
  destruct Hf as [Hf | Hf]; [| now right].
  exfalso. apply H2. exact Hf.
Qed.

(** Where [insertByCount] puts an entry: behind the entries with a larger
    count. *)
Lemma insertByCount_split entry sorted :
  exists larger rest,
    sorted = (larger ++ rest)%list /\
    insertByCount entry sorted = (larger ++ entry :: rest)%list /\
    forall x, In x larger -> snd entry < snd x.
Proof.
  induction sorted as [| first sorted IH]; cbn [insertByCount].
  - exists [], []. repeat split. intros x [].
  - destruct (Nat.ltb_spec (snd entry) (snd first)) as [Lt | Ge].
    + destruct IH as (larger & rest & -> & E & L).
      exists (first :: larger), rest. cbn [app]. rewrite E. repeat split.
      intros x [<- | Hx]; [exact Lt | now apply L].
    + exists [], (first :: sorted). repeat split. intros x [].
Qed.

Lemma In_obj_get {V} k (v : V) o :
  NoDup (obj_keys o) -> In (k, v) o -> obj_get k o = Some v.
Proof.
  induction o as [| [k' v'] o IH]; cbn; [tauto |].
  intros D [E | H].
  - injection E as -> ->. now rewrite String.eqb_refl.
  - inversion D as [| ? ? Hk Ho]; subst.
    destruct (String.eqb_spec k k') as [-> | _].
    + exfalso. apply Hk. apply in_map_iff. now exists (k', v).
    + now apply IH.
Qed.

(** The sort is stable: of two goals with the same count, the one whose
    tally came first stays first. *)
Lemma sortByCount_stable entries :
  NoDup (obj_keys entries) ->
  forall x y,
    precedes x y (obj_keys entries) ->
    getOrZero x entries = getOrZero y entries ->
    precedes x y (obj_keys (sortByCount entries)).
Proof.
  induction entries as [| [k0 n0] entries IH]; intros D x y P E; [destruct P |].
  cbn in D. inversion D as [| ? ? Hk Hrest]; subst.
  cbn [sortByCount fold_right]. fold (sortByCount entries).
  destruct (insertByCount_split (k0, n0) (sortByCount entries))
    as (larger & rest & S & I & L).
  rewrite I. unfold obj_keys. rewrite map_app. cbn [map fst].
  assert (DS : NoDup (obj_keys (sortByCount entries)))
    by now apply NoDup_keys_sortByCount.
  cbn [obj_keys map fst precedes] in P. destruct P as [[<- Hy] | P].
  - apply precedes_middle.
    assert (Ny : y <> k0) by (intros ->; contradiction).
    assert (Ey : getOrZero y (sortByCount entries) = n0).
    { rewrite getOrZero_sortByCount by assumption.
      unfold getOrZero in E. cbn [obj_get] in E.
      rewrite String.eqb_refl in E.
      destruct (String.eqb_spec y k0); [contradiction |]. symmetry. exact E. }
    assert (Hs : In y (obj_keys (sortByCount entries)))
      by now apply In_keys_sortByCount.
    rewrite S in Hs. unfold obj_keys in Hs. rewrite map_app in Hs.
    apply in_app_iff in Hs. destruct Hs as [Hs | Hs]; [| exact Hs].
    exfalso. apply in_map_iff in Hs. destruct Hs as ([y' m] & Ey' & Hin).
    cbn in Ey'. subst y'.
    assert (G : obj_get y (sortByCount entries) = Some m).
    { apply In_obj_get; [exact DS |]. rewrite S. apply in_app_iff. now left. }
    unfold getOrZero in Ey. rewrite G in Ey.
    specialize (L _ Hin). cbn [snd] in L. lia.
  - apply precedes_insert. rewrite <- map_app, <- S.
    destruct (precedes_In _ _ _ P) as [Hx Hy].
    apply IH; [exact Hrest | exact P |].
    unfold getOrZero in *. cbn [obj_get] in E.
    destruct (String.eqb_spec x k0) as [-> | _]; [contradiction |].
    destruct (String.eqb_spec y k0) as [-> | _]; [contradiction |].
    exact E.
Qed.

(** X12.  The goals of a summary are ranked.  Over a ledger file that can
    be read, in a zone without clock changes and with goals that are neither
    names inherited from [Object.prototype] nor written in digits only,
    [popularGoals] names each goal of the days with requests once, goes from
    the largest count down, and keeps goals with the same count in the order
    in which the days of the range have them. *)
Theorem popular_goals_are_ranked days w analytics :
  analyticsFile w = FileHolds (LedgerText analytics) ->
  fixedOffset (zone w) ->
  fourDigitYear (clockDay w - days) -> fourDigitYear (clockDay w) ->
  let names :=
    goalNames (filter counted
                 (recordsFromTo analytics (clockDay w - days) (clockDay w))) in
  (forall g, In g names -> inheritedName g = false /\ digitsOnly g = false) ->
  exists report,
    getSummaryAnalytics days w = (Return (SummaryOf report), w) /\
    descending (map count (popularGoals (summary report))) /\
    NoDup (map goal (popularGoals (summary report))) /\
    (forall g, In g (map goal (popularGoals (summary report))) <-> In g names) /\
    (forall g g',
       g <> g' -> In g' names -> seenBefore g g' names ->
       goalCount g (popularGoals (summary report)) =
       goalCount g' (popularGoals (summary report)) ->
       precedes g g' (map goal (popularGoals (summary report)))).
Proof.
  intros F Fx Ws We names _.
  assert (G : getDailyAnalytics (Some (toISODate (dayOfTime (daysAgo days w))))
                (Some (toISODate (clockDay w))) w =
              (Return (RangeAnalytics
                 (map (rangeEntry analytics)
                      (daysFromTo (clockDay w - days) (clockDay w)))), w)).
  { rewrite (dayOfTime_daysAgo_fixedOffset days w Fx).
    apply getDailyAnalytics_range; [assumption | assumption | |];
      now apply parseISODate_toISODate. }
  eexists.
  split; [apply (getSummaryAnalytics_run _ _ _ _ (start_valid _ _ Ws) G) |].
  cbn [summary summaryOf popularGoals dayValues].
  assert (V : obj_values (map (rangeEntry analytics)
                (daysFromTo (clockDay w - days) (clockDay w))) =
              recordsFromTo analytics (clockDay w - days) (clockDay w)).
  { unfold obj_values, recordsFromTo. rewrite map_map. reflexivity. }
  rewrite V.
  set (records := recordsFromTo analytics (clockDay w - days) (clockDay w)) in *.
  set (totals := fold_left addDay records noTotals).
  assert (K : obj_keys (allGoalSelections totals) = fold_left set_add names []).
  { unfold totals. now rewrite keys_addDays. }
  assert (D : NoDup (obj_keys (allGoalSelections totals))).
  { rewrite K. apply NoDup_set_adds. constructor. }
  assert (M : map goal (sortedGoals totals) =
              obj_keys (sortByCount (allGoalSelections totals))).
  { unfold sortedGoals, obj_keys. rewrite map_map. reflexivity. }
  rewrite M. split; [| split; [| split]].
  - unfold sortedGoals. rewrite map_map. cbn [count].
    apply descending_sortByCount.
  - now apply NoDup_keys_sortByCount.
  - intros g. rewrite In_keys_sortByCount, K, In_set_adds. cbn. tauto.
  - intros g g' N Hin Seen E.
    rewrite !goalCount_sortedGoals in E by exact D.
    apply sortByCount_stable; [exact D | | exact E].
    rewrite K. apply precedes_set_adds; auto.
Qed.

Lemma popular_goals_are_ranked_witness :
  exists report,
    getSummaryAnalytics 2 threeGoalWorld = (Return (SummaryOf report), threeGoalWorld) /\
    precedes "sleep" "energy" (map goal (popularGoals (summary report))) /\
    map (fun share => (goal share, count share)) (popularGoals (summary report)) =
      [("focus", 3); ("sleep", 2); ("energy", 2)].
Proof.
  assert (F : analyticsFile threeGoalWorld =
              FileHolds (LedgerText (loadedLedger threeGoalWorld))) by reflexivity.
  assert (N : goalNames (filter counted
                (recordsFromTo (loadedLedger threeGoalWorld)
                   (clockDay threeGoalWorld - 2) (clockDay threeGoalWorld))) =
              ["sleep"; "focus"; "energy"; "focus"]) by (vm_compute; reflexivity).
  destruct (popular_goals_are_ranked 2 threeGoalWorld _ F fixedOffset_utc)
    as (report & R & _ & _ & _ & Ties).
  - unfold fourDigitYear; cbn; lia.
  - unfold fourDigitYear; cbn; lia.
  - rewrite N. intros g Hg. cbn in Hg.
    repeat (destruct Hg as [<- | Hg]; [split; reflexivity |]). destruct Hg.
  - exists report. split; [exact R |]. rewrite N in Ties. split.
    + apply Ties.
      * discriminate.
      * cbn. tauto.
      * exists [], ["focus"; "energy"; "focus"]. split; [reflexivity | intros []].
      * vm_compute in R. injection R as <-. reflexivity.
    + vm_compute in R. injection R as <-. reflexivity.
Defined.

(** *** Totals of the summary *)

Lemma dayOrEmpty_balanced (analytics : Ledger) d :
  (forall r, In r (obj_values analytics) -> balanced r) ->
  balanced (dayOrEmpty analytics d).
Proof.
  intros H. unfold dayOrEmpty. destruct (obj_get d analytics) as [r |] eqn:G.
  - apply H. exact (obj_get_In d r analytics G).
  - reflexivity.
Qed.

Lemma rangeLoop_balanced z (analytics : Ledger) stop fuel : forall d result,
  (forall r, In r (obj_values analytics) -> balanced r) ->
  (forall r, In r (obj_values result) -> balanced r) ->
  forall r, In r (obj_values (rangeLoop fuel z analytics d stop result)) -> balanced r.
Proof.
  induction fuel as [| fuel IH]; intros d result HA HR; cbn [rangeLoop];
    [exact HR |].
  destruct (d <=? stop)%Z; [| exact HR].
  apply IH; [exact HA |].
  intros r Hr. apply in_map_iff in Hr. destruct Hr as (e & <- & He).
  apply In_obj_set in He. destruct He as [He | ->].
  - apply HR. apply in_map_iff. now exists e.
  - now apply dayOrEmpty_balanced.
Qed.

Lemma balanced_sums records :
  (forall r : StoredDay, In r records -> balanced r) ->
  list_sum (map totalRequests records) =
  list_sum (map successfulRequests (filter counted records))
  + list_sum (map failedRequests (filter counted records)).
Proof.
  induction records as [| r records IH]; intros H; [reflexivity |].
  cbn [map filter]. unfold list_sum in *. cbn [fold_right].
  rewrite IH by (intros x Hx; apply H; now right).
  assert (B : balanced r) by (apply H; now left). unfold balanced in B.
  destruct (counted r) eqn:C; cbn [map fold_right].
  - lia.
  - unfold counted in C. apply negb_false_iff, Nat.eqb_eq in C. lia.
Qed.

(** X13.  Over a ledger whose records have
    [totalRequests = successfulRequests + failedRequests], the totals of
    every summary add up the same way. *)
Theorem summary_totals_add_up days w :
  (forall r, In r (obj_values (loadedLedger w)) -> balanced r) ->
  fourDigitYear (clockDay w - days) -> fourDigitYear (clockDay w) ->
  exists report w',
    getSummaryAnalytics days w = (Return (SummaryOf report), w') /\
    summary_totalRequests (summary report) =
    summary_successfulRequests (summary report)
    + summary_failedRequests (summary report).
Proof.
  intros H Ws _. pose proof (start_valid _ _ Ws) as V.
  destruct (getDailyAnalytics_cases (Some (toISODate (dayOfTime (daysAgo days w))))
              (Some (toISODate (clockDay w))) w)
    as [(analytics & F & rangeData & G & Shape) | (e & _ & G)].
  - eexists. exists w. split; [apply (getSummaryAnalytics_run _ _ _ _ V G) |].
    cbn [summary summaryOf summary_totalRequests summary_successfulRequests
         summary_failedRequests].
    destruct (addDays_spec (dayValues rangeData) noTotals) as (T & S & Fl & _).
    rewrite T, S, Fl. cbn [noTotals totalRequestsSum totalSuccessful totalFailed].
    cbn [Nat.add]. apply balanced_sums.
    assert (HA : forall r, In r (obj_values analytics) -> balanced r).
    { intros r Hr. apply H. unfold loadedLedger. now rewrite F. }
    destruct Shape as [-> | [-> | ->]]; cbn [dayValues].
    + intros r [<- | []]. now apply dayOrEmpty_balanced.
    + intros r [<- | []]. now apply dayOrEmpty_balanced.
    + unfold getRange.
      destruct (dateParse _ w) as [start |]; [| intros r []].
      destruct (dateParse _ w) as [stop |]; [| intros r []].
      apply rangeLoop_balanced; [exact HA | intros r []].
  - eexists. eexists. split; [apply (getSummaryAnalytics_run _ _ _ _ V G) |].
    reflexivity.
Qed.

Lemma summary_totals_add_up_witness :
  exists report w',
    getSummaryAnalytics 2 twoDayWorld = (Return (SummaryOf report), w') /\
    summary_totalRequests (summary report) =
    summary_successfulRequests (summary report)
    + summary_failedRequests (summary report).
Proof.
  apply summary_totals_add_up; [| unfold fourDigitYear; cbn; lia ..].
  intros r [<- | [<- | []]]; reflexivity.
Defined.

(** ** Suggestions, further *)

Lemma catalog_lookup goal entries :
  obj_get goal peptideDatabase = Some entries ->
  In goal catalogGoals /\ In (goal, entries) peptideDatabase.
Proof.
  intros G. destruct (in_dec string_dec goal catalogGoals) as [Hin | Hout].
  - split; [exact Hin |]. cbn in Hin.
    repeat (destruct Hin as [<- | Hin];
            [vm_compute in G; injection G as <-; cbn; tauto |]).
    destruct Hin.
  - rewrite (obj_get_None goal peptideDatabase Hout) in G. discriminate.
Qed.




Lemma offered_goals_served_or_not age goal :
  (In goal catalogGoals -> exists suggestions, getSuggestions age goal = Return suggestions) /\
  (~ In goal catalogGoals -> exists e, getSuggestions age goal = Throw e).
Proof.
  split.
  - intros Hin.
    assert (G : exists goalPeptides,
               obj_get goal peptideDatabase = Some goalPeptides /\
               goalPeptides <> [] /\ List.length goalPeptides <= 3).
    { cbn in Hin.
      repeat (destruct Hin as [<- | Hin];
              [eexists; split; [reflexivity | split; [discriminate | cbn; lia]] |]).
      destruct Hin. }
    destruct G as (goalPeptides & G & NE & Len).
    destruct (getSuggestions_selected age goal goalPeptides G NE Len)
      as (suggestions & R & _).
    now exists suggestions.
  - intros Hout. unfold getSuggestions, obj_read.
    rewrite (obj_get_None goal peptideDatabase Hout).
    destruct (obj_get goal objectPrototype) as [[[| n] |] |];
      eexists; reflexivity.
Qed.

(** X15.  The goals that [getAvailableGoals] offers are the goals that
    [getSuggestions] serves: for every age it returns suggestions for each
    of them and throws for every other goal. *)
Theorem offered_goals_are_served age goal :
  In goal (map value getAvailableGoals) <->
  exists suggestions, getSuggestions age goal = Return suggestions.
Proof.
  change (map value getAvailableGoals) with catalogGoals.
  destruct (offered_goals_served_or_not age goal) as [Known Unknown]. split.
  - exact Known.
  - intros (suggestions & R).
    destruct (in_dec string_dec goal catalogGoals) as [Hin | Hout]; [exact Hin |].
    destruct (Unknown Hout) as [e T]. congruence.
Qed.

Lemma offered_goals_are_served_witness :
  exists suggestions, getSuggestions 40 "recovery" = Return suggestions.
Proof.
  apply (proj1 (offered_goals_are_served 40 "recovery")). cbn. tauto.
Defined.

(** X16.  For an age that no range of the catalog holds, below 18 or above
    85, the fallback answers: [getSuggestions] returns all entries of the
    goal, none of which suits the age. *)
Theorem age_outside_every_range_gets_all age goal entries :
  obj_get goal peptideDatabase = Some entries ->
  (age < 18 \/ 85 < age)%Z ->
  (forall p, In p entries -> ageSuitable age p = false) /\
  exists suggestions,
    getSuggestions age goal = Return suggestions /\
    map peptide suggestions = entries.
Proof.
  intros G Age. destruct (catalog_lookup goal entries G) as [_ Hin].
  assert (A : forallb (fun byGoal =>
                negb (Nat.eqb (List.length (snd byGoal)) 0)
                && Nat.leb (List.length (snd byGoal)) 3
                && forallb (fun p =>
                     (18 <=? age_min (ageRecommendation p))%Z
                     && (age_max (ageRecommendation p) <=? 85)%Z) (snd byGoal))
              peptideDatabase = true) by (vm_compute; reflexivity).
  rewrite forallb_forall in A. specialize (A _ Hin). cbn [snd] in A.
  apply andb_true_iff in A. destruct A as [A Ranges].
  apply andb_true_iff in A. destruct A as [NE Len].
  apply negb_true_iff, Nat.eqb_neq in NE. apply Nat.leb_le in Len.
  rewrite forallb_forall in Ranges.
  assert (None_ : forall p, In p entries -> ageSuitable age p = false).
  { intros p Hp. specialize (Ranges p Hp).
    apply andb_true_iff in Ranges. destruct Ranges as [Lo Hi].
    apply Z.leb_le in Lo, Hi. unfold ageSuitable. apply andb_false_iff.
    destruct Age; [left; apply Z.leb_gt | right; apply Z.leb_gt]; lia. }
  split; [exact None_ |].
  destruct (getSuggestions_selected age goal entries G) as (suggestions & R & _ & _ & _ & _ & All).
  - intros ->. now apply NE.
  - exact Len.
  - exists suggestions. split; [exact R | now apply All].
Qed.

Lemma age_outside_every_range_gets_all_witness :
  exists suggestions,
    getSuggestions 90 "focus" = Return suggestions /\
    map (fun s => name (peptide s)) suggestions = ["Noopept"; "Selank"; "Cerebrolysin"].
Proof.
  assert (G : exists entries, obj_get "focus" peptideDatabase = Some entries)
    by (eexists; reflexivity).
  destruct G as [entries G].
  destruct (age_outside_every_range_gets_all 90 "focus" entries G) as (_ & l & R & M).
  - right. lia.
  - exists l. split; [exact R |].
    rewrite <- map_map, M. vm_compute in G. injection G as <-. reflexivity.
Defined.

(** ** The routes *)

Lemma logEvent_result ev w : logEvent ev w = (Return tt, snd (logEvent ev w)).
Proof.
  rewrite (surjective_pairing (logEvent ev w)) at 1. now rewrite logEvent_returns.
Qed.

Lemma timestampOf_after_logEvent ev w :
  timestampOf (snd (logEvent ev w)) = timestampOf w.
Proof.
  destruct (logEvent_world ev w) as (_ & C & T & _).
  unfold timestampOf. now rewrite C, T.
Qed.

(** The handler, call by call. *)
Lemma postSuggestions_run requestId age goal w :
  let w1 := snd (logEvent (goalSelection goal) w) in
  postSuggestions requestId age goal w =
  match getSuggestions age goal with
  | Return suggestions =>
      (Return (mkResponse 200
                 (SuggestionsBody true requestId suggestions
                    (mkMeta (timestampOf w) goal (getAgeGroup age)))),
       snd (logEvent (successfulRequest (succeededRequest requestId)) w1))
  | Throw e =>
      (Return (mkResponse 500
                 (FailureBody "Failed to generate suggestions"
                    "An internal error occurred while processing your request. Please try again."
                    requestId)),
       snd (logEvent (failedRequest (failedRequestOf requestId e)) w1))
  end.
Proof.
  cbv zeta. unfold postSuggestions, tryCatch, bind.
  change (logGoalSelection goal) with (logEvent (goalSelection goal)).
  rewrite (logEvent_result (goalSelection goal) w).
  unfold liftOutcome. destruct (getSuggestions age goal) as [suggestions | e].
  - change (logSuccessfulRequest (succeededRequest requestId))
      with (logEvent (successfulRequest (succeededRequest requestId))).
    rewrite logEvent_result. unfold nowISOString, ret.
    now rewrite !timestampOf_after_logEvent.
  - change (logFailedRequest (failedRequestOf requestId e))
      with (logEvent (failedRequest (failedRequestOf requestId e))).
    rewrite logEvent_result. reflexivity.
Qed.

(** X17.  [POST /suggestions] never rejects and answers by the goal alone:
    status 200 with the suggestions of [getSuggestions], the goal and the
    age group for a goal of the catalog, and status 500 with the fixed
    failure text and the request id for any other goal. *)
Theorem postSuggestions_answers requestId age goal w :
  (In goal catalogGoals ->
   exists suggestions generatedAt w',
     getSuggestions age goal = Return suggestions /\
     postSuggestions requestId age goal w =
     (Return (mkResponse 200
                (SuggestionsBody true requestId suggestions
                   (mkMeta generatedAt goal (getAgeGroup age)))), w')) /\
  (~ In goal catalogGoals ->
   exists w',
     postSuggestions requestId age goal w =
     (Return (mkResponse 500
                (FailureBody "Failed to generate suggestions"
                   "An internal error occurred while processing your request. Please try again."
                   requestId)), w')).
Proof.
  pose proof (postSuggestions_run requestId age goal w) as P. cbv zeta in P.
  pose proof (offered_goals_served_or_not age goal) as S.
  split.
  - intros Hin. destruct S as [S _]. destruct (S Hin) as [suggestions R].
    rewrite R in P. exists suggestions. eexists. eexists.
    split; [exact R | exact P].
  - intros Hout. destruct S as [_ S]. destruct (S Hout) as [e R].
    rewrite R in P. eexists. exact P.
Qed.

Lemma postSuggestions_answers_witness :
  (exists suggestions generatedAt w',
     postSuggestions "id-1" 40 "sleep" freshWorld =
     (Return (mkResponse 200
                (SuggestionsBody true "id-1" suggestions
                   (mkMeta generatedAt "sleep" "middle"))), w')) /\
  (exists w',
     postSuggestions "id-2" 40 "weight" freshWorld =
     (Return (mkResponse 500
                (FailureBody "Failed to generate suggestions"
                   "An internal error occurred while processing your request. Please try again."
                   "id-2")), w')).
Proof.
  destruct (postSuggestions_answers "id-1" 40 "sleep" freshWorld) as [Known _].
  destruct (postSuggestions_answers "id-2" 40 "weight" freshWorld) as [_ Unknown].
  split.
  - destruct Known as (suggestions & generatedAt & w' & _ & P); [cbn; tauto |].
    exists suggestions, generatedAt, w'. exact P.
  - apply Unknown. cbn. intuition discriminate.
Defined.




(** ** Any sequence of recording calls *)

Lemma updatedLedger_one_request date ev w analytics :
  (forall r, In r (obj_values (loadedLedger w)) -> totalRequests r <= 1) ->
  updatedLedger date ev w = Return analytics ->
  forall r, In r (obj_values analytics) -> totalRequests r <= 1.
Proof.
  intros Hall. unfold updatedLedger.
  destruct (applyEvent _ ev _) as [dayData' |] eqn:A; [| discriminate].
  destruct (validTime _); [| discriminate].
  intros [= <-] r Hr.
  rewrite pruneBefore_filter in Hr.
  apply in_map_iff in Hr. destruct Hr as (e & <- & He).
  apply filter_In in He. destruct He as [He _].
  apply In_obj_set in He. destruct He as [He | ->].
  - apply Hall. apply in_map_iff. now exists e.
  - change (totalRequests (arrayFromIPs dayData')) with (totalRequests dayData').
    destruct (obj_get date (loadedLedger w)) as [r |] eqn:G.
    + apply obj_get_In in G. apply Hall in G.
      destruct ev as [goal | data | data]; cbn in A;
        [injection A as <-; exact G | discriminate | discriminate].
    + destruct ev as [goal | data | data]; cbn in A; injection A as <-; cbn; lia.
Qed.

Lemma recordAll_app events ev w :
  recordAll (events ++ [ev])%list w = snd (logEvent ev (recordAll events w)).
Proof. unfold recordAll. now rewrite fold_left_app. Qed.

(** X19.  However many requests are recorded, the ledger shows at most one
    a day: over a ledger whose records have at most one request, which a
    missing or unreadable file is, every record still has at most one
    after any sequence of recording calls, while the in-memory counter of
    requests has counted each of them. *)
Theorem ledger_shows_at_most_one_request events w :
  (forall r, In r (obj_values (loadedLedger w)) -> totalRequests r <= 1) ->
  (forall r, In r (obj_values (loadedLedger (recordAll events w))) ->
     totalRequests r <= 1) /\
  counter_requests (dailyCounters (recordAll events w)) =
    counter_requests (dailyCounters w) + List.length (filter isRequest events).
Proof.
  intros H. induction events as [| ev events IH] using rev_ind.
  - split; [exact H | cbn; lia].
  - destruct IH as [L K]. rewrite recordAll_app. split.
    + intros r. rewrite logEvent_run, loadedLedger_after_update.
      rewrite updatedLedger_withCounters.
      change (loadedLedger (withCounters _ (recordAll events w)))
        with (loadedLedger (recordAll events w)).
      destruct (updatedLedger _ ev (recordAll events w)) as [analytics |] eqn:U;
        [| apply L].
      destruct (disk _); [| apply L | intros []].
      exact (updatedLedger_one_request _ _ _ _ L U r).
    + destruct (logEvent_world ev (recordAll events w)) as (_ & _ & _ & C).
      rewrite C, filter_app, length_app.
      destruct ev; cbn; lia.
Qed.

Lemma ledger_shows_at_most_one_request_witness :
  Forall (fun r => totalRequests r <= 1)
    (obj_values (loadedLedger
       (recordAll [goalSelection "sleep"; successfulRequest request_r1;
                   failedRequest request_r1; successfulRequest request_r1]
          freshWorld))) /\
  counter_requests
    (dailyCounters
       (recordAll [goalSelection "sleep"; successfulRequest request_r1;
                   failedRequest request_r1; successfulRequest request_r1]
          freshWorld)) = 3.
Proof.
  destruct (ledger_shows_at_most_one_request
              [goalSelection "sleep"; successfulRequest request_r1;
               failedRequest request_r1; successfulRequest request_r1] freshWorld)
    as [L K].
  - intros r [].
  - split; [apply Forall_forall; exact L | rewrite K; reflexivity].
Defined.
